(** * Passly SDK: a shallow embedding of the query engine

    The development follows the two variants of the SDK that live in the
    repository: the multi-source client ([src/index.js], module [Multi]) and
    the reduced single-source client (module [Single]).

    Conventions of the embedding.
    - A JavaScript number that holds an integer is a [Z]; a [uint256] returned
      by a contract is a [Z] as well, and [BigNumber.toNumber] is the partial
      conversion that throws above [Number.MAX_SAFE_INTEGER].
    - A [Date] is its number of milliseconds since the epoch, a [Z]; the
      reading of the clock ([new Date()]) is an explicit argument [now].
      JavaScript has no [Date] beyond 8.64e15 milliseconds on either side of
      the epoch ([new Date] is then invalid and its arithmetic gives [NaN]);
      the model stands for the code on timestamps within that range, which
      a statement about dates says where it matters ([validDate]).
    - A JavaScript object used as a dictionary is a [gmap string _].
    - An [async] method is a computation of the monad [Async]: it threads the
      list of remote calls issued so far and either returns or throws.
    - A remote contract is a record of oracles, one per method of its ABI;
      an oracle answers with a value or with a thrown [Error], and answers
      the same way each time it is asked during one operation.
    - [Math.floor(a / b)] on integers is [a / b] on [Z] (the floor of the
      exact quotient); the model leaves out the rounding of doubles, which
      does not show for timestamps and counters below 2^53.
    - [console.warn] is not modelled. *)

From Stdlib Require Import ZArith Lia String Ascii List Bool DecimalString Sorted.
From stdpp Require Import base option list gmap strings fin_maps.

Open Scope string_scope.
Open Scope list_scope.
Open Scope Z_scope.

(** ** JavaScript values and helpers *)

Module JS.

Record Error := mkError { message : string }.

Inductive Outcome (A : Type) : Type :=
  | Returned (a : A)
  | Thrown (e : Error).
Arguments Returned {A} a.
Arguments Thrown {A} e.

Definition MAX_SAFE_INTEGER : Z := 2 ^ 53 - 1.

(** [String.prototype.toLowerCase], on the ASCII range. *)
Definition lower_ascii (c : ascii) : ascii :=
    let n := nat_of_ascii c in
    if (65 <=? n)%nat && (n <=? 90)%nat then ascii_of_nat (n + 32) else c.

Fixpoint toLowerCase (s : string) : string :=
    match s with
    | EmptyString => EmptyString
    | String c rest => String (lower_ascii c) (toLowerCase rest)
    end.

(** [String.prototype.includes]. *)
Fixpoint includes (hay needle : string) : bool :=
    String.prefix needle hay ||
    match hay with
    | EmptyString => false
    | String _ rest => includes rest needle
    end.

(** [Array.prototype.includes] on an array of strings. *)
Definition Array_includes (l : list string) (s : string) : bool :=
    existsb (String.eqb s) l.

(** [Array.prototype.some]. *)
Definition some {A} (l : list A) (f : A -> bool) : bool := existsb f l.

(** Truthiness of a value that is [undefined] or a string. *)
Definition truthy (v : option string) : bool :=
    match v with
    | Some s => negb (String.eqb s "")
    | None => false
    end.

(** [v || d] for such a value and a string default. *)
Definition or_else (v : option string) (d : string) : string :=
    match v with
    | Some s => if truthy v then s else d
    | None => d
    end.

(** The test [/^\d+$/]. *)
Definition is_digit (c : ascii) : bool :=
    let n := nat_of_ascii c in (48 <=? n)%nat && (n <=? 57)%nat.

Fixpoint all_digits (s : string) : bool :=
    match s with
    | EmptyString => true
    | String c rest => is_digit c && all_digits rest
    end.

Definition is_decimal (s : string) : bool :=
    negb (String.eqb s "") && all_digits s.

(** [parseInt] on a string of decimal digits. *)
Fixpoint parse_digits (acc : Z) (s : string) : Z :=
    match s with
    | EmptyString => acc
    | String c rest => parse_digits (10 * acc + (Z.of_nat (nat_of_ascii c) - 48)) rest
    end.

Definition parseInt (s : string) : Z := parse_digits 0 s.

Definition MS_PER_DAY : Z := 1000 * 60 * 60 * 24.

End JS.
Export JS.

(** ** Remote calls and the monad of asynchronous methods *)

(** One entry per call that reaches a data source. *)
Inductive Call : Type :=
| Passly_getPassportByAddress (user : string)
| Passly_getPassportData (passportId : Z)
| Passly_getVerifiedPlatforms (passportId : Z)
| Passly_getVerification (passportId : Z) (platform : string)
| Rewards_getPoints (passportId : Z)
| Rewards_getPointBreakdown (passportId : Z).

Definition Trace := list Call.

Definition Async (A : Type) : Type := Trace -> Outcome A * Trace.

Definition ret {A} (a : A) : Async A := fun tr => (Returned a, tr).

Definition throw {A} (e : Error) : Async A := fun tr => (Thrown e, tr).

Definition bind {A B} (m : Async A) (k : A -> Async B) : Async B :=
  fun tr =>
    match m tr with
    | (Returned a, tr') => k a tr'
    | (Thrown e, tr') => (Thrown e, tr')
    end.

(** [try { body } catch (error) { handler }]. *)
Definition try_catch {A} (body : Async A) (handler : Error -> Async A) : Async A :=
  fun tr =>
    match body tr with
    | (Returned a, tr') => (Returned a, tr')
    | (Thrown e, tr') => handler e tr'
    end.

(** [await contract.method(args)]: the call is logged, then the oracle's
    answer is returned or thrown. *)
Definition remote {A} (c : Call) (answer : Outcome A) : Async A :=
  fun tr => (answer, (tr ++ [c])%list).

(** [BigNumber.prototype.toNumber]. *)
Definition toNumber (n : Z) : Async Z :=
  if Z.abs n <=? MAX_SAFE_INTEGER then ret n
  else throw (mkError "overflow").

Declare Scope async_scope.
Delimit Scope async_scope with async.
Notation "'do' x <- m ; k" := (bind m (fun x => k))
  (at level 10, x name, m at level 100, k at level 200) : async_scope.
Notation "'exec' m ; k" := (bind m (fun _ => k))
  (at level 10, m at level 100, k at level 200) : async_scope.
Open Scope async_scope.

(** Synchronous code that may throw, run inside an asynchronous method. *)
Definition lift {A} (o : Outcome A) : Async A := fun tr => (o, tr).

(** Where a block either leaves the method with [return v] or falls through
    to the statements after it. *)
Inductive Flow (R A : Type) : Type :=
| Leave (r : R)
| Next (a : A).
Arguments Leave {R A} r.
Arguments Next {R A} a.



(** ** The multi-source client ([src/index.js]) *)

Module Multi.

(** *** Data sources *)

(** The tuple returned by [getPassportData]; the [uint256] fields are raw. *)
Record PassportData := {
  raw_owner : string;
  raw_createdAt : Z;
  raw_verificationCount : Z;
  raw_category : string;
  raw_totalPoints : Z;
  raw_referralCode : string;
  raw_totalReferrals : Z
}.

(** The tuple returned by [getVerification]. *)
Record VerificationData := {
  raw_identifier : string;
  raw_verifiedAt : Z;
  raw_proofHash : string;
  raw_active : bool;
  raw_pointsAwarded : bool
}.

(** The tuple returned by the rewards contract's [getPointBreakdown]. *)
Record PointBreakdownData := {
  raw_holding : Z;
  raw_platform : Z;
  raw_referral : Z;
  raw_total : Z
}.

(** The identity registry, as seen through its ABI. *)
Record PasslyContract := {
  getPassportByAddress : string -> Outcome Z;
  getPassportData : Z -> Outcome PassportData;
  getVerifiedPlatforms : Z -> Outcome (list string);
  getVerification : Z -> string -> Outcome VerificationData
}.

(** The rewards ledger, as far as the operations below use it. *)
Record RewardsContract := {
  rewards_getPoints : Z -> Outcome Z;
  rewards_getPointBreakdown : Z -> Outcome PointBreakdownData
}.

(** The other three sources are only bound here; no operation below calls them. *)
Record BoundContract := { bound_address : string }.

(** What a provider (or signer) gives access to: the contract deployed at an
    address. *)
Record Provider := {
  passlyAt : string -> PasslyContract;
  rewardsAt : string -> RewardsContract
}.

(** *** The SDK object *)

Record Addresses := {
  addr_passly : string;
  addr_platforms : string;
  addr_archives : string;
  addr_rewards : string;
  addr_leaderboard : string
}.

Record Config := {
  contractAddress : option string;
  platformsAddress : option string;
  archivesAddress : option string;
  rewardsAddress : option string;
  leaderboardAddress : option string;
  provider : option Provider;
  signer : option Provider;
  addresses : option Addresses
}.

(** [this.contracts]: a property that was never assigned is [None]. *)
Record Contracts := {
  c_passly : option PasslyContract;
  c_platforms : option BoundContract;
  c_archives : option BoundContract;
  c_rewards : option RewardsContract;
  c_leaderboard : option BoundContract
}.

Record SDK := {
  config : Config;
  contracts : Contracts;
  isConnected : bool
}.

Definition noConfig : Config :=
  {| contractAddress := None; platformsAddress := None; archivesAddress := None;
     rewardsAddress := None; leaderboardAddress := None; provider := None;
     signer := None; addresses := None |}.

Definition noContracts : Contracts :=
  {| c_passly := None; c_platforms := None; c_archives := None;
     c_rewards := None; c_leaderboard := None |}.

(** [constructor(config = {})]. *)
Definition constructor (cfg : Config) : SDK :=
  {| config := cfg; contracts := noContracts; isConnected := false |}.

(** The object spread [{ ...a, ...b }]: a property of [b] wins when present. *)
Definition override {A} (a b : option A) : option A :=
  match b with
  | Some _ => b
  | None => a
  end.

Definition spread (a b : Config) : Config :=
  {| contractAddress := override (contractAddress a) (contractAddress b);
     platformsAddress := override (platformsAddress a) (platformsAddress b);
     archivesAddress := override (archivesAddress a) (archivesAddress b);
     rewardsAddress := override (rewardsAddress a) (rewardsAddress b);
     leaderboardAddress := override (leaderboardAddress a) (leaderboardAddress b);
     provider := override (provider a) (provider b);
     signer := override (signer a) (signer b);
     addresses := override (addresses a) (addresses b) |}.

Definition DEFAULT_PASSLY := "0x8EEFC0840Bc24e269A2F77B787E9b3e212c4F316".
Definition DEFAULT_PLATFORMS := "0xd2FEEa5775c171D85648198AeB77377fD9AdFe98".
Definition DEFAULT_ARCHIVES := "0xbC57EA3ff9BDE13087b907Dc02e86f08C57574E7".
Definition DEFAULT_REWARDS := "0xEc34ad267a9AACE045Ef4644047BCFeB0f53b0C0".
Definition DEFAULT_LEADERBOARD := "0x7f9c4841346d0ef7970daF02aE3663f8AC5bE540".

Section WithEthers.

(** The two things the client takes from the [ethers] library besides
    contracts: the default JSON-RPC provider of the test network and the
    address syntax check [ethers.utils.isAddress]. *)
Variable defaultProvider : Provider.
Variable isAddress : string -> bool.

(** [connect(options = {})]. *)
Definition connect (this : SDK) (options : Config) : Async SDK :=
  let config0 := spread (config this) options in
  let prov :=
    match provider config0 with
    | Some p => p
    | None => defaultProvider
    end in
  let addrs :=
    {| addr_passly := or_else (contractAddress config0) DEFAULT_PASSLY;
       addr_platforms := or_else (platformsAddress config0) DEFAULT_PLATFORMS;
       addr_archives := or_else (archivesAddress config0) DEFAULT_ARCHIVES;
       addr_rewards := or_else (rewardsAddress config0) DEFAULT_REWARDS;
       addr_leaderboard := or_else (leaderboardAddress config0) DEFAULT_LEADERBOARD |} in
  let contractProvider :=
    match signer config0 with
    | Some s => s
    | None => prov
    end in
  let old := contracts this in
  let contracts' :=
    {| c_passly := Some (passlyAt contractProvider (addr_passly addrs));
       c_platforms :=
         if truthy (Some (addr_platforms addrs))
         then Some {| bound_address := addr_platforms addrs |}
         else c_platforms old;
       c_archives :=
         if truthy (Some (addr_archives addrs))
         then Some {| bound_address := addr_archives addrs |}
         else c_archives old;
       c_rewards :=
         if truthy (Some (addr_rewards addrs))
         then Some (rewardsAt contractProvider (addr_rewards addrs))
         else c_rewards old;
       c_leaderboard :=
         if truthy (Some (addr_leaderboard addrs))
         then Some {| bound_address := addr_leaderboard addrs |}
         else c_leaderboard old |} in
  ret {| config :=
           {| contractAddress := contractAddress config0;
              platformsAddress := platformsAddress config0;
              archivesAddress := archivesAddress config0;
              rewardsAddress := rewardsAddress config0;
              leaderboardAddress := leaderboardAddress config0;
              provider := Some prov;
              signer := signer config0;
              addresses := Some addrs |};
         contracts := contracts';
         isConnected := true |}.

(** [_ensureConnected()]. *)
Definition _ensureConnected (this : SDK) : Async unit :=
  if isConnected this then ret tt
  else throw (mkError "Passly SDK not connected. Call connect() first.").

(** [this.contracts.passly.method(...)]: reading a method of an unassigned
    property is a [TypeError]. *)
Definition withPassly {A} (this : SDK) (k : PasslyContract -> Async A) : Async A :=
  match c_passly (contracts this) with
  | Some c => k c
  | None => throw (mkError "Cannot read properties of undefined")
  end.

(** [getPassportId(address)]. *)
Definition getPassportId (this : SDK) (address : string) : Async (option Z) :=
  exec _ensureConnected this;
  try_catch
    (withPassly this (fun passly =>
       do passportId <- remote (Passly_getPassportByAddress address)
                               (getPassportByAddress passly address);
       do n <- toNumber passportId;
       ret (Some n)))
    (fun error =>
       if includes (message error) "User has no passport" then ret None
       else throw error).

(** [hasPassport(address)]. *)
Definition hasPassport (this : SDK) (address : string) : Async bool :=
  do passportId <- getPassportId this address;
  ret (match passportId with Some _ => true | None => false end).

(** [_resolvePassportId(addressOrPassportId)].  A numeric handle is given by
    its decimal text. *)
Definition _resolvePassportId (this : SDK) (addressOrPassportId : string) : Async Z :=
  if is_decimal addressOrPassportId then ret (parseInt addressOrPassportId)
  else if isAddress addressOrPassportId then
    do passportId <- getPassportId this addressOrPassportId;
    match passportId with
    | Some n => if n =? 0 then throw (mkError "No passport found for address") else ret n
    | None => throw (mkError "No passport found for address")
    end
  else throw (mkError "Invalid address or passport ID").

(** *** Passports *)

Record Verification := {
  identifier : string;
  verifiedAt : Z;
  proofHash : string;
  active : bool;
  pointsAwarded : bool
}.

Record Passport := {
  id : Z;
  owner : string;
  createdAt : Z;
  verificationCount : Z;
  category : string;
  totalPoints : Z;
  referralCode : string;
  totalReferrals : Z;
  platforms : list string;
  verifications : gmap string Verification
}.

(** The body of the [try] inside the loop over the platforms. *)
Definition loadVerification (passly : PasslyContract) (passportId : Z) (platform : string)
    (verifications : gmap string Verification) : Async (gmap string Verification) :=
  do v <- remote (Passly_getVerification passportId platform)
                 (getVerification passly passportId platform);
  do verifiedAt_s <- toNumber (raw_verifiedAt v);
  ret (<[platform :=
          {| identifier := raw_identifier v;
             verifiedAt := verifiedAt_s * 1000;
             proofHash := raw_proofHash v;
             active := raw_active v;
             pointsAwarded := raw_pointsAwarded v |}]> verifications).

(** [for (const platform of platforms) { try { ... } catch (error) { warn } }]:
    a platform whose detail fails to load is skipped. *)
Fixpoint gatherVerifications (this : SDK) (passportId : Z) (platforms : list string)
    (verifications : gmap string Verification) : Async (gmap string Verification) :=
  match platforms with
  | [] => ret verifications
  | platform :: rest =>
      do verifications' <-
        try_catch
          (withPassly this (fun passly =>
             loadVerification passly passportId platform verifications))
          (fun _ => ret verifications);
      gatherVerifications this passportId rest verifications'
  end.

(** [getPassport(address)]. *)
Definition getPassport (this : SDK) (address : string) : Async (option Passport) :=
  exec _ensureConnected this;
  do resolved <-
    try_catch
      (do passportId <- getPassportId this address;
       match passportId with
       | Some n => if n =? 0 then ret (Leave None) else ret (Next n)
       | None => ret (Leave None)
       end)
      (fun _ => ret (Leave None));
  match resolved with
  | Leave r => ret r
  | Next passportId =>
      withPassly this (fun passly =>
        do data <- remote (Passly_getPassportData passportId)
                          (getPassportData passly passportId);
        do platforms <- remote (Passly_getVerifiedPlatforms passportId)
                               (getVerifiedPlatforms passly passportId);
        do verifications <- gatherVerifications this passportId platforms ∅;
        do createdAt_s <- toNumber (raw_createdAt data);
        do verificationCount <- toNumber (raw_verificationCount data);
        do totalPoints <- toNumber (raw_totalPoints data);
        do totalReferrals <- toNumber (raw_totalReferrals data);
        ret (Some {| id := passportId;
                     owner := raw_owner data;
                     createdAt := createdAt_s * 1000;
                     verificationCount := verificationCount;
                     category := raw_category data;
                     totalPoints := totalPoints;
                     referralCode := raw_referralCode data;
                     totalReferrals := totalReferrals;
                     platforms := platforms;
                     verifications := verifications |}))
  end.

(** [getVerifications(addressOrPassportId)]. *)
Definition getVerifications (this : SDK) (addressOrPassportId : string)
    : Async (gmap string Verification) :=
  exec _ensureConnected this;
  do passportId <- _resolvePassportId this addressOrPassportId;
  withPassly this (fun passly =>
    do platforms <- remote (Passly_getVerifiedPlatforms passportId)
                           (getVerifiedPlatforms passly passportId);
    gatherVerifications this passportId platforms ∅).

(** *** Points *)

Record PointBreakdown := {
  holding : Z;
  platform : Z;
  referral : Z;
  total : Z
}.

(** The branch of [getPoints] taken when no rewards contract is bound. *)
Definition getPoints_fallback (this : SDK) (addressOrPassportId : string) : Async (option Z) :=
  do passport <- getPassport this addressOrPassportId;
  ret (match passport with Some p => Some (totalPoints p) | None => None end).

(** The branch of [getPoints] that asks the rewards contract. *)
Definition getPoints_rewards (this : SDK) (rewards : RewardsContract)
    (addressOrPassportId : string) : Async (option Z) :=
  try_catch
    (do passportId <- _resolvePassportId this addressOrPassportId;
     do points <- remote (Rewards_getPoints passportId) (rewards_getPoints rewards passportId);
     do n <- toNumber points;
     ret (Some n))
    (fun _ => ret None).

(** [getPoints(addressOrPassportId)]. *)
Definition getPoints (this : SDK) (addressOrPassportId : string) : Async (option Z) :=
  exec _ensureConnected this;
  match c_rewards (contracts this) with
  | None => getPoints_fallback this addressOrPassportId
  | Some rewards => getPoints_rewards this rewards addressOrPassportId
  end.

(** The part of [getPointBreakdown] that asks the rewards contract. *)
Definition getPointBreakdown_rewards (this : SDK) (rewards : RewardsContract)
    (addressOrPassportId : string) : Async (option PointBreakdown) :=
  try_catch
    (do passportId <- _resolvePassportId this addressOrPassportId;
     do b <- remote (Rewards_getPointBreakdown passportId)
                    (rewards_getPointBreakdown rewards passportId);
     do h <- toNumber (raw_holding b);
     do p <- toNumber (raw_platform b);
     do r <- toNumber (raw_referral b);
     do t <- toNumber (raw_total b);
     ret (Some {| holding := h; platform := p; referral := r; total := t |}))
    (fun _ => ret None).

(** [getPointBreakdown(addressOrPassportId)]. *)
Definition getPointBreakdown (this : SDK) (addressOrPassportId : string)
    : Async (option PointBreakdown) :=
  exec _ensureConnected this;
  match c_rewards (contracts this) with
  | None => ret None
  | Some rewards => getPointBreakdown_rewards this rewards addressOrPassportId
  end.

(** *** Convenience views *)

(** [getUserVerifications(address)]: the loop [for (platform in
    passport.verifications)] keeps the identifier of each active entry. *)
Definition activeIdentifiers (verifications : gmap string Verification) : gmap string string :=
  map_fold
    (fun platform verification result =>
       if active verification then <[platform := identifier verification]> result
       else result)
    ∅ verifications.

Definition getUserVerifications (this : SDK) (address : string)
    : Async (option (gmap string string)) :=
  do passport <- getPassport this address;
  match passport with
  | None => ret None
  | Some p => ret (Some (activeIdentifiers (verifications p)))
  end.

(** *** Verification strength *)

Record Breakdown := {
  platformCount : Z;
  ageBonus : Z;
  diversityBonus : Z;
  pointsBonus : Z;
  totalScore : Z
}.

Record VerificationStrength := {
  score : Z;
  grade : string;
  breakdown : Breakdown;
  activePlatforms : Z;
  accountAge : Z
}.

Definition socialPlatforms : list string := ["twitter"; "discord"; "telegram"; "instagram"].
Definition devPlatforms : list string := ["github"; "gitlab"].
Definition chainPlatforms : list string := ["solana"; "ethereum"].

(** [passport.platforms.filter(platform => passport.verifications[platform].active)]:
    a listed platform without an entry makes the callback read [.active] of
    [undefined], a [TypeError]. *)
Fixpoint filterActive (verifications : gmap string Verification) (platforms : list string)
    : Outcome (list string) :=
  match platforms with
  | [] => Returned []
  | platform :: rest =>
      match verifications !! platform with
      | None => Thrown (mkError "Cannot read properties of undefined (reading 'active')")
      | Some v =>
          match filterActive verifications rest with
          | Returned kept => Returned (if active v then platform :: kept else kept)
          | Thrown e => Thrown e
          end
      end
  end.

(** The nested conditional that picks the letter. *)
Definition gradeOf (totalScore : Z) : string :=
  if totalScore >=? 80 then "A"
  else if totalScore >=? 60 then "B"
  else if totalScore >=? 40 then "C"
  else if totalScore >=? 20 then "D"
  else "F".

(** The body of [getVerificationStrength] after the active platforms are
    known; [now] is the clock reading in milliseconds. *)
Definition strengthOf (now : Z) (passport : Passport) (activePlatforms : list string)
    : VerificationStrength :=
  let score := 0 in
  let platformCount := Z.min (Z.of_nat (length activePlatforms) * 15) 75 in
  let score := score + platformCount in
  let ageInDays := (now - createdAt passport) / MS_PER_DAY in
  let ageBonus := Z.min (ageInDays / 30) 10 in
  let score := score + ageBonus in
  let types :=
    List.filter (fun b : bool => b)
      [ some activePlatforms (Array_includes socialPlatforms);
        some activePlatforms (Array_includes devPlatforms);
        some activePlatforms (Array_includes chainPlatforms) ] in
  let diverse := (2 <=? length types)%nat in
  let diversityBonus := if diverse then 10 else 0 in
  let score := if diverse then score + 10 else score in
  let rewarded := totalPoints passport >? 0 in
  let pointsBonus := if rewarded then Z.min (totalPoints passport / 100) 5 else 0 in
  let score := if rewarded then score + pointsBonus else score in
  let totalScore := Z.min score 100 in
  {| score := totalScore;
     grade := gradeOf totalScore;
     breakdown :=
       {| platformCount := platformCount;
          ageBonus := ageBonus;
          diversityBonus := diversityBonus;
          pointsBonus := pointsBonus;
          totalScore := totalScore |};
     activePlatforms := Z.of_nat (length activePlatforms);
     accountAge := ageInDays |}.

(** [getVerificationStrength(address)]. *)
Definition getVerificationStrength (this : SDK) (now : Z) (address : string)
    : Async (option VerificationStrength) :=
  do passport <- getPassport this address;
  match passport with
  | None => ret None
  | Some p =>
      do activePlatforms <- lift (filterActive (verifications p) (platforms p));
      ret (Some (strengthOf now p activePlatforms))
  end.

(** [hasVerifiedPlatform(address, platform)].  A key that names a property
    of [Object.prototype] is outside the model of the mapping. *)
Definition hasVerifiedPlatform (this : SDK) (address platform : string) : Async bool :=
  do verifications <- getUserVerifications this address;
  ret (match verifications with
       | Some m =>
           match m !! toLowerCase platform with
           | Some _ => true
           | None => false
           end
       | None => false
       end).

(** [getPlatformIdentifier(address, platform)]. *)
Definition getPlatformIdentifier (this : SDK) (address platform : string)
    : Async (option string) :=
  exec _ensureConnected this;
  try_catch
    (do passportId <- getPassportId this address;
     match passportId with
     | Some n =>
         if n =? 0 then ret None
         else
           withPassly this (fun passly =>
             do v <- remote (Passly_getVerification n (toLowerCase platform))
                            (getVerification passly n (toLowerCase platform));
             ret (if raw_active v then Some (raw_identifier v) else None))
     | None => ret None
     end)
    (fun _ => ret None).

(** [getProofHash(address, platform)]. *)
Definition getProofHash (this : SDK) (address platform : string) : Async (option string) :=
  do passport <- getPassport this address;
  match passport with
  | None => ret None
  | Some p =>
      match verifications p !! toLowerCase platform with
      | None => ret None
      | Some verification =>
          if active verification then ret (Some (proofHash verification)) else ret None
      end
  end.

(** The loop of [getAllProofHashes]: the hash of a platform is stored when
    its detail loads and is active; a failing fetch is skipped. *)
Fixpoint gatherProofHashes (this : SDK) (passportId : Z) (platforms : list string)
    (proofHashes : gmap string string) : Async (gmap string string) :=
  match platforms with
  | [] => ret proofHashes
  | platform :: rest =>
      do proofHashes' <-
        try_catch
          (withPassly this (fun passly =>
             do v <- remote (Passly_getVerification passportId platform)
                            (getVerification passly passportId platform);
             ret (if raw_active v then <[platform := raw_proofHash v]> proofHashes
                  else proofHashes)))
          (fun _ => ret proofHashes);
      gatherProofHashes this passportId rest proofHashes'
  end.

(** [getAllProofHashes(address)]. *)
Definition getAllProofHashes (this : SDK) (address : string)
    : Async (option (gmap string string)) :=
  exec _ensureConnected this;
  try_catch
    (do passportId <- getPassportId this address;
     match passportId with
     | Some n =>
         if n =? 0 then ret None
         else
           withPassly this (fun passly =>
             do platforms <- remote (Passly_getVerifiedPlatforms n)
                                    (getVerifiedPlatforms passly n);
             do proofHashes <- gatherProofHashes this n platforms ∅;
             ret (if (0 <? size proofHashes)%nat then Some proofHashes else None))
     | None => ret None
     end)
    (fun _ => ret None).

End WithEthers.

End Multi.

(** ** The single-source client *)

Module Single.

(** The tuple returned by [getPassportData] of the single contract. *)
Record PassportData := {
  raw_owner : string;
  raw_createdAt : Z;
  raw_verificationCount : Z;
  raw_category : string
}.

Record VerificationData := {
  raw_identifier : string;
  raw_verifiedAt : Z;
  raw_proofHash : string;
  raw_active : bool
}.

Record Contract := {
  getPassportByAddress : string -> Outcome Z;
  getPassportData : Z -> Outcome PassportData;
  getVerifiedPlatforms : Z -> Outcome (list string);
  getVerification : Z -> string -> Outcome VerificationData
}.

Record Provider := { contractAt : string -> Contract }.

Record Config := {
  contractAddress : option string;
  provider : option Provider;
  signer : option Provider
}.

(** [this.contract] is [null] until [connect] assigns it. *)
Record SDK := {
  config : Config;
  contract : option Contract;
  isConnected : bool
}.

Definition constructor (cfg : Config) : SDK :=
  {| config := cfg; contract := None; isConnected := false |}.

Definition DEFAULT_CONTRACT := "0xdf88A23Dab48210b80a44128db4Ce8A786E327be".

Definition override {A} (a b : option A) : option A :=
  match b with
  | Some _ => b
  | None => a
  end.

Section WithEthers.

Variable defaultProvider : Provider.

(** [connect(options = {})]. *)
Definition connect (this : SDK) (options : Config) : Async SDK :=
  let prov0 := override (provider (config this)) (provider options) in
  let prov := match prov0 with Some p => p | None => defaultProvider end in
  let sign := override (signer (config this)) (signer options) in
  let address :=
    or_else (override (contractAddress (config this)) (contractAddress options))
            DEFAULT_CONTRACT in
  let c :=
    match sign with
    | Some s => contractAt s address
    | None => contractAt prov address
    end in
  ret {| config := {| contractAddress := Some address; provider := Some prov; signer := sign |};
         contract := Some c;
         isConnected := true |}.

End WithEthers.

(** [_ensureConnected()]. *)
Definition _ensureConnected (this : SDK) : Async unit :=
  if isConnected this then ret tt
  else throw (mkError "Passly SDK not connected. Call connect() first.").

(** [this.contract.method(...)]: a method read on [null] is a [TypeError]. *)
Definition withContract {A} (this : SDK) (k : Contract -> Async A) : Async A :=
  match contract this with
  | Some c => k c
  | None => throw (mkError "Cannot read properties of null")
  end.

(** [getPassportId(address)]. *)
Definition getPassportId (this : SDK) (address : string) : Async (option Z) :=
  exec _ensureConnected this;
  try_catch
    (withContract this (fun contract =>
       do passportId <- remote (Passly_getPassportByAddress address)
                               (getPassportByAddress contract address);
       do n <- toNumber passportId;
       ret (Some n)))
    (fun error =>
       if includes (message error) "User has no passport" then ret None
       else throw error).

(** [hasPassport(address)]. *)
Definition hasPassport (this : SDK) (address : string) : Async bool :=
  do passportId <- getPassportId this address;
  ret (match passportId with Some _ => true | None => false end).

Record Verification := {
  identifier : string;
  verifiedAt : Z;
  proofHash : string;
  active : bool
}.

Record Passport := {
  id : Z;
  owner : string;
  createdAt : Z;
  verificationCount : Z;
  category : string;
  platforms : list string;
  verifications : gmap string Verification
}.

(** [for (const platform of platforms) { ... }] with no handler around the
    fetch: the first failure leaves the loop and the method. *)
Fixpoint gatherVerifications (contract : Contract) (passportId : Z) (platforms : list string)
    (verifications : gmap string Verification) : Async (gmap string Verification) :=
  match platforms with
  | [] => ret verifications
  | platform :: rest =>
      do v <- remote (Passly_getVerification passportId platform)
                     (getVerification contract passportId platform);
      do verifiedAt_s <- toNumber (raw_verifiedAt v);
      gatherVerifications contract passportId rest
        (<[platform :=
             {| identifier := raw_identifier v;
                verifiedAt := verifiedAt_s * 1000;
                proofHash := raw_proofHash v;
                active := raw_active v |}]> verifications)
  end.

(** [getPassport(address)]. *)
Definition getPassport (this : SDK) (address : string) : Async (option Passport) :=
  exec _ensureConnected this;
  do resolved <-
    try_catch
      (do passportId <- getPassportId this address; ret (Next passportId))
      (fun _ => ret (Leave None));
  match resolved with
  | Leave r => ret r
  | Next passportId =>
      match passportId with
      | None => ret None
      | Some n =>
          if n =? 0 then ret None
          else
            withContract this (fun contract =>
              do data <- remote (Passly_getPassportData n) (getPassportData contract n);
              do platforms <- remote (Passly_getVerifiedPlatforms n)
                                     (getVerifiedPlatforms contract n);
              do verifications <- gatherVerifications contract n platforms ∅;
              do createdAt_s <- toNumber (raw_createdAt data);
              do verificationCount <- toNumber (raw_verificationCount data);
              ret (Some {| id := n;
                           owner := raw_owner data;
                           createdAt := createdAt_s * 1000;
                           verificationCount := verificationCount;
                           category := raw_category data;
                           platforms := platforms;
                           verifications := verifications |}))
      end
  end.

(** [getVerifications(passportId)]. *)
Definition getVerifications (this : SDK) (passportId : Z) : Async (gmap string Verification) :=
  exec _ensureConnected this;
  withContract this (fun contract =>
    do platforms <- remote (Passly_getVerifiedPlatforms passportId)
                           (getVerifiedPlatforms contract passportId);
    gatherVerifications contract passportId platforms ∅).

(** [getUserVerifications(address)]. *)
Definition activeIdentifiers (verifications : gmap string Verification) : gmap string string :=
  map_fold
    (fun platform verification result =>
       if active verification then <[platform := identifier verification]> result
       else result)
    ∅ verifications.

Definition getUserVerifications (this : SDK) (address : string)
    : Async (option (gmap string string)) :=
  do passport <- getPassport this address;
  match passport with
  | None => ret None
  | Some p => ret (Some (activeIdentifiers (verifications p)))
  end.

(** *** Earliest verification and strength *)

Record Earliest := {
  e_platform : string;
  e_identifier : string;
  e_verifiedAt : Z;
  e_proofHash : string
}.

Record EarliestVerification := {
  earliest : Earliest;
  ageInDays : Z
}.

(** The loop of [getEarliestVerification]; [earliestDate] is the [verifiedAt]
    of [earliest], and a [Date] object is truthy. *)
Fixpoint findEarliest (verifications : gmap string Verification) (platforms : list string)
    (earliest : option Earliest) : Outcome (option Earliest) :=
  match platforms with
  | [] => Returned earliest
  | platform :: rest =>
      match verifications !! platform with
      | None => Thrown (mkError "Cannot read properties of undefined (reading 'active')")
      | Some verification =>
          let older :=
            match earliest with
            | None => true
            | Some e => verifiedAt verification <? e_verifiedAt e
            end in
          if active verification && older
          then findEarliest verifications rest
                 (Some {| e_platform := platform;
                          e_identifier := identifier verification;
                          e_verifiedAt := verifiedAt verification;
                          e_proofHash := proofHash verification |})
          else findEarliest verifications rest earliest
      end
  end.

(** [getEarliestVerification(address)]. *)
Definition getEarliestVerification (this : SDK) (now : Z) (address : string)
    : Async (option EarliestVerification) :=
  do passport <- getPassport this address;
  match passport with
  | None => ret None
  | Some p =>
      if (length (platforms p) =? 0)%nat then ret None
      else
        do found <- lift (findEarliest (verifications p) (platforms p) None);
        match found with
        | Some e =>
            let ageInMs := now - e_verifiedAt e in
            ret (Some {| earliest := e; ageInDays := ageInMs / MS_PER_DAY |})
        | None => ret None
        end
  end.

Record Breakdown := {
  platformCount : Z;
  ageBonus : Z;
  diversityBonus : Z;
  totalScore : Z
}.

Record VerificationStrength := {
  score : Z;
  grade : string;
  breakdown : Breakdown;
  activePlatforms : Z;
  accountAge : Z
}.

Definition socialPlatforms : list string := ["twitter"; "discord"; "telegram"; "instagram"].
Definition devPlatforms : list string := ["github"; "gitlab"].

Fixpoint filterActive (verifications : gmap string Verification) (platforms : list string)
    : Outcome (list string) :=
  match platforms with
  | [] => Returned []
  | platform :: rest =>
      match verifications !! platform with
      | None => Thrown (mkError "Cannot read properties of undefined (reading 'active')")
      | Some v =>
          match filterActive verifications rest with
          | Returned kept => Returned (if active v then platform :: kept else kept)
          | Thrown e => Thrown e
          end
      end
  end.

Definition gradeOf (totalScore : Z) : string :=
  if totalScore >=? 80 then "A"
  else if totalScore >=? 60 then "B"
  else if totalScore >=? 40 then "C"
  else if totalScore >=? 20 then "D"
  else "F".

(** The body of [getVerificationStrength] once the active platforms and the
    earliest verification are known.  [Math.floor(ageInDays / 24.33)] is the
    floor of the exact quotient [100 * ageInDays / 2433]. *)
Definition strengthOf (activePlatforms : list string) (earliest : option EarliestVerification)
    : VerificationStrength :=
  let score := 0 in
  let platformCount := Z.min (Z.of_nat (length activePlatforms) * 20) 80 in
  let score := score + platformCount in
  let ageBonus :=
    match earliest with
    | Some e => Z.min (ageInDays e * 100 / 2433) 15
    | None => 0
    end in
  let score := score + ageBonus in
  let hasSocial := some activePlatforms (Array_includes socialPlatforms) in
  let hasDev := some activePlatforms (Array_includes devPlatforms) in
  let diversityBonus := if hasSocial && hasDev then 5 else 0 in
  let score := score + diversityBonus in
  let totalScore := Z.min score 100 in
  {| score := totalScore;
     grade := gradeOf totalScore;
     breakdown :=
       {| platformCount := platformCount;
          ageBonus := ageBonus;
          diversityBonus := diversityBonus;
          totalScore := totalScore |};
     activePlatforms := Z.of_nat (length activePlatforms);
     accountAge := match earliest with Some e => ageInDays e | None => 0 end |}.

(** [getVerificationStrength(address)]. *)
Definition getVerificationStrength (this : SDK) (now : Z) (address : string)
    : Async (option VerificationStrength) :=
  do passport <- getPassport this address;
  match passport with
  | None => ret None
  | Some p =>
      do activePlatforms <- lift (filterActive (verifications p) (platforms p));
      do earliest <- getEarliestVerification this now address;
      ret (Some (strengthOf activePlatforms earliest))
  end.

(** *** Category scan *)

Record UserSummary := {
  u_id : Z;
  u_owner : string;
  u_createdAt : Z;
  u_verificationCount : Z;
  u_category : string;
  u_platforms : list string
}.

(** The variables of the loop of [getUsersByCategory]. *)
Record ScanState := {
  results : list UserSummary;
  currentId : Z;
  found : Z;
  attempts : Z
}.

(** The [try] block of one iteration. *)
Definition probe (this : SDK) (normalizedCategory : string) (st : ScanState) : Async ScanState :=
  withContract this (fun contract =>
    do data <- remote (Passly_getPassportData (currentId st))
                      (getPassportData contract (currentId st));
    if String.eqb (toLowerCase (raw_category data)) normalizedCategory then
      do platforms <- remote (Passly_getVerifiedPlatforms (currentId st))
                             (getVerifiedPlatforms contract (currentId st));
      do createdAt_s <- toNumber (raw_createdAt data);
      do verificationCount <- toNumber (raw_verificationCount data);
      ret {| results :=
               (results st ++
                [{| u_id := currentId st;
                    u_owner := raw_owner data;
                    u_createdAt := createdAt_s * 1000;
                    u_verificationCount := verificationCount;
                    u_category := raw_category data;
                    u_platforms := platforms |}])%list;
             currentId := currentId st;
             found := found st + 1;
             attempts := attempts st |}
    else ret st).

(** One iteration: the [try], its empty [catch], then the two increments. *)
Definition iteration (this : SDK) (normalizedCategory : string) (st : ScanState)
    : Async ScanState :=
  do st' <- try_catch (probe this normalizedCategory st) (fun _ => ret st);
  ret {| results := results st';
         currentId := currentId st' + 1;
         found := found st';
         attempts := attempts st' + 1 |}.

(** [while (found < limit && attempts < maxAttempts) { ... }]; [None] when the
    fuel is used up before the condition turns false. *)
Fixpoint scan (fuel : nat) (this : SDK) (normalizedCategory : string)
    (limit maxAttempts : Z) (st : ScanState) : Async (option ScanState) :=
  match fuel with
  | O => ret None
  | S fuel' =>
      if (found st <? limit) && (attempts st <? maxAttempts) then
        do st' <- iteration this normalizedCategory st;
        scan fuel' this normalizedCategory limit maxAttempts st'
      else ret (Some st)
  end.

(** [getUsersByCategory(category, limit = 10, startId = 1)]. *)
Definition getUsersByCategory (fuel : nat) (this : SDK) (category : string)
    (limit startId : Z) : Async (option (list UserSummary)) :=
  exec _ensureConnected this;
  let normalizedCategory := toLowerCase category in
  let maxAttempts := limit * 10 in
  do final <- scan fuel this normalizedCategory limit maxAttempts
                {| results := []; currentId := startId; found := 0; attempts := 0 |};
  ret (match final with Some st => Some (results st) | None => None end).

(** The identifiers whose base record a trace asked for, in order. *)
Fixpoint probes (tr : Trace) : list Z :=
  match tr with
  | [] => []
  | Passly_getPassportData passportId :: rest => passportId :: probes rest
  | _ :: rest => probes rest
  end.

(** [k] consecutive identifiers from [start]. *)
Fixpoint consecutive (start : Z) (k : nat) : list Z :=
  match k with
  | O => []
  | S k' => start :: consecutive (start + 1) k'
  end.

(** *** Further views of the single-source client *)

(** A number inside a template literal. *)
Definition showNumber (n : Z) : string := NilZero.string_of_int (Z.to_int n).

(** [`${n} unit${n !== 1 ? 's' : ''}`]. *)
Definition plural (n : Z) (unit : string) : string :=
  String.append (showNumber n)
    (String.append " " (String.append unit (if n =? 1 then "" else "s"))).

(** The [humanReadable] property of the object that [getEarliestVerification]
    returns. *)
Definition earliestHumanReadable (e : EarliestVerification) : string :=
  String.append (plural (ageInDays e) "day") " ago".

(** [hasVerifiedPlatform(address, platform)]. *)
Definition hasVerifiedPlatform (this : SDK) (address platform : string) : Async bool :=
  do verifications <- getUserVerifications this address;
  ret (match verifications with
       | Some m =>
           match m !! toLowerCase platform with
           | Some _ => true
           | None => false
           end
       | None => false
       end).

(** [getPlatformIdentifier(address, platform)]: [verifications[...] || null]
    turns a missing key and an empty identifier into null. *)
Definition getPlatformIdentifier (this : SDK) (address platform : string)
    : Async (option string) :=
  do verifications <- getUserVerifications this address;
  match verifications with
  | None => ret None
  | Some m =>
      ret (match m !! toLowerCase platform with
           | Some ident => if String.eqb ident "" then None else Some ident
           | None => None
           end)
  end.

Record VerificationAge := {
  va_platform : string;
  va_identifier : string;
  va_verifiedAt : Z;
  ageInMs : Z;
  ageInMinutes : Z;
  ageInHours : Z;
  va_ageInDays : Z;
  humanReadable : string
}.

(** [getVerificationAge(address, platform)]. *)
Definition getVerificationAge (this : SDK) (now : Z) (address platform : string)
    : Async (option VerificationAge) :=
  do passport <- getPassport this address;
  match passport with
  | None => ret None
  | Some p =>
      match verifications p !! toLowerCase platform with
      | None => ret None
      | Some verification =>
          if active verification then
            let ms := now - verifiedAt verification in
            let days := ms / MS_PER_DAY in
            let hours := ms / (1000 * 60 * 60) in
            let minutes := ms / (1000 * 60) in
            ret (Some {| va_platform := toLowerCase platform;
                         va_identifier := identifier verification;
                         va_verifiedAt := verifiedAt verification;
                         ageInMs := ms;
                         ageInMinutes := minutes;
                         ageInHours := hours;
                         va_ageInDays := days;
                         humanReadable :=
                           if days >? 0 then plural days "day"
                           else if hours >? 0 then plural hours "hour"
                           else plural minutes "minute" |})
          else ret None
      end
  end.

(** [getProofHash(address, platform)]. *)
Definition getProofHash (this : SDK) (address platform : string) : Async (option string) :=
  do passport <- getPassport this address;
  match passport with
  | None => ret None
  | Some p =>
      match verifications p !! toLowerCase platform with
      | None => ret None
      | Some verification =>
          if active verification then ret (Some (proofHash verification)) else ret None
      end
  end.

(** The loop of [getAllProofHashes] over [passport.platforms]; a listed
    platform without entry is a [TypeError]. *)
Fixpoint collectProofHashes (verifications : gmap string Verification)
    (platforms : list string) (proofHashes : gmap string string)
    : Outcome (gmap string string) :=
  match platforms with
  | [] => Returned proofHashes
  | platform :: rest =>
      match verifications !! platform with
      | None => Thrown (mkError "Cannot read properties of undefined (reading 'active')")
      | Some verification =>
          collectProofHashes verifications rest
            (if active verification then <[platform := proofHash verification]> proofHashes
             else proofHashes)
      end
  end.

(** [getAllProofHashes(address)]. *)
Definition getAllProofHashes (this : SDK) (address : string)
    : Async (option (gmap string string)) :=
  do passport <- getPassport this address;
  match passport with
  | None => ret None
  | Some p =>
      do proofHashes <- lift (collectProofHashes (verifications p) (platforms p) ∅);
      ret (Some proofHashes)
  end.

End Single.

(** ** Vocabulary of the statements *)

Module Props.

(** The active platforms of a multi-source passport, in the order of its
    platform list: those whose entry exists and is active. *)
Definition activePlatformsOf (p : Multi.Passport) : list string :=
  List.filter
    (fun platform =>
       match Multi.verifications p !! platform with
       | Some v => Multi.active v
       | None => false
       end)
    (Multi.platforms p).

(** Every listed platform has its entry in the mapping. *)
Definition allLoaded (p : Multi.Passport) : Prop :=
  forall platform, In platform (Multi.platforms p) ->
    is_Some (Multi.verifications p !! platform).

(** Some platform of [l] belongs to the set [set]. *)
Definition spans (set l : list string) : Prop :=
  exists platform, In platform l /\ In platform set.

(** The platforms [l] touch at least two of the three fixed sets. *)
Definition spansTwo (l : list string) : Prop :=
  (spans Multi.socialPlatforms l /\ spans Multi.devPlatforms l) \/
  (spans Multi.socialPlatforms l /\ spans Multi.chainPlatforms l) \/
  (spans Multi.devPlatforms l /\ spans Multi.chainPlatforms l).

(** How many platforms of [l] belong to [set]. *)
Definition countIn (set l : list string) : nat :=
  length (List.filter (Array_includes set) l).

(** A number that [toNumber] converts without throwing. *)
Definition safe (n : Z) : Prop := (Z.abs n <=? MAX_SAFE_INTEGER) = true.

(** The entry that the multi-source client stores for a platform when its
    detail loads: the fetch returns and the timestamp converts. *)
Definition loadedMulti (passly : Multi.PasslyContract) (passportId : Z) (platform : string)
    : option Multi.Verification :=
  match Multi.getVerification passly passportId platform with
  | Returned v =>
      if Z.abs (Multi.raw_verifiedAt v) <=? MAX_SAFE_INTEGER then
        Some {| Multi.identifier := Multi.raw_identifier v;
                Multi.verifiedAt := Multi.raw_verifiedAt v * 1000;
                Multi.proofHash := Multi.raw_proofHash v;
                Multi.active := Multi.raw_active v;
                Multi.pointsAwarded := Multi.raw_pointsAwarded v |}
      else None
  | Thrown _ => None
  end.

(** The same for the single-source client. *)
Definition loadedSingle (contract : Single.Contract) (passportId : Z) (platform : string)
    : option Single.Verification :=
  match Single.getVerification contract passportId platform with
  | Returned v =>
      if Z.abs (Single.raw_verifiedAt v) <=? MAX_SAFE_INTEGER then
        Some {| Single.identifier := Single.raw_identifier v;
                Single.verifiedAt := Single.raw_verifiedAt v * 1000;
                Single.proofHash := Single.raw_proofHash v;
                Single.active := Single.raw_active v |}
      else None
  | Thrown _ => None
  end.

(** The base record of the passport [n] of [address] loads from the registry
    [passly]: the lookup, the record, the platform list [l], and the
    conversions of the numeric fields all succeed. *)
Definition baseLoadsMulti (passly : Multi.PasslyContract) (address : string) (n : Z)
    (data : Multi.PassportData) (l : list string) : Prop :=
  Multi.getPassportByAddress passly address = Returned n /\
  n <> 0 /\ safe n /\
  Multi.getPassportData passly n = Returned data /\
  Multi.getVerifiedPlatforms passly n = Returned l /\
  safe (Multi.raw_createdAt data) /\ safe (Multi.raw_verificationCount data) /\
  safe (Multi.raw_totalPoints data) /\ safe (Multi.raw_totalReferrals data).

Definition baseLoadsSingle (contract : Single.Contract) (address : string) (n : Z)
    (data : Single.PassportData) (l : list string) : Prop :=
  Single.getPassportByAddress contract address = Returned n /\
  n <> 0 /\ safe n /\
  Single.getPassportData contract n = Returned data /\
  Single.getVerifiedPlatforms contract n = Returned l /\
  safe (Single.raw_createdAt data) /\ safe (Single.raw_verificationCount data).

(** The calls that [getPassport] issues for passport [n] before it fetches
    the details of the platforms. *)
Definition baseCalls (address : string) (n : Z) : Trace :=
  [Passly_getPassportByAddress address; Passly_getPassportData n;
   Passly_getVerifiedPlatforms n].

(** A result of the category scan that comes from a probe in [lo, hi): the
    base record of its identifier loaded and carries its category, which is
    the normalized category [cat] up to case. *)
Definition matchOf (contract : Single.Contract) (cat : string) (lo hi : Z)
    (r : Single.UserSummary) : Prop :=
  lo <= Single.u_id r < hi /\
  toLowerCase (Single.u_category r) = cat /\
  exists data,
    Single.getPassportData contract (Single.u_id r) = Returned data /\
    Single.u_category r = Single.raw_category data.

(** The session [this] with its rewards binding replaced by [r]. *)
Definition withRewards (this : Multi.SDK) (r : option Multi.RewardsContract) : Multi.SDK :=
  {| Multi.config := Multi.config this;
     Multi.contracts :=
       {| Multi.c_passly := Multi.c_passly (Multi.contracts this);
          Multi.c_platforms := Multi.c_platforms (Multi.contracts this);
          Multi.c_archives := Multi.c_archives (Multi.contracts this);
          Multi.c_rewards := r;
          Multi.c_leaderboard := Multi.c_leaderboard (Multi.contracts this) |};
     Multi.isConnected := Multi.isConnected this |}.

End Props.

(** ** Concrete sessions used by the examples below *)

Module Fixtures.

(** A registry with one passport, number 7, owned by ["0xA11CE"]: six
    platforms, all active, created at second 1000000, 250 points. *)
Definition sixPlatforms : list string :=
  ["twitter"; "discord"; "telegram"; "github"; "gitlab"; "solana"].

Definition registryB : Multi.PasslyContract :=
  {| Multi.getPassportByAddress := fun user =>
       if String.eqb user "0xA11CE" then Returned 7
       else Thrown (mkError "execution reverted: User has no passport");
     Multi.getPassportData := fun passportId =>
       if passportId =? 7 then
         Returned {| Multi.raw_owner := "0xA11CE"; Multi.raw_createdAt := 1000000;
                     Multi.raw_verificationCount := 6; Multi.raw_category := "Developer";
                     Multi.raw_totalPoints := 250; Multi.raw_referralCode := "REF7";
                     Multi.raw_totalReferrals := 0 |}
       else Thrown (mkError "execution reverted: Passport does not exist");
     Multi.getVerifiedPlatforms := fun passportId =>
       if passportId =? 7 then Returned sixPlatforms
       else Thrown (mkError "execution reverted: Passport does not exist");
     Multi.getVerification := fun passportId platform =>
       if (passportId =? 7) && Array_includes sixPlatforms platform then
         Returned {| Multi.raw_identifier := "alice"; Multi.raw_verifiedAt := 1000100;
                     Multi.raw_proofHash := "0xfeed"; Multi.raw_active := true;
                     Multi.raw_pointsAwarded := true |}
       else Thrown (mkError "execution reverted: Verification not found") |}.

(** A session bound to [registryB] with no rewards contract. *)
Definition sdkB_noRewards : Multi.SDK :=
  {| Multi.config := Multi.noConfig;
     Multi.contracts :=
       {| Multi.c_passly := Some registryB; Multi.c_platforms := None;
          Multi.c_archives := None; Multi.c_rewards := None;
          Multi.c_leaderboard := None |};
     Multi.isConnected := true |}.

(** A rewards ledger that knows passport 7. *)
Definition rewardsB : Multi.RewardsContract :=
  {| Multi.rewards_getPoints := fun passportId =>
       if passportId =? 7 then Returned 250
       else Thrown (mkError "execution reverted: Passport does not exist");
     Multi.rewards_getPointBreakdown := fun passportId =>
       if passportId =? 7 then
         Returned {| Multi.raw_holding := 100; Multi.raw_platform := 120;
                     Multi.raw_referral := 30; Multi.raw_total := 250 |}
       else Thrown (mkError "execution reverted: Passport does not exist") |}.

(** The same session with all five sources bound. *)
Definition sdkB : Multi.SDK :=
  {| Multi.config := Multi.noConfig;
     Multi.contracts :=
       {| Multi.c_passly := Some registryB;
          Multi.c_platforms := Some {| Multi.bound_address := Multi.DEFAULT_PLATFORMS |};
          Multi.c_archives := Some {| Multi.bound_address := Multi.DEFAULT_ARCHIVES |};
          Multi.c_rewards := Some rewardsB;
          Multi.c_leaderboard := Some {| Multi.bound_address := Multi.DEFAULT_LEADERBOARD |} |};
     Multi.isConnected := true |}.

(** The clock 400 days after the creation of passport 7. *)
Definition nowB : Z := 1000000 * 1000 + 400 * MS_PER_DAY.

(** What [getPassport] builds for passport 7, and the calls it issues. *)
Definition verificationB : Multi.Verification :=
  {| Multi.identifier := "alice"; Multi.verifiedAt := 1000100 * 1000;
     Multi.proofHash := "0xfeed"; Multi.active := true; Multi.pointsAwarded := true |}.

Definition passportB : Multi.Passport :=
  {| Multi.id := 7; Multi.owner := "0xA11CE"; Multi.createdAt := 1000000 * 1000;
     Multi.verificationCount := 6; Multi.category := "Developer";
     Multi.totalPoints := 250; Multi.referralCode := "REF7"; Multi.totalReferrals := 0;
     Multi.platforms := sixPlatforms;
     Multi.verifications := list_to_map (map (fun platform => (platform, verificationB)) sixPlatforms) |}.

Definition traceB : Trace :=
  ([Passly_getPassportByAddress "0xA11CE"; Passly_getPassportData 7;
    Passly_getVerifiedPlatforms 7] ++
   map (Passly_getVerification 7) sixPlatforms)%list.

(** A registry with one passport, number 9, owned by ["0xB0B"]: no platform,
    no points, created at second 1700000000. *)
Definition registryNew : Multi.PasslyContract :=
  {| Multi.getPassportByAddress := fun user =>
       if String.eqb user "0xB0B" then Returned 9
       else Thrown (mkError "execution reverted: User has no passport");
     Multi.getPassportData := fun passportId =>
       if passportId =? 9 then
         Returned {| Multi.raw_owner := "0xB0B"; Multi.raw_createdAt := 1700000000;
                     Multi.raw_verificationCount := 0; Multi.raw_category := "Creator";
                     Multi.raw_totalPoints := 0; Multi.raw_referralCode := "REF9";
                     Multi.raw_totalReferrals := 0 |}
       else Thrown (mkError "execution reverted: Passport does not exist");
     Multi.getVerifiedPlatforms := fun passportId =>
       if passportId =? 9 then Returned []
       else Thrown (mkError "execution reverted: Passport does not exist");
     Multi.getVerification := fun _ _ =>
       Thrown (mkError "execution reverted: Verification not found") |}.

Definition sdkNew : Multi.SDK :=
  {| Multi.config := Multi.noConfig;
     Multi.contracts :=
       {| Multi.c_passly := Some registryNew;
          Multi.c_platforms := Some {| Multi.bound_address := Multi.DEFAULT_PLATFORMS |};
          Multi.c_archives := Some {| Multi.bound_address := Multi.DEFAULT_ARCHIVES |};
          Multi.c_rewards := Some rewardsB;
          Multi.c_leaderboard := Some {| Multi.bound_address := Multi.DEFAULT_LEADERBOARD |} |};
     Multi.isConnected := true |}.

(** A local clock one second behind the creation of passport 9. *)
Definition nowEarly : Z := 1700000000 * 1000 - 1000.

(** Registries with one passport, number 3, owned by ["0xCAFE"], whose
    platform list is [listed]: the twitter verification is active, the github
    one was revoked, and the detail of any other platform fails to load. *)
Definition registryWith (listed : list string) : Multi.PasslyContract :=
  {| Multi.getPassportByAddress := fun user =>
       if String.eqb user "0xCAFE" then Returned 3
       else Thrown (mkError "execution reverted: User has no passport");
     Multi.getPassportData := fun passportId =>
       if passportId =? 3 then
         Returned {| Multi.raw_owner := "0xCAFE"; Multi.raw_createdAt := 1500000;
                     Multi.raw_verificationCount := 2; Multi.raw_category := "Gamer";
                     Multi.raw_totalPoints := 40; Multi.raw_referralCode := "REF3";
                     Multi.raw_totalReferrals := 1 |}
       else Thrown (mkError "execution reverted: Passport does not exist");
     Multi.getVerifiedPlatforms := fun passportId =>
       if passportId =? 3 then Returned listed
       else Thrown (mkError "execution reverted: Passport does not exist");
     Multi.getVerification := fun passportId platform =>
       if String.eqb platform "twitter" then
         Returned {| Multi.raw_identifier := "carol"; Multi.raw_verifiedAt := 1500100;
                     Multi.raw_proofHash := "0x01"; Multi.raw_active := true;
                     Multi.raw_pointsAwarded := true |}
       else if String.eqb platform "github" then
         Returned {| Multi.raw_identifier := "carol-dev"; Multi.raw_verifiedAt := 1500200;
                     Multi.raw_proofHash := "0x02"; Multi.raw_active := false;
                     Multi.raw_pointsAwarded := false |}
       else Thrown (mkError "missing revert data in call exception") |}.

Definition sdkWith (listed : list string) : Multi.SDK :=
  {| Multi.config := Multi.noConfig;
     Multi.contracts :=
       {| Multi.c_passly := Some (registryWith listed);
          Multi.c_platforms := Some {| Multi.bound_address := Multi.DEFAULT_PLATFORMS |};
          Multi.c_archives := Some {| Multi.bound_address := Multi.DEFAULT_ARCHIVES |};
          Multi.c_rewards := Some rewardsB;
          Multi.c_leaderboard := Some {| Multi.bound_address := Multi.DEFAULT_LEADERBOARD |} |};
     Multi.isConnected := true |}.

Definition contractWith (listed : list string) : Single.Contract :=
  {| Single.getPassportByAddress := fun user =>
       if String.eqb user "0xCAFE" then Returned 3
       else Thrown (mkError "execution reverted: User has no passport");
     Single.getPassportData := fun passportId =>
       if passportId =? 3 then
         Returned {| Single.raw_owner := "0xCAFE"; Single.raw_createdAt := 1500000;
                     Single.raw_verificationCount := 2; Single.raw_category := "Gamer" |}
       else Thrown (mkError "execution reverted: Passport does not exist");
     Single.getVerifiedPlatforms := fun passportId =>
       if passportId =? 3 then Returned listed
       else Thrown (mkError "execution reverted: Passport does not exist");
     Single.getVerification := fun passportId platform =>
       if String.eqb platform "twitter" then
         Returned {| Single.raw_identifier := "carol"; Single.raw_verifiedAt := 1500100;
                     Single.raw_proofHash := "0x01"; Single.raw_active := true |}
       else if String.eqb platform "github" then
         Returned {| Single.raw_identifier := "carol-dev"; Single.raw_verifiedAt := 1500200;
                     Single.raw_proofHash := "0x02"; Single.raw_active := false |}
       else Thrown (mkError "missing revert data in call exception") |}.

Definition singleWith (listed : list string) : Single.SDK :=
  {| Single.config :=
       {| Single.contractAddress := None; Single.provider := None; Single.signer := None |};
     Single.contract := Some (contractWith listed);
     Single.isConnected := true |}.

(** A platform list whose second entry has no loadable detail. *)
Definition withDiscord : list string := ["twitter"; "discord"; "github"].

Definition dataMixed : Multi.PassportData :=
  {| Multi.raw_owner := "0xCAFE"; Multi.raw_createdAt := 1500000;
     Multi.raw_verificationCount := 2; Multi.raw_category := "Gamer";
     Multi.raw_totalPoints := 40; Multi.raw_referralCode := "REF3";
     Multi.raw_totalReferrals := 1 |}.

Definition dataMixedSingle : Single.PassportData :=
  {| Single.raw_owner := "0xCAFE"; Single.raw_createdAt := 1500000;
     Single.raw_verificationCount := 2; Single.raw_category := "Gamer" |}.

Definition revertError : Error := mkError "missing revert data in call exception".

(** A provider of a network on which every address holds the registry and
    the ledger of passport 7. *)
Definition providerB : Multi.Provider :=
  {| Multi.passlyAt := fun _ => registryB; Multi.rewardsAt := fun _ => rewardsB |}.

(** A sparse single-source registry: a passport exists at every fourth
    identifier up to 200; every sixteenth one is a developer, spelt with a
    capital, the others are gamers. *)
Definition contractSparse : Single.Contract :=
  {| Single.getPassportByAddress := fun _ =>
       Thrown (mkError "execution reverted: User has no passport");
     Single.getPassportData := fun passportId =>
       if (1 <=? passportId) && (passportId <=? 200) && (passportId mod 4 =? 0) then
         Returned {| Single.raw_owner := "0x0";
                     Single.raw_createdAt := 1600000 + passportId;
                     Single.raw_verificationCount := 1;
                     Single.raw_category :=
                       if passportId mod 16 =? 0 then "Developer" else "gamer" |}
       else Thrown (mkError "execution reverted: Passport does not exist");
     Single.getVerifiedPlatforms := fun _ => Returned ["github"];
     Single.getVerification := fun _ _ =>
       Thrown (mkError "execution reverted: Verification not found") |}.

Definition singleSparse : Single.SDK :=
  {| Single.config :=
       {| Single.contractAddress := None; Single.provider := None; Single.signer := None |};
     Single.contract := Some contractSparse;
     Single.isConnected := true |}.

(** Passport 3 as the two clients build it when twitter and github are listed. *)
Definition twitterAndGithub : list string := ["twitter"; "github"].

Definition passportMixed : Multi.Passport :=
  {| Multi.id := 3; Multi.owner := "0xCAFE"; Multi.createdAt := 1500000 * 1000;
     Multi.verificationCount := 2; Multi.category := "Gamer";
     Multi.totalPoints := 40; Multi.referralCode := "REF3"; Multi.totalReferrals := 1;
     Multi.platforms := twitterAndGithub;
     Multi.verifications :=
       <["github" := {| Multi.identifier := "carol-dev"; Multi.verifiedAt := 1500200 * 1000;
                        Multi.proofHash := "0x02"; Multi.active := false;
                        Multi.pointsAwarded := false |}]>
       (<["twitter" := {| Multi.identifier := "carol"; Multi.verifiedAt := 1500100 * 1000;
                          Multi.proofHash := "0x01"; Multi.active := true;
                          Multi.pointsAwarded := true |}]> ∅) |}.

Definition singleMixed : Single.Passport :=
  {| Single.id := 3; Single.owner := "0xCAFE"; Single.createdAt := 1500000 * 1000;
     Single.verificationCount := 2; Single.category := "Gamer";
     Single.platforms := twitterAndGithub;
     Single.verifications :=
       <["github" := {| Single.identifier := "carol-dev"; Single.verifiedAt := 1500200 * 1000;
                        Single.proofHash := "0x02"; Single.active := false |}]>
       (<["twitter" := {| Single.identifier := "carol"; Single.verifiedAt := 1500100 * 1000;
                          Single.proofHash := "0x01"; Single.active := true |}]> ∅) |}.

Definition traceMixed : Trace :=
  [Passly_getPassportByAddress "0xCAFE"; Passly_getPassportData 3;
   Passly_getVerifiedPlatforms 3; Passly_getVerification 3 "twitter";
   Passly_getVerification 3 "github"].

(** Registries whose reverse lookup always answers [answer]. *)
Definition registryAnswering (answer : Outcome Z) : Multi.PasslyContract :=
  {| Multi.getPassportByAddress := fun _ => answer;
     Multi.getPassportData := fun _ =>
       Thrown (mkError "execution reverted: Passport does not exist");
     Multi.getVerifiedPlatforms := fun _ =>
       Thrown (mkError "execution reverted: Passport does not exist");
     Multi.getVerification := fun _ _ =>
       Thrown (mkError "execution reverted: Verification not found") |}.

Definition sdkAnswering (answer : Outcome Z) : Multi.SDK :=
  {| Multi.config := Multi.noConfig;
     Multi.contracts :=
       {| Multi.c_passly := Some (registryAnswering answer);
          Multi.c_platforms := Some {| Multi.bound_address := Multi.DEFAULT_PLATFORMS |};
          Multi.c_archives := Some {| Multi.bound_address := Multi.DEFAULT_ARCHIVES |};
          Multi.c_rewards := Some rewardsB;
          Multi.c_leaderboard := Some {| Multi.bound_address := Multi.DEFAULT_LEADERBOARD |} |};
     Multi.isConnected := true |}.

Definition contractAnswering (answer : Outcome Z) : Single.Contract :=
  {| Single.getPassportByAddress := fun _ => answer;
     Single.getPassportData := fun _ =>
       Thrown (mkError "execution reverted: Passport does not exist");
     Single.getVerifiedPlatforms := fun _ =>
       Thrown (mkError "execution reverted: Passport does not exist");
     Single.getVerification := fun _ _ =>
       Thrown (mkError "execution reverted: Verification not found") |}.

Definition singleAnswering (answer : Outcome Z) : Single.SDK :=
  {| Single.config :=
       {| Single.contractAddress := None; Single.provider := None; Single.signer := None |};
     Single.contract := Some (contractAnswering answer);
     Single.isConnected := true |}.

(** The failure of a node that cannot be reached. *)
Definition networkError : Error := mkError "could not detect network".

End Fixtures.

(** ** Vocabulary of the further statements *)

Module MoreProps.
Import Props.

(** The mapping obtained from [acc] by storing, for each key of [l] in turn,
    the value [f] gives for it, when it gives one. *)
Definition storeAll {V} (f : string -> option V) (l : list string) (acc : gmap string V)
    : gmap string V :=
  foldl (fun m k => match f k with Some v => <[k := v]> m | None => m end) acc l.

(** The passport that the multi-source [getPassport] builds from the record
    [data] and the platform list [l] of identifier [n]. *)
Definition passportOfMulti (passly : Multi.PasslyContract) (n : Z)
    (data : Multi.PassportData) (l : list string) : Multi.Passport :=
  {| Multi.id := n;
     Multi.owner := Multi.raw_owner data;
     Multi.createdAt := Multi.raw_createdAt data * 1000;
     Multi.verificationCount := Multi.raw_verificationCount data;
     Multi.category := Multi.raw_category data;
     Multi.totalPoints := Multi.raw_totalPoints data;
     Multi.referralCode := Multi.raw_referralCode data;
     Multi.totalReferrals := Multi.raw_totalReferrals data;
     Multi.platforms := l;
     Multi.verifications := storeAll (loadedMulti passly n) l ∅ |}.

(** The same for the single-source client. *)
Definition passportOfSingle (contract : Single.Contract) (n : Z)
    (data : Single.PassportData) (l : list string) : Single.Passport :=
  {| Single.id := n;
     Single.owner := Single.raw_owner data;
     Single.createdAt := Single.raw_createdAt data * 1000;
     Single.verificationCount := Single.raw_verificationCount data;
     Single.category := Single.raw_category data;
     Single.platforms := l;
     Single.verifications := storeAll (loadedSingle contract n) l ∅ |}.

(** The proof hash that the multi-source [getAllProofHashes] stores for a
    platform: its detail loads and is active. *)
Definition activeHashMulti (passly : Multi.PasslyContract) (passportId : Z)
    (platform : string) : option string :=
  match Multi.getVerification passly passportId platform with
  | Returned v => if Multi.raw_active v then Some (Multi.raw_proofHash v) else None
  | Thrown _ => None
  end.

(** A number of milliseconds that JavaScript accepts as a [Date]. *)
Definition validDate (ms : Z) : Prop := Z.abs ms <= 8640000000000000.

(** Every entry of a single-source mapping carries a valid [Date]. *)
Definition validDates (verifications : gmap string Single.Verification) : Prop :=
  forall platform v,
    verifications !! platform = Some v -> validDate (Single.verifiedAt v).

(** The error of [_ensureConnected]. *)
Definition notConnected : Error :=
  mkError "Passly SDK not connected. Call connect() first.".

(** The result that a probe of [passportId] appends to the category scan,
    if any: the record loads, its category is [cat] up to case, the platform
    list loads and the two numbers convert. *)
Definition scanMatch (contract : Single.Contract) (cat : string) (passportId : Z)
    : option Single.UserSummary :=
  match Single.getPassportData contract passportId with
  | Returned data =>
      if String.eqb (toLowerCase (Single.raw_category data)) cat then
        match Single.getVerifiedPlatforms contract passportId with
        | Returned platforms =>
            if (Z.abs (Single.raw_createdAt data) <=? MAX_SAFE_INTEGER) &&
               (Z.abs (Single.raw_verificationCount data) <=? MAX_SAFE_INTEGER)
            then Some {| Single.u_id := passportId;
                         Single.u_owner := Single.raw_owner data;
                         Single.u_createdAt := Single.raw_createdAt data * 1000;
                         Single.u_verificationCount := Single.raw_verificationCount data;
                         Single.u_category := Single.raw_category data;
                         Single.u_platforms := platforms |}
            else None
        | Thrown _ => None
        end
      else None
  | Thrown _ => None
  end.

(** The proof hash of the entry of a platform in a single-source mapping,
    when the entry exists and is active. *)
Definition activeHashOf (verifications : gmap string Single.Verification)
    (platform : string) : option string :=
  match verifications !! platform with
  | Some v => if Single.active v then Some (Single.proofHash v) else None
  | None => None
  end.

(** The record that [getEarliestVerification] keeps for an entry. *)
Definition earliestOf (platform : string) (v : Single.Verification) : Single.Earliest :=
  {| Single.e_platform := platform;
     Single.e_identifier := Single.identifier v;
     Single.e_verifiedAt := Single.verifiedAt v;
     Single.e_proofHash := Single.proofHash v |}.

(** The active platforms of a single-source passport, in the order of its
    platform list. *)
Definition activePlatformsOfSingle (p : Single.Passport) : list string :=
  List.filter
    (fun platform =>
       match Single.verifications p !! platform with
       | Some v => Single.active v
       | None => false
       end)
    (Single.platforms p).

End MoreProps.


(** ** Further concrete sessions *)

Module MoreFixtures.
Import Fixtures.

(** A provider of a network on which every address holds the single-source
    registry of passport 3. *)
Definition providerSingle : Single.Provider :=
  {| Single.contractAt := fun _ => contractWith twitterAndGithub |}.

(** A fresh client of each variant. *)
Definition freshMulti : Multi.SDK := Multi.constructor Multi.noConfig.

Definition noSingleConfig : Single.Config :=
  {| Single.contractAddress := None; Single.provider := None; Single.signer := None |}.

Definition freshSingle : Single.SDK := Single.constructor noSingleConfig.

(** The address syntax check used in the examples: forty hexadecimal digits
    are not checked, only the prefix. *)
Definition startsWith0x (s : string) : bool := String.prefix "0x" s.

(** The clock 100 days after the twitter verification of passport 3. *)
Definition nowMixed : Z := 1500100 * 1000 + 100 * MS_PER_DAY.

End MoreFixtures.

(** ** Running asynchronous methods *)

Section AsyncLaws.
Context {A B : Type}.

Lemma bind_returned (m : Async A) (k : A -> Async B) tr a tr' :
    m tr = (Returned a, tr') -> bind m k tr = k a tr'.
Proof. intros H. unfold bind. now rewrite H. Qed.

End AsyncLaws.


(** ** The verification-strength score of the multi-source client *)

Module StrengthFacts.
Import Multi Props.

Lemma Array_includes_In (set : list string) (x : string) :
  Array_includes set x = true <-> In x set.
Proof.
  unfold Array_includes. rewrite existsb_exists. split.
  - intros (y & Hy & Heq). apply String.eqb_eq in Heq. now subst.
  - intros H. exists x. split; [exact H | apply String.eqb_refl].
Qed.

Lemma some_spans (set l : list string) :
  JS.some l (Array_includes set) = true <-> spans set l.
Proof.
  unfold JS.some, spans. rewrite existsb_exists.
  split; intros (x & Hx & Hs); exists x; split; try exact Hx;
    now apply Array_includes_In.
Qed.

Lemma countIn_spans (set l : list string) : (0 < countIn set l)%nat -> spans set l.
Proof.
  unfold countIn. intros H.
  destruct (List.filter (Array_includes set) l) as [|x rest] eqn:E; [simpl in H; lia|].
  assert (Hin : In x (List.filter (Array_includes set) l)) by (rewrite E; now left).
  apply filter_In in Hin as [Hl Hs]. exists x. split; [exact Hl|].
  now apply Array_includes_In.
Qed.

(** When every listed platform has an entry, the filter returns the active
    platforms; otherwise it throws. *)
Lemma filterActive_loaded (verifs : gmap string Verification) (l : list string) :
  (forall platform, In platform l -> is_Some (verifs !! platform)) ->
  filterActive verifs l =
  Returned (List.filter
              (fun platform =>
                 match verifs !! platform with
                 | Some v => active v
                 | None => false
                 end) l).
Proof.
  induction l as [|x l IH]; intros Hall; simpl; [reflexivity|].
  destruct (Hall x (or_introl eq_refl)) as [v Hv]. rewrite Hv.
  rewrite IH by (intros y Hy; apply Hall; now right).
  now destruct (active v).
Qed.

Lemma filterActive_missing (verifs : gmap string Verification) (l : list string) (x : string) :
  In x l -> verifs !! x = None ->
  exists e, filterActive verifs l = Thrown e.
Proof.
  induction l as [|y l IH]; intros Hin Hx; [destruct Hin|].
  simpl. destruct (verifs !! y) as [v|] eqn:Hy; [|eauto].
  destruct Hin as [->|Hin]; [congruence|].
  destruct (IH Hin Hx) as [e He]. rewrite He. eauto.
Qed.

Lemma two_of_three (a b c : bool) :
  (2 <=? length (List.filter (fun x : bool => x) [a; b; c]))%nat = true <->
  (a = true /\ b = true) \/ (a = true /\ c = true) \/ (b = true /\ c = true).
Proof. destruct a, b, c; simpl; intuition congruence. Qed.

(** The letter is fixed by the thresholds 80, 60, 40 and 20. *)
Lemma gradeOf_thresholds (n : Z) :
  (gradeOf n = "A" <-> 80 <= n) /\
  (gradeOf n = "B" <-> 60 <= n < 80) /\
  (gradeOf n = "C" <-> 40 <= n < 60) /\
  (gradeOf n = "D" <-> 20 <= n < 40) /\
  (gradeOf n = "F" <-> n < 20).
Proof.
  unfold gradeOf. rewrite !Z.geb_leb.
  destruct (Z.leb_spec 80 n); [repeat split; intros; (lia || discriminate || reflexivity)|].
  destruct (Z.leb_spec 60 n); [repeat split; intros; (lia || discriminate || reflexivity)|].
  destruct (Z.leb_spec 40 n); [repeat split; intros; (lia || discriminate || reflexivity)|].
  destruct (Z.leb_spec 20 n); repeat split; intros; (lia || discriminate || reflexivity).
Qed.

Lemma strengthOf_components (now : Z) (p : Passport) (act : list string) :
  0 <= totalPoints p ->
  let s := strengthOf now p act in
  let b := breakdown s in
  let days := (now - createdAt p) / MS_PER_DAY in
  platformCount b = Z.min (15 * Z.of_nat (length act)) 75 /\
  ageBonus b = Z.min (days / 30) 10 /\
  (diversityBonus b = 10 <-> spansTwo act) /\
  (diversityBonus b = 0 <-> ~ spansTwo act) /\
  pointsBonus b = Z.min (totalPoints p / 100) 5 /\
  score s = Z.min (platformCount b + ageBonus b + diversityBonus b + pointsBonus b) 100 /\
  totalScore b = score s.
Proof.
  intros Htp. cbn zeta. unfold strengthOf. cbn [breakdown score platformCount ageBonus
    diversityBonus pointsBonus totalScore].
  set (a := JS.some act (Array_includes socialPlatforms)).
  set (d := JS.some act (Array_includes devPlatforms)).
  set (c := JS.some act (Array_includes chainPlatforms)).
  assert (Hdiv : (2 <=? length (List.filter (fun x : bool => x) [a; d; c]))%nat = true
                 <-> spansTwo act).
  { rewrite two_of_three. unfold spansTwo, a, d, c. now rewrite !some_spans. }
  assert (Hpts : (if totalPoints p >? 0 then Z.min (totalPoints p / 100) 5 else 0)
                 = Z.min (totalPoints p / 100) 5).
  { rewrite Z.gtb_ltb. destruct (Z.ltb_spec 0 (totalPoints p)); [reflexivity|].
    assert (totalPoints p = 0) as -> by lia. reflexivity. }
  repeat split.
  - f_equal. lia.
  - destruct (2 <=? _)%nat; [intros _|discriminate]. now apply Hdiv.
  - intros H. apply Hdiv in H. now rewrite H.
  - destruct (2 <=? _)%nat; [discriminate|]. intros _ H. apply Hdiv in H. discriminate.
  - intros H. destruct (2 <=? _)%nat; [|reflexivity]. exfalso. apply H. now apply Hdiv.
  - exact Hpts.
  - rewrite Hpts. destruct (totalPoints p >? 0), (2 <=? _)%nat; f_equal; lia.
Qed.

(** X1. For a passport all of whose listed platforms are loaded, the
    multi-source [getVerificationStrength] returns the breakdown
    platformCount = min(15 * active, 75), ageBonus = min(floor(ageInDays / 30), 10)
    with the age counted from [createdAt] to the clock reading,
    diversityBonus = 10 exactly when the active platforms touch two of the
    three fixed sets (0 otherwise), pointsBonus = min(floor(totalPoints / 100), 5),
    and score = min(sum, 100); with six active platforms (3 social, 2
    developer, 1 chain), an age of 400 days and 250 points the components are
    75, 10, 10, 2 and the score is 97 with grade A. *)
Theorem strength_breakdown_loaded (this : SDK) (now : Z) (address : string)
    (p : Passport) (tr tr' : Trace) :
  getPassport this address tr = (Returned (Some p), tr') ->
  allLoaded p ->
  0 <= totalPoints p ->
  MoreProps.validDate (createdAt p) ->
  exists s,
    getVerificationStrength this now address tr = (Returned (Some s), tr') /\
    platformCount (breakdown s) = Z.min (15 * Z.of_nat (length (activePlatformsOf p))) 75 /\
    ageBonus (breakdown s) = Z.min ((now - createdAt p) / MS_PER_DAY / 30) 10 /\
    (diversityBonus (breakdown s) = 10 <-> spansTwo (activePlatformsOf p)) /\
    (diversityBonus (breakdown s) = 0 <-> ~ spansTwo (activePlatformsOf p)) /\
    pointsBonus (breakdown s) = Z.min (totalPoints p / 100) 5 /\
    score s = Z.min (platformCount (breakdown s) + ageBonus (breakdown s) +
                     diversityBonus (breakdown s) + pointsBonus (breakdown s)) 100 /\
    totalScore (breakdown s) = score s /\
    (length (activePlatformsOf p) = 6%nat ->
     countIn socialPlatforms (activePlatformsOf p) = 3%nat ->
     countIn devPlatforms (activePlatformsOf p) = 2%nat ->
     countIn chainPlatforms (activePlatformsOf p) = 1%nat ->
     now - createdAt p = 400 * MS_PER_DAY ->
     totalPoints p = 250 ->
     platformCount (breakdown s) = 75 /\ ageBonus (breakdown s) = 10 /\
     diversityBonus (breakdown s) = 10 /\ pointsBonus (breakdown s) = 2 /\
     score s = 97 /\ grade s = "A").
Proof.
  intros Hp Hall Htp _.
  exists (strengthOf now p (activePlatformsOf p)).
  destruct (strengthOf_components now p (activePlatformsOf p) Htp)
    as (Hpc & Hage & Hdiv & Hdiv0 & Hpts & Hscore & Htot).
  refine (conj _ (conj Hpc (conj Hage (conj Hdiv (conj Hdiv0
            (conj Hpts (conj Hscore (conj Htot _)))))))).
  - unfold getVerificationStrength. rewrite (bind_returned _ _ _ _ _ Hp).
    unfold bind, lift. rewrite (filterActive_loaded _ _ Hall). reflexivity.
  - intros H6 Hs Hd _ Hnow H250.
    assert (Hten : diversityBonus (breakdown (strengthOf now p (activePlatformsOf p))) = 10).
    { apply Hdiv. left. split; apply countIn_spans; lia. }
    assert (H97 : score (strengthOf now p (activePlatformsOf p)) = 97).
    { rewrite Hscore, Hpc, Hage, Hten, Hpts, H6, Hnow, H250. reflexivity. }
    split; [rewrite Hpc, H6; reflexivity|].
    split; [rewrite Hage, Hnow; reflexivity|].
    split; [exact Hten|].
    split; [rewrite Hpts, H250; reflexivity|].
    split; [exact H97|].
    change (grade (strengthOf now p (activePlatformsOf p)))
      with (gradeOf (score (strengthOf now p (activePlatformsOf p)))).
    rewrite H97. reflexivity.
Qed.

(** Scenario B of the test plan, at passport 7. *)
Lemma scenario_B_breakdown :
  getPassport Fixtures.sdkB "0xA11CE" [] = (Returned (Some Fixtures.passportB), Fixtures.traceB) /\
  allLoaded Fixtures.passportB /\
  0 <= totalPoints Fixtures.passportB /\
  MoreProps.validDate (createdAt Fixtures.passportB) /\
  exists s,
    getVerificationStrength Fixtures.sdkB Fixtures.nowB "0xA11CE" [] =
      (Returned (Some s), Fixtures.traceB) /\
    platformCount (breakdown s) = 75 /\ ageBonus (breakdown s) = 10 /\
    diversityBonus (breakdown s) = 10 /\ pointsBonus (breakdown s) = 2 /\
    score s = 97 /\ grade s = "A".
Proof.
  assert (Hp : getPassport Fixtures.sdkB "0xA11CE" [] =
               (Returned (Some Fixtures.passportB), Fixtures.traceB))
    by (vm_compute; reflexivity).
  assert (Hall : allLoaded Fixtures.passportB).
  { intros platform Hin. simpl in Hin.
    repeat (destruct Hin as [<-|Hin]; [vm_compute; eauto|]). destruct Hin. }
  assert (Htp : 0 <= totalPoints Fixtures.passportB) by (vm_compute; discriminate).
  assert (Hd : MoreProps.validDate (createdAt Fixtures.passportB))
    by (vm_compute; discriminate).
  split; [exact Hp|]. split; [exact Hall|]. split; [exact Htp|]. split; [exact Hd|].
  destruct (strength_breakdown_loaded Fixtures.sdkB Fixtures.nowB "0xA11CE"
              Fixtures.passportB [] Fixtures.traceB Hp Hall Htp Hd)
    as (s & Hrun & _ & _ & _ & _ & _ & _ & _ & HB).
  exists s. split; [exact Hrun|].
  apply HB; vm_compute; reflexivity.
Defined.

(** [getPassport] reads the registry and the connection flag only. *)
Lemma getPassportId_withRewards (this : SDK) (r : option RewardsContract) (address : string)
    (tr : Trace) :
  getPassportId (withRewards this r) address tr = getPassportId this address tr.
Proof. reflexivity. Qed.

Lemma withPassly_withRewards {A} (this : SDK) (r : option RewardsContract)
    (k : PasslyContract -> Async A) :
  withPassly (withRewards this r) k = withPassly this k.
Proof. reflexivity. Qed.

Lemma gatherVerifications_withRewards (this : SDK) (r : option RewardsContract)
    (passportId : Z) (l : list string) :
  forall (acc : gmap string Verification) (tr : Trace),
    gatherVerifications (withRewards this r) passportId l acc tr =
    gatherVerifications this passportId l acc tr.
Proof.
  induction l as [|x l IH]; intros acc tr; [reflexivity|].
  cbn [gatherVerifications]. unfold bind.
  rewrite withPassly_withRewards.
  destruct (try_catch _ _ tr) as [[m|e] tr1]; [apply IH|reflexivity].
Qed.

Lemma getPassport_withRewards (this : SDK) (r : option RewardsContract) (address : string)
    (tr : Trace) :
  getPassport (withRewards this r) address tr = getPassport this address tr.
Proof.
  unfold getPassport.
  change (_ensureConnected (withRewards this r)) with (_ensureConnected this).
  unfold bind. destruct (_ensureConnected this tr) as [[[]|e] tr0]; [|reflexivity].
  change (getPassportId (withRewards this r)) with (getPassportId this).
  destruct (try_catch _ _ tr0) as [[[res|n]|e] tr1]; try reflexivity.
  rewrite withPassly_withRewards.
  unfold withPassly. destruct (c_passly (contracts this)) as [passly|]; [|reflexivity].
  destruct (remote _ (getPassportData passly n) tr1) as [[data|e] tr2]; [|reflexivity].
  destruct (remote _ (getVerifiedPlatforms passly n) tr2) as [[l|e] tr3]; [|reflexivity].
  rewrite gatherVerifications_withRewards. reflexivity.
Qed.

Lemma getVerificationStrength_withRewards (this : SDK) (r : option RewardsContract)
    (now : Z) (address : string) (tr : Trace) :
  getVerificationStrength (withRewards this r) now address tr =
  getVerificationStrength this now address tr.
Proof.
  unfold getVerificationStrength, bind. now rewrite getPassport_withRewards.
Qed.

(** C3, as the code has it.  [getVerificationStrength] never consults the
    rewards source: with no rewards contract bound the points component is
    still min(floor(totalPoints / 100), 5), computed from the [totalPoints]
    of the registry record (so it is 0 exactly when totalPoints < 100), and
    binding any rewards contract changes nothing.  For six active platforms
    (3 social, 2 developer, 1 chain), 400 days and 250 points, with rewards
    unbound, the points component is 2 and the score 97 with grade A. *)
Theorem C3_points_from_registry (this : SDK) (now : Z) (address : string)
    (p : Passport) (tr tr' : Trace) :
  c_rewards (contracts this) = None ->
  getPassport this address tr = (Returned (Some p), tr') ->
  allLoaded p ->
  0 <= totalPoints p ->
  exists s,
    getVerificationStrength this now address tr = (Returned (Some s), tr') /\
    pointsBonus (breakdown s) = Z.min (totalPoints p / 100) 5 /\
    (pointsBonus (breakdown s) = 0 <-> totalPoints p < 100) /\
    (forall r, getVerificationStrength (withRewards this r) now address tr =
               (Returned (Some s), tr')) /\
    (length (activePlatformsOf p) = 6%nat ->
     countIn socialPlatforms (activePlatformsOf p) = 3%nat ->
     countIn devPlatforms (activePlatformsOf p) = 2%nat ->
     countIn chainPlatforms (activePlatformsOf p) = 1%nat ->
     now - createdAt p = 400 * MS_PER_DAY ->
     totalPoints p = 250 ->
     pointsBonus (breakdown s) = 2 /\ score s = 97 /\ grade s = "A").
Proof.
  intros _ Hp Hall Htp.
  exists (strengthOf now p (activePlatformsOf p)).
  destruct (strengthOf_components now p (activePlatformsOf p) Htp)
    as (Hpc & Hage & Hdiv & _ & Hpts & Hscore & _).
  assert (Hrun : getVerificationStrength this now address tr =
                 (Returned (Some (strengthOf now p (activePlatformsOf p))), tr')).
  { unfold getVerificationStrength. rewrite (bind_returned _ _ _ _ _ Hp).
    unfold bind, lift. rewrite (filterActive_loaded _ _ Hall). reflexivity. }
  split; [exact Hrun|]. split; [exact Hpts|]. split; [|split].
  - rewrite Hpts. split; intros H.
    + destruct (Z.min_spec (totalPoints p / 100) 5) as [[_ Hm]|[_ Hm]]; [|lia].
      rewrite Hm in H. apply Z.div_small_iff in H; lia.
    + rewrite Z.div_small by lia. reflexivity.
  - intros r. now rewrite getVerificationStrength_withRewards.
  - intros H6 Hs Hd _ Hnow H250.
    assert (Hten : diversityBonus (breakdown (strengthOf now p (activePlatformsOf p))) = 10).
    { apply Hdiv. left. split; apply countIn_spans; lia. }
    assert (H97 : score (strengthOf now p (activePlatformsOf p)) = 97).
    { rewrite Hscore, Hpc, Hage, Hten, Hpts, H6, Hnow, H250. reflexivity. }
    split; [rewrite Hpts, H250; reflexivity|].
    split; [exact H97|].
    change (grade (strengthOf now p (activePlatformsOf p)))
      with (gradeOf (score (strengthOf now p (activePlatformsOf p)))).
    rewrite H97. reflexivity.
Qed.

(** C3 at passport 7 in a session without rewards contract. *)
Lemma C3_unbound_scenario :
  c_rewards (contracts Fixtures.sdkB_noRewards) = None /\
  getPassport Fixtures.sdkB_noRewards "0xA11CE" [] =
    (Returned (Some Fixtures.passportB), Fixtures.traceB) /\
  allLoaded Fixtures.passportB /\
  0 <= totalPoints Fixtures.passportB /\
  exists s,
    getVerificationStrength Fixtures.sdkB_noRewards Fixtures.nowB "0xA11CE" [] =
      (Returned (Some s), Fixtures.traceB) /\
    pointsBonus (breakdown s) = 2 /\ score s = 97 /\ grade s = "A".
Proof.
  assert (Hp : getPassport Fixtures.sdkB_noRewards "0xA11CE" [] =
               (Returned (Some Fixtures.passportB), Fixtures.traceB))
    by (vm_compute; reflexivity).
  assert (Hall : allLoaded Fixtures.passportB).
  { intros platform Hin. simpl in Hin.
    repeat (destruct Hin as [<-|Hin]; [vm_compute; eauto|]). destruct Hin. }
  assert (Htp : 0 <= totalPoints Fixtures.passportB) by (vm_compute; discriminate).
  split; [reflexivity|]. split; [exact Hp|]. split; [exact Hall|]. split; [exact Htp|].
  destruct (C3_points_from_registry Fixtures.sdkB_noRewards Fixtures.nowB "0xA11CE"
              Fixtures.passportB [] Fixtures.traceB eq_refl Hp Hall Htp)
    as (s & Hrun & _ & _ & _ & HB).
  exists s. split; [exact Hrun|].
  apply HB; vm_compute; reflexivity.
Defined.

(** With the rewards source unbound the points component of passport 7 is 2,
    not 0, and its score is 97, not 95. *)
Lemma C3_unbound_points_not_zero :
  c_rewards (contracts Fixtures.sdkB_noRewards) = None /\
  exists s,
    getVerificationStrength Fixtures.sdkB_noRewards Fixtures.nowB "0xA11CE" [] =
      (Returned (Some s), Fixtures.traceB) /\
    pointsBonus (breakdown s) = 2 /\ pointsBonus (breakdown s) <> 0 /\
    score s = 97 /\ score s <> 95.
Proof.
  split; [reflexivity|].
  eexists. split; [vm_compute; reflexivity|].
  cbn. repeat split; discriminate.
Qed.

(** A passport with a skipped platform makes [getVerificationStrength] throw:
    the platform is still listed but has no entry to read [.active] from. *)
Lemma getVerificationStrength_skipped_platform (this : SDK) (now : Z) (address : string)
    (p : Passport) (tr tr' : Trace) (platform : string) :
  getPassport this address tr = (Returned (Some p), tr') ->
  In platform (platforms p) ->
  verifications p !! platform = None ->
  exists e, getVerificationStrength this now address tr = (Thrown e, tr').
Proof.
  intros Hp Hin Hnone.
  destruct (filterActive_missing (verifications p) (platforms p) platform Hin Hnone)
    as [e He].
  exists e. unfold getVerificationStrength. rewrite (bind_returned _ _ _ _ _ Hp).
  unfold bind, lift. now rewrite He.
Qed.

(** C1 at its failing input.  The registry lists twitter, discord and github
    for passport 3 and the detail of discord cannot be fetched, while twitter
    (active) and github (revoked) load.  [getPassport] returns the passport:
    discord stays in its platform list and has no entry in its mapping.  For
    that passport, whose only active platform is twitter, the breakdown is
    not computed: whatever the clock reads, [getVerificationStrength] throws
    the [TypeError] of reading [.active] of [undefined] and returns no
    strength at all, while [getUserVerifications], which walks the entries
    of the mapping and not the platform list, returns its view of the same
    passport. *)
Theorem C1_skipped_platform_throws :
  exists (p : Passport) (tr' : Trace),
    getPassport (Fixtures.sdkWith Fixtures.withDiscord) "0xCAFE" [] =
      (Returned (Some p), tr') /\
    platforms p = ["twitter"; "discord"; "github"] /\
    verifications p !! "discord" = None /\
    activePlatformsOf p = ["twitter"] /\
    (forall now : Z,
       getVerificationStrength (Fixtures.sdkWith Fixtures.withDiscord) now "0xCAFE" [] =
         (Thrown (mkError "Cannot read properties of undefined (reading 'active')"), tr')) /\
    (forall (now : Z) (r : option VerificationStrength) (tr'' : Trace),
       getVerificationStrength (Fixtures.sdkWith Fixtures.withDiscord) now "0xCAFE" [] <>
         (Returned r, tr'')) /\
    getUserVerifications (Fixtures.sdkWith Fixtures.withDiscord) "0xCAFE" [] =
      (Returned (Some (<["twitter" := "carol"]> ∅)), tr').
Proof.
  eexists _, _. split; [vm_compute; reflexivity|].
  split; [reflexivity|]. split; [vm_compute; reflexivity|].
  split; [vm_compute; reflexivity|].
  assert (Hthrow : forall now : Z,
            getVerificationStrength (Fixtures.sdkWith Fixtures.withDiscord) now "0xCAFE" [] =
              (Thrown (mkError "Cannot read properties of undefined (reading 'active')"),
               [Passly_getPassportByAddress "0xCAFE"; Passly_getPassportData 3;
                Passly_getVerifiedPlatforms 3; Passly_getVerification 3 "twitter";
                Passly_getVerification 3 "discord"; Passly_getVerification 3 "github"])).
  { intros now. vm_compute. reflexivity. }
  split; [exact Hthrow|]. split; [|vm_compute; reflexivity].
  intros now r tr'' H. rewrite Hthrow in H. discriminate.
Qed.

(** The score never exceeds 100, and the letter follows the score. *)
Lemma strengthOf_score_le_100 (now : Z) (p : Passport) (act : list string) :
  score (strengthOf now p act) <= 100.
Proof. unfold strengthOf. cbn [score]. apply Z.le_min_r. Qed.

Lemma strengthOf_grade (now : Z) (p : Passport) (act : list string) :
  grade (strengthOf now p act) = gradeOf (score (strengthOf now p act)).
Proof. reflexivity. Qed.

(** The score is not negative when the clock is not behind [createdAt]. *)
Lemma strengthOf_score_nonneg (now : Z) (p : Passport) (act : list string) :
  createdAt p <= now -> 0 <= score (strengthOf now p act).
Proof.
  intros Hnow. unfold strengthOf. cbn [score].
  assert (Hdays : 0 <= (now - createdAt p) / MS_PER_DAY)
    by (apply Z.div_pos; [lia|reflexivity]).
  assert (Hage : 0 <= (now - createdAt p) / MS_PER_DAY / 30)
    by (apply Z.div_pos; [exact Hdays|reflexivity]).
  assert (Hpts : 0 <= totalPoints p / 100 \/ (totalPoints p >? 0) = false).
  { destruct (Z.gtb_spec (totalPoints p) 0); [left|now right].
    apply Z.div_pos; lia. }
  destruct (2 <=? _)%nat, (totalPoints p >? 0); lia.
Qed.

(** C6 at its failing input: passport 9 has no active platform and no points,
    and the clock is one second behind its creation; the returned score is
    -1, below the documented range 0-100, with grade F. *)
Theorem C6_score_below_zero :
  exists s,
    getVerificationStrength Fixtures.sdkNew Fixtures.nowEarly "0xB0B" [] =
      (Returned (Some s),
       [Passly_getPassportByAddress "0xB0B"; Passly_getPassportData 9;
        Passly_getVerifiedPlatforms 9]) /\
    ageBonus (breakdown s) = -1 /\ score s = -1 /\ grade s = "F" /\
    ~ 0 <= score s.
Proof.
  eexists. split; [vm_compute; reflexivity|].
  cbn. repeat split. intros H. now apply H.
Qed.

End StrengthFacts.

(** ** The view of the active verifications *)

Module ViewFacts.

Lemma Multi_activeIdentifiers_lookup (verifs : gmap string Multi.Verification)
    (platform : string) :
  Multi.activeIdentifiers verifs !! platform =
  match verifs !! platform with
  | Some v => if Multi.active v then Some (Multi.identifier v) else None
  | None => None
  end.
Proof.
  unfold Multi.activeIdentifiers.
  apply (map_fold_weak_ind
           (fun (r : gmap string string) (m : gmap string Multi.Verification) =>
              r !! platform =
              match m !! platform with
              | Some v => if Multi.active v then Some (Multi.identifier v) else None
              | None => None
              end)).
  - now rewrite !lookup_empty.
  - intros i x m r Hi IH. destruct (decide (i = platform)) as [->|Hne].
    + rewrite lookup_insert_eq. destruct (Multi.active x).
      * now rewrite lookup_insert_eq.
      * now rewrite IH, Hi.
    + rewrite (lookup_insert_ne m) by exact Hne. destruct (Multi.active x).
      * now rewrite lookup_insert_ne.
      * exact IH.
Qed.

Lemma Single_activeIdentifiers_lookup (verifs : gmap string Single.Verification)
    (platform : string) :
  Single.activeIdentifiers verifs !! platform =
  match verifs !! platform with
  | Some v => if Single.active v then Some (Single.identifier v) else None
  | None => None
  end.
Proof.
  unfold Single.activeIdentifiers.
  apply (map_fold_weak_ind
           (fun (r : gmap string string) (m : gmap string Single.Verification) =>
              r !! platform =
              match m !! platform with
              | Some v => if Single.active v then Some (Single.identifier v) else None
              | None => None
              end)).
  - now rewrite !lookup_empty.
  - intros i x m r Hi IH. destruct (decide (i = platform)) as [->|Hne].
    + rewrite lookup_insert_eq. destruct (Single.active x).
      * now rewrite lookup_insert_eq.
      * now rewrite IH, Hi.
    + rewrite (lookup_insert_ne m) by exact Hne. destruct (Single.active x).
      * now rewrite lookup_insert_ne.
      * exact IH.
Qed.

(** C7. In both variants, when the passport of an address exists,
    [getUserVerifications] returns a mapping each of whose keys has an active
    verification in that passport (and maps to its identifier); a platform
    whose verification is inactive is not a key of it. *)
Theorem C7_only_active_exposed (address : string) (tr tr' : Trace) :
  (forall (this : Multi.SDK) (p : Multi.Passport),
     Multi.getPassport this address tr = (Returned (Some p), tr') ->
     exists view,
       Multi.getUserVerifications this address tr = (Returned (Some view), tr') /\
       (forall platform ident, view !! platform = Some ident ->
          exists v, Multi.verifications p !! platform = Some v /\
                    Multi.active v = true /\ Multi.identifier v = ident) /\
       (forall platform v, Multi.verifications p !! platform = Some v ->
          Multi.active v = false -> view !! platform = None)) /\
  (forall (this : Single.SDK) (p : Single.Passport),
     Single.getPassport this address tr = (Returned (Some p), tr') ->
     exists view,
       Single.getUserVerifications this address tr = (Returned (Some view), tr') /\
       (forall platform ident, view !! platform = Some ident ->
          exists v, Single.verifications p !! platform = Some v /\
                    Single.active v = true /\ Single.identifier v = ident) /\
       (forall platform v, Single.verifications p !! platform = Some v ->
          Single.active v = false -> view !! platform = None)).
Proof.
  split; intros this p Hp.
  - exists (Multi.activeIdentifiers (Multi.verifications p)). split; [|split].
    + unfold Multi.getUserVerifications. now rewrite (bind_returned _ _ _ _ _ Hp).
    + intros platform ident. rewrite Multi_activeIdentifiers_lookup.
      destruct (Multi.verifications p !! platform) as [v|]; [|discriminate].
      destruct (Multi.active v) eqn:Ha; [|discriminate].
      intros [= <-]. now exists v.
    + intros platform v Hv Ha. now rewrite Multi_activeIdentifiers_lookup, Hv, Ha.
  - exists (Single.activeIdentifiers (Single.verifications p)). split; [|split].
    + unfold Single.getUserVerifications. now rewrite (bind_returned _ _ _ _ _ Hp).
    + intros platform ident. rewrite Single_activeIdentifiers_lookup.
      destruct (Single.verifications p !! platform) as [v|]; [|discriminate].
      destruct (Single.active v) eqn:Ha; [|discriminate].
      intros [= <-]. now exists v.
    + intros platform v Hv Ha. now rewrite Single_activeIdentifiers_lookup, Hv, Ha.
Qed.

(** C7 at passport 3, whose github verification was revoked. *)
Lemma C7_revoked_github_hidden :
  (Multi.getPassport (Fixtures.sdkWith Fixtures.twitterAndGithub) "0xCAFE" [] =
     (Returned (Some Fixtures.passportMixed), Fixtures.traceMixed) /\
   exists view,
     Multi.getUserVerifications (Fixtures.sdkWith Fixtures.twitterAndGithub) "0xCAFE" [] =
       (Returned (Some view), Fixtures.traceMixed) /\
     (forall platform ident, view !! platform = Some ident ->
        exists v, Multi.verifications Fixtures.passportMixed !! platform = Some v /\
                  Multi.active v = true /\ Multi.identifier v = ident) /\
     view !! "github" = None) /\
  (Single.getPassport (Fixtures.singleWith Fixtures.twitterAndGithub) "0xCAFE" [] =
     (Returned (Some Fixtures.singleMixed), Fixtures.traceMixed) /\
   exists view,
     Single.getUserVerifications (Fixtures.singleWith Fixtures.twitterAndGithub) "0xCAFE" [] =
       (Returned (Some view), Fixtures.traceMixed) /\
     (forall platform ident, view !! platform = Some ident ->
        exists v, Single.verifications Fixtures.singleMixed !! platform = Some v /\
                  Single.active v = true /\ Single.identifier v = ident) /\
     view !! "github" = None).
Proof.
  destruct (C7_only_active_exposed "0xCAFE" [] Fixtures.traceMixed) as [HM HS].
  assert (HpM : Multi.getPassport (Fixtures.sdkWith Fixtures.twitterAndGithub) "0xCAFE" [] =
                (Returned (Some Fixtures.passportMixed), Fixtures.traceMixed))
    by (vm_compute; reflexivity).
  assert (HpS : Single.getPassport (Fixtures.singleWith Fixtures.twitterAndGithub) "0xCAFE" [] =
                (Returned (Some Fixtures.singleMixed), Fixtures.traceMixed))
    by (vm_compute; reflexivity).
  split.
  - split; [exact HpM|].
    destruct (HM _ _ HpM) as (view & Hrun & Hact & Hinact).
    exists view. split; [exact Hrun|]. split; [exact Hact|].
    eapply Hinact; [vm_compute; reflexivity|reflexivity].
  - split; [exact HpS|].
    destruct (HS _ _ HpS) as (view & Hrun & Hact & Hinact).
    exists view. split; [exact Hrun|]. split; [exact Hact|].
    eapply Hinact; [vm_compute; reflexivity|reflexivity].
Defined.

End ViewFacts.

(** ** Resolution of an address *)

Module ResolutionFacts.

Ltac run_multi Hc Hp Hl :=
  unfold Multi.getPassport, Multi.hasPassport, Multi.getPassportId, Multi._ensureConnected,
    Multi.withPassly, bind, try_catch, remote, ret, throw;
  rewrite ?Hc, ?Hp, ?Hl; cbn.

Ltac run_single Hc Hp Hl :=
  unfold Single.getPassport, Single.hasPassport, Single.getPassportId,
    Single._ensureConnected, Single.withContract, bind, try_catch, remote, ret, throw;
  rewrite ?Hc, ?Hp, ?Hl; cbn.

(** What the three operations do when the reverse lookup throws [e]. *)
Lemma Multi_lookup_thrown (this : Multi.SDK) (passly : Multi.PasslyContract)
    (address : string) (e : Error) (tr : Trace) :
  Multi.isConnected this = true ->
  Multi.c_passly (Multi.contracts this) = Some passly ->
  Multi.getPassportByAddress passly address = Thrown e ->
  Multi.getPassportId this address tr =
    ((if includes (message e) "User has no passport" then Returned None else Thrown e),
     (tr ++ [Passly_getPassportByAddress address])%list) /\
  Multi.hasPassport this address tr =
    ((if includes (message e) "User has no passport" then Returned false else Thrown e),
     (tr ++ [Passly_getPassportByAddress address])%list) /\
  Multi.getPassport this address tr =
    (Returned None, (tr ++ [Passly_getPassportByAddress address])%list).
Proof.
  intros Hc Hp Hl. repeat split; run_multi Hc Hp Hl;
    now destruct (includes (message e) "User has no passport").
Qed.

Lemma Single_lookup_thrown (this : Single.SDK) (contract : Single.Contract)
    (address : string) (e : Error) (tr : Trace) :
  Single.isConnected this = true ->
  Single.contract this = Some contract ->
  Single.getPassportByAddress contract address = Thrown e ->
  Single.getPassportId this address tr =
    ((if includes (message e) "User has no passport" then Returned None else Thrown e),
     (tr ++ [Passly_getPassportByAddress address])%list) /\
  Single.hasPassport this address tr =
    ((if includes (message e) "User has no passport" then Returned false else Thrown e),
     (tr ++ [Passly_getPassportByAddress address])%list) /\
  Single.getPassport this address tr =
    (Returned None, (tr ++ [Passly_getPassportByAddress address])%list).
Proof.
  intros Hc Hp Hl. repeat split; run_single Hc Hp Hl;
    now destruct (includes (message e) "User has no passport").
Qed.

(** C4, as the code has it.  When the reverse lookup of the registry throws
    [e]: [getPassportId] returns null if the message of [e] contains
    'User has no passport' and otherwise re-throws [e] itself; [hasPassport]
    adds no handler, so it returns false, respectively throws the same [e];
    [getPassport] catches whatever [getPassportId] throws and returns null in
    both cases.  The same holds in the single-source client. *)
Theorem C4_lookup_failure_policy (address : string) (e : Error) (tr : Trace) :
  (forall (this : Multi.SDK) (passly : Multi.PasslyContract),
     Multi.isConnected this = true ->
     Multi.c_passly (Multi.contracts this) = Some passly ->
     Multi.getPassportByAddress passly address = Thrown e ->
     Multi.getPassportId this address tr =
       ((if includes (message e) "User has no passport" then Returned None else Thrown e),
        (tr ++ [Passly_getPassportByAddress address])%list) /\
     Multi.hasPassport this address tr =
       ((if includes (message e) "User has no passport" then Returned false else Thrown e),
        (tr ++ [Passly_getPassportByAddress address])%list) /\
     Multi.getPassport this address tr =
       (Returned None, (tr ++ [Passly_getPassportByAddress address])%list)) /\
  (forall (this : Single.SDK) (contract : Single.Contract),
     Single.isConnected this = true ->
     Single.contract this = Some contract ->
     Single.getPassportByAddress contract address = Thrown e ->
     Single.getPassportId this address tr =
       ((if includes (message e) "User has no passport" then Returned None else Thrown e),
        (tr ++ [Passly_getPassportByAddress address])%list) /\
     Single.hasPassport this address tr =
       ((if includes (message e) "User has no passport" then Returned false else Thrown e),
        (tr ++ [Passly_getPassportByAddress address])%list) /\
     Single.getPassport this address tr =
       (Returned None, (tr ++ [Passly_getPassportByAddress address])%list)).
Proof.
  split; intros this c Hc Hp Hl.
  - now apply Multi_lookup_thrown with (passly := c).
  - now apply Single_lookup_thrown with (contract := c).
Qed.

(** C4 at a registry that cannot be reached. *)
Lemma C4_unreachable_registry :
  includes (message Fixtures.networkError) "User has no passport" = false /\
  (Multi.getPassportId (Fixtures.sdkAnswering (Thrown Fixtures.networkError)) "0xCAFE" [] =
     (Thrown Fixtures.networkError, [Passly_getPassportByAddress "0xCAFE"]) /\
   Multi.hasPassport (Fixtures.sdkAnswering (Thrown Fixtures.networkError)) "0xCAFE" [] =
     (Thrown Fixtures.networkError, [Passly_getPassportByAddress "0xCAFE"]) /\
   Multi.getPassport (Fixtures.sdkAnswering (Thrown Fixtures.networkError)) "0xCAFE" [] =
     (Returned None, [Passly_getPassportByAddress "0xCAFE"])) /\
  (Single.getPassportId (Fixtures.singleAnswering (Thrown Fixtures.networkError)) "0xCAFE" [] =
     (Thrown Fixtures.networkError, [Passly_getPassportByAddress "0xCAFE"]) /\
   Single.hasPassport (Fixtures.singleAnswering (Thrown Fixtures.networkError)) "0xCAFE" [] =
     (Thrown Fixtures.networkError, [Passly_getPassportByAddress "0xCAFE"]) /\
   Single.getPassport (Fixtures.singleAnswering (Thrown Fixtures.networkError)) "0xCAFE" [] =
     (Returned None, [Passly_getPassportByAddress "0xCAFE"])).
Proof.
  destruct (C4_lookup_failure_policy "0xCAFE" Fixtures.networkError []) as [HM HS].
  split; [reflexivity|]. split.
  - exact (HM (Fixtures.sdkAnswering (Thrown Fixtures.networkError))
              (Fixtures.registryAnswering (Thrown Fixtures.networkError))
              eq_refl eq_refl eq_refl).
  - exact (HS (Fixtures.singleAnswering (Thrown Fixtures.networkError))
              (Fixtures.contractAnswering (Thrown Fixtures.networkError))
              eq_refl eq_refl eq_refl).
Defined.

(** The lookup fails with a network error, which is not the 'no passport'
    outcome, and [getPassport] returns null instead of re-throwing it. *)
Lemma C4_getPassport_swallows :
  Multi.getPassportByAddress (Fixtures.registryAnswering (Thrown Fixtures.networkError))
    "0xCAFE" = Thrown Fixtures.networkError /\
  includes (message Fixtures.networkError) "User has no passport" = false /\
  Multi.getPassport (Fixtures.sdkAnswering (Thrown Fixtures.networkError)) "0xCAFE" [] =
    (Returned None, [Passly_getPassportByAddress "0xCAFE"]) /\
  fst (Multi.getPassport (Fixtures.sdkAnswering (Thrown Fixtures.networkError)) "0xCAFE" [])
    <> Thrown Fixtures.networkError.
Proof. repeat split. discriminate. Qed.

(** What the three operations do when the reverse lookup answers 0. *)
Lemma Multi_lookup_zero (this : Multi.SDK) (passly : Multi.PasslyContract)
    (address : string) (tr : Trace) :
  Multi.isConnected this = true ->
  Multi.c_passly (Multi.contracts this) = Some passly ->
  Multi.getPassportByAddress passly address = Returned 0 ->
  Multi.getPassportId this address tr =
    (Returned (Some 0), (tr ++ [Passly_getPassportByAddress address])%list) /\
  Multi.hasPassport this address tr =
    (Returned true, (tr ++ [Passly_getPassportByAddress address])%list) /\
  Multi.getPassport this address tr =
    (Returned None, (tr ++ [Passly_getPassportByAddress address])%list).
Proof. intros Hc Hp Hl. repeat split; now run_multi Hc Hp Hl. Qed.

Lemma Single_lookup_zero (this : Single.SDK) (contract : Single.Contract)
    (address : string) (tr : Trace) :
  Single.isConnected this = true ->
  Single.contract this = Some contract ->
  Single.getPassportByAddress contract address = Returned 0 ->
  Single.getPassportId this address tr =
    (Returned (Some 0), (tr ++ [Passly_getPassportByAddress address])%list) /\
  Single.hasPassport this address tr =
    (Returned true, (tr ++ [Passly_getPassportByAddress address])%list) /\
  Single.getPassport this address tr =
    (Returned None, (tr ++ [Passly_getPassportByAddress address])%list).
Proof. intros Hc Hp Hl. repeat split; now run_single Hc Hp Hl. Qed.

(** C10. Whenever the reverse lookup answers the identifier 0 for an address,
    [getPassportId] returns 0 (not null), [hasPassport] returns true and
    [getPassport] returns null, in both variants; so [hasPassport] being true
    does not make [getPassport] return a passport. *)
Theorem C10_zero_identifier (address : string) (tr : Trace) :
  (forall (this : Multi.SDK) (passly : Multi.PasslyContract),
     Multi.isConnected this = true ->
     Multi.c_passly (Multi.contracts this) = Some passly ->
     Multi.getPassportByAddress passly address = Returned 0 ->
     Multi.getPassportId this address tr =
       (Returned (Some 0), (tr ++ [Passly_getPassportByAddress address])%list) /\
     Multi.hasPassport this address tr =
       (Returned true, (tr ++ [Passly_getPassportByAddress address])%list) /\
     Multi.getPassport this address tr =
       (Returned None, (tr ++ [Passly_getPassportByAddress address])%list)) /\
  (forall (this : Single.SDK) (contract : Single.Contract),
     Single.isConnected this = true ->
     Single.contract this = Some contract ->
     Single.getPassportByAddress contract address = Returned 0 ->
     Single.getPassportId this address tr =
       (Returned (Some 0), (tr ++ [Passly_getPassportByAddress address])%list) /\
     Single.hasPassport this address tr =
       (Returned true, (tr ++ [Passly_getPassportByAddress address])%list) /\
     Single.getPassport this address tr =
       (Returned None, (tr ++ [Passly_getPassportByAddress address])%list)).
Proof.
  split; intros this c Hc Hp Hl.
  - now apply Multi_lookup_zero with (passly := c).
  - now apply Single_lookup_zero with (contract := c).
Qed.

(** C10 at a registry that answers 0: the two operations disagree. *)
Lemma C10_disagreement_exists :
  (exists (this : Multi.SDK) (address : string),
     Multi.isConnected this = true /\
     fst (Multi.hasPassport this address []) = Returned true /\
     fst (Multi.getPassport this address []) = Returned None) /\
  (exists (this : Single.SDK) (address : string),
     Single.isConnected this = true /\
     fst (Single.hasPassport this address []) = Returned true /\
     fst (Single.getPassport this address []) = Returned None).
Proof.
  destruct (C10_zero_identifier "0xCAFE" []) as [HM HS].
  split.
  - exists (Fixtures.sdkAnswering (Returned 0)), "0xCAFE".
    destruct (HM (Fixtures.sdkAnswering (Returned 0))
                 (Fixtures.registryAnswering (Returned 0)) eq_refl eq_refl eq_refl)
      as (_ & Hhas & Hget).
    rewrite Hhas, Hget. repeat split.
  - exists (Fixtures.singleAnswering (Returned 0)), "0xCAFE".
    destruct (HS (Fixtures.singleAnswering (Returned 0))
                 (Fixtures.contractAnswering (Returned 0)) eq_refl eq_refl eq_refl)
      as (_ & Hhas & Hget).
    rewrite Hhas, Hget. repeat split.
Defined.

End ResolutionFacts.

(** ** Aggregation of the verifications of a passport *)

Module AggregationFacts.
Import Props.

(** One turn of the loop of the multi-source client: the platform is stored
    when its detail loads and skipped otherwise; the loop goes on either way. *)
Lemma Multi_load_step (this : Multi.SDK) (passly : Multi.PasslyContract) (passportId : Z)
    (platform : string) (acc : gmap string Multi.Verification) (tr : Trace) :
  Multi.c_passly (Multi.contracts this) = Some passly ->
  try_catch
    (Multi.withPassly this (fun passly =>
       Multi.loadVerification passly passportId platform acc))
    (fun _ => ret acc) tr =
  (Returned match loadedMulti passly passportId platform with
            | Some v => <[platform := v]> acc
            | None => acc
            end,
   (tr ++ [Passly_getVerification passportId platform])%list).
Proof.
  intros Hp. unfold try_catch, Multi.withPassly, Multi.loadVerification, loadedMulti,
    bind, remote, toNumber, ret, throw.
  rewrite Hp.
  destruct (Multi.getVerification passly passportId platform) as [v|e]; [|reflexivity].
  now destruct (Z.abs (Multi.raw_verifiedAt v) <=? MAX_SAFE_INTEGER).
Qed.

Lemma Multi_gather (this : Multi.SDK) (passly : Multi.PasslyContract) (passportId : Z) :
  Multi.c_passly (Multi.contracts this) = Some passly ->
  forall (l : list string) (acc : gmap string Multi.Verification) (tr : Trace),
  exists m,
    Multi.gatherVerifications this passportId l acc tr =
      (Returned m, (tr ++ map (Passly_getVerification passportId) l)%list) /\
    forall platform,
      m !! platform =
      if decide (platform ∈ l) then
        match loadedMulti passly passportId platform with
        | Some v => Some v
        | None => acc !! platform
        end
      else acc !! platform.
Proof.
  intros Hp. induction l as [|x l IH]; intros acc tr.
  - exists acc. cbn. rewrite app_nil_r. split; [reflexivity|].
    intros platform. destruct (decide (platform ∈ [])) as [Hin|_]; [|reflexivity].
    now apply not_elem_of_nil in Hin.
  - cbn [Multi.gatherVerifications]. unfold bind at 1.
    rewrite (Multi_load_step this passly passportId x acc tr Hp).
    destruct (IH match loadedMulti passly passportId x with
                 | Some v => <[x := v]> acc
                 | None => acc
                 end (tr ++ [Passly_getVerification passportId x])%list) as (m & Hrun & Hm).
    exists m. split.
    + rewrite Hrun. cbn [map]. now rewrite <- app_assoc.
    + intros platform. rewrite Hm.
      destruct (decide (platform = x)) as [->|Hne].
      * destruct (decide (x ∈ x :: l)) as [_|Hn]; [|exfalso; apply Hn; left].
        destruct (loadedMulti passly passportId x) as [v|] eqn:Hx.
        -- rewrite lookup_insert_eq. now destruct (decide (x ∈ l)).
        -- now destruct (decide (x ∈ l)).
      * assert (Hacc : match loadedMulti passly passportId x with
                       | Some v => <[x := v]> acc
                       | None => acc
                       end !! platform = acc !! platform).
        { destruct (loadedMulti passly passportId x); [|reflexivity].
          now apply lookup_insert_ne. }
        rewrite Hacc.
        destruct (decide (platform ∈ l)) as [Hin|Hnin];
          destruct (decide (platform ∈ x :: l)) as [Hin'|Hnin']; try reflexivity.
        -- exfalso. apply Hnin'. now right.
        -- exfalso. apply elem_of_cons in Hin' as [?|?]; [now apply Hne|now apply Hnin].
Qed.

(** The loop of the single-source client has no handler: it stores the
    platforms of a prefix that loads and stops at the first failure. *)
Lemma Single_gather_loaded (contract : Single.Contract) (passportId : Z) :
  forall (l : list string) (acc : gmap string Single.Verification) (tr : Trace),
  (forall platform, In platform l -> is_Some (loadedSingle contract passportId platform)) ->
  exists m,
    Single.gatherVerifications contract passportId l acc tr =
      (Returned m, (tr ++ map (Passly_getVerification passportId) l)%list).
Proof.
  induction l as [|x l IH]; intros acc tr Hall.
  - exists acc. cbn. now rewrite app_nil_r.
  - destruct (Hall x (or_introl eq_refl)) as [v Hv]. unfold loadedSingle in Hv.
    cbn [Single.gatherVerifications]. unfold bind, remote, toNumber, ret, throw.
    destruct (Single.getVerification contract passportId x) as [raw|e]; [|discriminate].
    destruct (Z.abs (Single.raw_verifiedAt raw) <=? MAX_SAFE_INTEGER); [|discriminate].
    edestruct IH as (m & Hrun); [intros y Hy; apply Hall; now right|].
    exists m. rewrite Hrun. cbn [map]. now rewrite <- app_assoc.
Qed.

Lemma Single_gather_aborts (contract : Single.Contract) (passportId : Z) (e : Error)
    (x : string) (l2 : list string) :
  Single.getVerification contract passportId x = Thrown e ->
  forall (l1 : list string) (acc : gmap string Single.Verification) (tr : Trace),
  (forall platform, In platform l1 -> is_Some (loadedSingle contract passportId platform)) ->
  Single.gatherVerifications contract passportId (l1 ++ x :: l2) acc tr =
    (Thrown e, (tr ++ map (Passly_getVerification passportId) (l1 ++ [x]))%list).
Proof.
  intros Hx. induction l1 as [|y l1 IH]; intros acc tr Hall.
  - cbn. unfold bind, remote. now rewrite Hx.
  - destruct (Hall y (or_introl eq_refl)) as [v Hv]. unfold loadedSingle in Hv.
    cbn [app Single.gatherVerifications]. unfold bind, remote, toNumber, ret, throw.
    destruct (Single.getVerification contract passportId y) as [raw|e']; [|discriminate].
    destruct (Z.abs (Single.raw_verifiedAt raw) <=? MAX_SAFE_INTEGER); [|discriminate].
    rewrite IH by (intros z Hz; apply Hall; now right).
    cbn [map]. now rewrite <- app_assoc.
Qed.

Lemma toNumber_safe (n : Z) (tr : Trace) : safe n -> toNumber n tr = (Returned n, tr).
Proof. unfold safe, toNumber. now intros ->. Qed.

Lemma Multi_getPassportId_returned (this : Multi.SDK) (passly : Multi.PasslyContract)
    (address : string) (n : Z) (tr : Trace) :
  Multi.isConnected this = true ->
  Multi.c_passly (Multi.contracts this) = Some passly ->
  Multi.getPassportByAddress passly address = Returned n ->
  safe n ->
  Multi.getPassportId this address tr =
    (Returned (Some n), (tr ++ [Passly_getPassportByAddress address])%list).
Proof.
  intros Hc Hp Hl Hn.
  unfold Multi.getPassportId, Multi._ensureConnected, Multi.withPassly, bind, try_catch, remote.
  rewrite Hc, Hp, Hl. cbn. now rewrite (toNumber_safe n _ Hn).
Qed.

Lemma Single_getPassportId_returned (this : Single.SDK) (contract : Single.Contract)
    (address : string) (n : Z) (tr : Trace) :
  Single.isConnected this = true ->
  Single.contract this = Some contract ->
  Single.getPassportByAddress contract address = Returned n ->
  safe n ->
  Single.getPassportId this address tr =
    (Returned (Some n), (tr ++ [Passly_getPassportByAddress address])%list).
Proof.
  intros Hc Hp Hl Hn.
  unfold Single.getPassportId, Single._ensureConnected, Single.withContract, bind,
    try_catch, remote.
  rewrite Hc, Hp, Hl. cbn. now rewrite (toNumber_safe n _ Hn).
Qed.

(** The multi-source [getPassport] returns whenever the base record loads:
    each listed platform has exactly the entry its own detail gives, and is
    left out exactly when its own detail fails to load. *)
Lemma Multi_getPassport_partial (this : Multi.SDK) (passly : Multi.PasslyContract)
    (address : string) (n : Z) (data : Multi.PassportData) (l : list string) (tr : Trace) :
  Multi.isConnected this = true ->
  Multi.c_passly (Multi.contracts this) = Some passly ->
  baseLoadsMulti passly address n data l ->
  exists p,
    Multi.getPassport this address tr =
      (Returned (Some p),
       (tr ++ baseCalls address n ++ map (Passly_getVerification n) l)%list) /\
    Multi.platforms p = l /\
    forall platform,
      Multi.verifications p !! platform =
      if decide (platform ∈ l) then loadedMulti passly n platform else None.
Proof.
  intros Hc Hp (Hl & Hn0 & Hn & Hd & Hpl & Hs1 & Hs2 & Hs3 & Hs4).
  destruct (Multi_gather this passly n Hp l ∅
              (((tr ++ [Passly_getPassportByAddress address]) ++
                [Passly_getPassportData n]) ++ [Passly_getVerifiedPlatforms n])%list)
    as (m & Hrun & Hm).
  eexists. split; [|split].
  - unfold Multi.getPassport. unfold bind at 1. unfold Multi._ensureConnected. rewrite Hc.
    cbn [ret]. unfold bind at 1. unfold try_catch, bind at 1.
    rewrite (Multi_getPassportId_returned this passly address n tr Hc Hp Hl Hn).
    apply Z.eqb_neq in Hn0. rewrite Hn0. cbn [ret].
    unfold Multi.withPassly. rewrite Hp.
    unfold bind at 1. unfold remote at 1. rewrite Hd.
    unfold bind at 1. unfold remote at 1. rewrite Hpl.
    unfold bind at 1. rewrite Hrun.
    unfold bind. rewrite !toNumber_safe by assumption.
    unfold ret, baseCalls. repeat rewrite <- app_assoc. reflexivity.
  - reflexivity.
  - intros platform. cbn [Multi.verifications]. rewrite Hm, lookup_empty.
    destruct (decide (platform ∈ l)); [|reflexivity].
    now destruct (loadedMulti passly n platform).
Qed.

(** The single-source [getPassport] throws the error of the first platform
    whose detail fails to load. *)
Lemma Single_getPassport_aborts (this : Single.SDK) (contract : Single.Contract)
    (address : string) (n : Z) (data : Single.PassportData) (l1 l2 : list string)
    (x : string) (e : Error) (tr : Trace) :
  Single.isConnected this = true ->
  Single.contract this = Some contract ->
  baseLoadsSingle contract address n data (l1 ++ x :: l2) ->
  (forall platform, In platform l1 -> is_Some (loadedSingle contract n platform)) ->
  Single.getVerification contract n x = Thrown e ->
  Single.getPassport this address tr =
    (Thrown e, (tr ++ baseCalls address n ++ map (Passly_getVerification n) (l1 ++ [x]))%list).
Proof.
  intros Hc Hp (Hl & Hn0 & Hn & Hd & Hpl & Hs1 & Hs2) Hpre Hx.
  unfold Single.getPassport. unfold bind at 1. unfold Single._ensureConnected. rewrite Hc.
  cbn [ret]. unfold bind at 1. unfold try_catch, bind at 1.
  rewrite (Single_getPassportId_returned this contract address n tr Hc Hp Hl Hn).
  apply Z.eqb_neq in Hn0. cbn [ret]. rewrite Hn0.
  unfold Single.withContract. rewrite Hp.
  unfold bind at 1. unfold remote at 1. rewrite Hd.
  unfold bind at 1. unfold remote at 1. rewrite Hpl.
  unfold bind at 1.
  rewrite (Single_gather_aborts contract n e x l2 Hx l1 _ _ Hpre).
  unfold baseCalls. repeat rewrite <- app_assoc. reflexivity.
Qed.

Lemma Multi_getVerifications_partial (isAddress : string -> bool) (this : Multi.SDK)
    (passly : Multi.PasslyContract) (handle : string) (l : list string) (tr : Trace) :
  Multi.isConnected this = true ->
  Multi.c_passly (Multi.contracts this) = Some passly ->
  is_decimal handle = true ->
  Multi.getVerifiedPlatforms passly (parseInt handle) = Returned l ->
  exists m,
    Multi.getVerifications isAddress this handle tr =
      (Returned m,
       (tr ++ Passly_getVerifiedPlatforms (parseInt handle) ::
              map (Passly_getVerification (parseInt handle)) l)%list) /\
    forall platform,
      m !! platform =
      if decide (platform ∈ l) then loadedMulti passly (parseInt handle) platform else None.
Proof.
  intros Hc Hp Hdec Hpl.
  destruct (Multi_gather this passly (parseInt handle) Hp l ∅
              (tr ++ [Passly_getVerifiedPlatforms (parseInt handle)])%list)
    as (m & Hrun & Hm).
  exists m. split.
  - unfold Multi.getVerifications, Multi._ensureConnected, Multi._resolvePassportId.
    rewrite Hc, Hdec. unfold bind at 1. cbn [ret]. unfold bind at 1. cbn [ret].
    unfold Multi.withPassly. rewrite Hp. unfold bind, remote. rewrite Hpl, Hrun.
    now rewrite <- app_assoc.
  - intros platform. rewrite Hm, lookup_empty.
    destruct (decide (platform ∈ l)); [|reflexivity].
    now destruct (loadedMulti passly (parseInt handle) platform).
Qed.

(** [getVerifications] returns for every handle that resolves, whatever its
    kind, once the platform list loads. *)
Lemma Multi_getVerifications_resolved (isAddress : string -> bool) (this : Multi.SDK)
    (passly : Multi.PasslyContract) (handle : string) (n : Z) (l : list string)
    (tr tr1 : Trace) :
  Multi.isConnected this = true ->
  Multi.c_passly (Multi.contracts this) = Some passly ->
  Multi._resolvePassportId isAddress this handle tr = (Returned n, tr1) ->
  Multi.getVerifiedPlatforms passly n = Returned l ->
  exists m,
    Multi.getVerifications isAddress this handle tr =
      (Returned m,
       (tr1 ++ Passly_getVerifiedPlatforms n :: map (Passly_getVerification n) l)%list) /\
    forall platform,
      m !! platform =
      if decide (platform ∈ l) then loadedMulti passly n platform else None.
Proof.
  intros Hc Hp Hres Hpl.
  destruct (Multi_gather this passly n Hp l ∅ (tr1 ++ [Passly_getVerifiedPlatforms n])%list)
    as (m & Hrun & Hm).
  exists m. split.
  - unfold Multi.getVerifications, Multi._ensureConnected.
    rewrite Hc. unfold bind at 1. cbn [ret]. unfold bind at 1. rewrite Hres.
    unfold Multi.withPassly. rewrite Hp. unfold bind, remote. rewrite Hpl, Hrun.
    now rewrite <- app_assoc.
  - intros platform. rewrite Hm, lookup_empty.
    destruct (decide (platform ∈ l)); [|reflexivity].
    now destruct (loadedMulti passly n platform).
Qed.

(** An address whose reverse lookup answers a passport resolves to it. *)
Lemma Multi_resolve_address (isAddress : string -> bool) (this : Multi.SDK)
    (passly : Multi.PasslyContract) (handle : string) (n : Z) (tr : Trace) :
  Multi.isConnected this = true ->
  Multi.c_passly (Multi.contracts this) = Some passly ->
  is_decimal handle = false ->
  isAddress handle = true ->
  Multi.getPassportByAddress passly handle = Returned n ->
  n <> 0 -> safe n ->
  Multi._resolvePassportId isAddress this handle tr =
    (Returned n, (tr ++ [Passly_getPassportByAddress handle])%list).
Proof.
  intros Hc Hp Hdec Haddr Hl Hn0 Hn.
  unfold Multi._resolvePassportId. rewrite Hdec, Haddr. unfold bind.
  rewrite (Multi_getPassportId_returned this passly handle n tr Hc Hp Hl Hn).
  apply Z.eqb_neq in Hn0. now rewrite Hn0.
Qed.

Lemma Single_getVerifications_aborts (this : Single.SDK) (contract : Single.Contract)
    (n : Z) (l1 l2 : list string) (x : string) (e : Error) (tr : Trace) :
  Single.isConnected this = true ->
  Single.contract this = Some contract ->
  Single.getVerifiedPlatforms contract n = Returned (l1 ++ x :: l2) ->
  (forall platform, In platform l1 -> is_Some (loadedSingle contract n platform)) ->
  Single.getVerification contract n x = Thrown e ->
  Single.getVerifications this n tr =
    (Thrown e,
     (tr ++ Passly_getVerifiedPlatforms n :: map (Passly_getVerification n) (l1 ++ [x]))%list).
Proof.
  intros Hc Hp Hpl Hpre Hx.
  unfold Single.getVerifications, Single._ensureConnected, Single.withContract.
  rewrite Hc, Hp. unfold bind at 1. cbn [ret]. unfold bind, remote. rewrite Hpl.
  rewrite (Single_gather_aborts contract n e x l2 Hx l1 _ _ Hpre).
  now rewrite <- app_assoc.
Qed.

(** C5, as the code has it.  In the multi-source client, once the base record
    of a passport loads, [getPassport] returns: every listed platform whose
    own detail loads has its entry, and a platform is left out of the mapping
    exactly when its own detail fails to load; [getVerifications] behaves the
    same for every handle that resolves, be it a number or an address.  The
    single-source client has no handler around the fetch: the failure of one
    platform's detail is thrown by [getPassport] and by [getVerifications]. *)
Theorem C5_partial_success_policy (tr : Trace) :
  (forall (this : Multi.SDK) (passly : Multi.PasslyContract) (address : string) (n : Z)
          (data : Multi.PassportData) (l : list string),
     Multi.isConnected this = true ->
     Multi.c_passly (Multi.contracts this) = Some passly ->
     baseLoadsMulti passly address n data l ->
     exists p,
       Multi.getPassport this address tr =
         (Returned (Some p),
          (tr ++ baseCalls address n ++ map (Passly_getVerification n) l)%list) /\
       Multi.platforms p = l /\
       forall platform,
         Multi.verifications p !! platform =
         if decide (platform ∈ l) then loadedMulti passly n platform else None) /\
  (forall (isAddress : string -> bool) (this : Multi.SDK) (passly : Multi.PasslyContract)
          (handle : string) (l : list string),
     Multi.isConnected this = true ->
     Multi.c_passly (Multi.contracts this) = Some passly ->
     is_decimal handle = true ->
     Multi.getVerifiedPlatforms passly (parseInt handle) = Returned l ->
     exists m,
       Multi.getVerifications isAddress this handle tr =
         (Returned m,
          (tr ++ Passly_getVerifiedPlatforms (parseInt handle) ::
                 map (Passly_getVerification (parseInt handle)) l)%list) /\
       forall platform,
         m !! platform =
         if decide (platform ∈ l) then loadedMulti passly (parseInt handle) platform
         else None) /\
  (forall (isAddress : string -> bool) (this : Multi.SDK) (passly : Multi.PasslyContract)
          (handle : string) (n : Z) (l : list string),
     Multi.isConnected this = true ->
     Multi.c_passly (Multi.contracts this) = Some passly ->
     is_decimal handle = false ->
     isAddress handle = true ->
     Multi.getPassportByAddress passly handle = Returned n ->
     n <> 0 -> safe n ->
     Multi.getVerifiedPlatforms passly n = Returned l ->
     exists m,
       Multi.getVerifications isAddress this handle tr =
         (Returned m,
          (tr ++ Passly_getPassportByAddress handle :: Passly_getVerifiedPlatforms n ::
                 map (Passly_getVerification n) l)%list) /\
       forall platform,
         m !! platform =
         if decide (platform ∈ l) then loadedMulti passly n platform else None) /\
  (forall (isAddress : string -> bool) (this : Multi.SDK) (passly : Multi.PasslyContract)
          (handle : string) (n : Z) (l : list string) (tr1 : Trace),
     Multi.isConnected this = true ->
     Multi.c_passly (Multi.contracts this) = Some passly ->
     Multi._resolvePassportId isAddress this handle tr = (Returned n, tr1) ->
     Multi.getVerifiedPlatforms passly n = Returned l ->
     exists m,
       Multi.getVerifications isAddress this handle tr =
         (Returned m,
          (tr1 ++ Passly_getVerifiedPlatforms n :: map (Passly_getVerification n) l)%list) /\
       forall platform,
         m !! platform =
         if decide (platform ∈ l) then loadedMulti passly n platform else None) /\
  (forall (this : Single.SDK) (contract : Single.Contract) (address : string) (n : Z)
          (data : Single.PassportData) (l1 l2 : list string) (x : string) (e : Error),
     Single.isConnected this = true ->
     Single.contract this = Some contract ->
     baseLoadsSingle contract address n data (l1 ++ x :: l2) ->
     (forall platform, In platform l1 -> is_Some (loadedSingle contract n platform)) ->
     Single.getVerification contract n x = Thrown e ->
     Single.getPassport this address tr =
       (Thrown e,
        (tr ++ baseCalls address n ++ map (Passly_getVerification n) (l1 ++ [x]))%list)) /\
  (forall (this : Single.SDK) (contract : Single.Contract) (n : Z)
          (l1 l2 : list string) (x : string) (e : Error),
     Single.isConnected this = true ->
     Single.contract this = Some contract ->
     Single.getVerifiedPlatforms contract n = Returned (l1 ++ x :: l2) ->
     (forall platform, In platform l1 -> is_Some (loadedSingle contract n platform)) ->
     Single.getVerification contract n x = Thrown e ->
     Single.getVerifications this n tr =
       (Thrown e,
        (tr ++ Passly_getVerifiedPlatforms n ::
               map (Passly_getVerification n) (l1 ++ [x]))%list)).
Proof.
  split; [|split; [|split; [|split; [|split]]]].
  - intros. now apply Multi_getPassport_partial with (data := data).
  - intros. now apply Multi_getVerifications_partial.
  - intros isAddress this passly handle n l Hc Hp Hdec Haddr Hl Hn0 Hn Hpl.
    destruct (Multi_getVerifications_resolved isAddress this passly handle n l tr _ Hc Hp
                (Multi_resolve_address isAddress this passly handle n tr
                   Hc Hp Hdec Haddr Hl Hn0 Hn) Hpl) as (m & Hrun & Hm).
    exists m. split; [|exact Hm]. rewrite Hrun, <- app_assoc. reflexivity.
  - intros isAddress this passly handle n l tr1 Hc Hp Hres Hpl.
    exact (Multi_getVerifications_resolved isAddress this passly handle n l tr tr1
             Hc Hp Hres Hpl).
  - intros. now apply Single_getPassport_aborts with (contract := contract) (data := data) (l2 := l2).
  - intros. now apply Single_getVerifications_aborts with (contract := contract) (l2 := l2).
Qed.

(** C5 at passport 3 when the detail of discord cannot be fetched: the
    multi-source client returns the passport with twitter and github and
    without discord, and [getVerifications] returns the same mapping for the
    address and for the number of the passport; the single-source client
    throws from both methods. *)
Lemma C5_discord_fails :
  (exists p,
     Multi.getPassport (Fixtures.sdkWith Fixtures.withDiscord) "0xCAFE" [] =
       (Returned (Some p),
        (baseCalls "0xCAFE" 3 ++ map (Passly_getVerification 3) Fixtures.withDiscord)%list) /\
     Multi.platforms p = Fixtures.withDiscord /\
     is_Some (Multi.verifications p !! "twitter") /\
     is_Some (Multi.verifications p !! "github") /\
     Multi.verifications p !! "discord" = None) /\
  (exists m,
     Multi.getVerifications MoreFixtures.startsWith0x
       (Fixtures.sdkWith Fixtures.withDiscord) "0xCAFE" [] =
       (Returned m,
        Passly_getPassportByAddress "0xCAFE" :: Passly_getVerifiedPlatforms 3 ::
        map (Passly_getVerification 3) Fixtures.withDiscord) /\
     is_Some (m !! "twitter") /\ is_Some (m !! "github") /\ m !! "discord" = None) /\
  (exists m,
     Multi.getVerifications MoreFixtures.startsWith0x
       (Fixtures.sdkWith Fixtures.withDiscord) "3" [] =
       (Returned m,
        Passly_getVerifiedPlatforms 3 :: map (Passly_getVerification 3) Fixtures.withDiscord) /\
     is_Some (m !! "twitter") /\ is_Some (m !! "github") /\ m !! "discord" = None) /\
  Single.getPassport (Fixtures.singleWith Fixtures.withDiscord) "0xCAFE" [] =
    (Thrown Fixtures.revertError,
     (baseCalls "0xCAFE" 3 ++ map (Passly_getVerification 3) ["twitter"; "discord"])%list) /\
  Single.getVerifications (Fixtures.singleWith Fixtures.withDiscord) 3 [] =
    (Thrown Fixtures.revertError,
     Passly_getVerifiedPlatforms 3 :: map (Passly_getVerification 3) ["twitter"; "discord"]).
Proof.
  destruct (C5_partial_success_policy []) as (HM & HVn & HVa & _ & HS & HSv).
  split; [|split; [|split; [|split]]].
  - destruct (HM (Fixtures.sdkWith Fixtures.withDiscord)
                 (Fixtures.registryWith Fixtures.withDiscord) "0xCAFE" 3
                 Fixtures.dataMixed Fixtures.withDiscord eq_refl eq_refl)
      as (p & Hrun & Hpl & Hv).
    { repeat split. discriminate. }
    exists p. split; [exact Hrun|]. split; [exact Hpl|].
    rewrite !Hv. repeat split; vm_compute; eauto.
  - destruct (HVa MoreFixtures.startsWith0x (Fixtures.sdkWith Fixtures.withDiscord)
                  (Fixtures.registryWith Fixtures.withDiscord) "0xCAFE" 3
                  Fixtures.withDiscord eq_refl eq_refl eq_refl eq_refl eq_refl
                  ltac:(discriminate) eq_refl eq_refl)
      as (m & Hrun & Hv).
    exists m. split; [exact Hrun|].
    rewrite !Hv. repeat split; vm_compute; eauto.
  - destruct (HVn MoreFixtures.startsWith0x (Fixtures.sdkWith Fixtures.withDiscord)
                  (Fixtures.registryWith Fixtures.withDiscord) "3"
                  Fixtures.withDiscord eq_refl eq_refl eq_refl eq_refl)
      as (m & Hrun & Hv).
    exists m. split; [exact Hrun|].
    rewrite !Hv. repeat split; vm_compute; eauto.
  - apply (HS (Fixtures.singleWith Fixtures.withDiscord)
              (Fixtures.contractWith Fixtures.withDiscord) "0xCAFE" 3
              Fixtures.dataMixedSingle ["twitter"] ["github"] "discord"
              Fixtures.revertError eq_refl eq_refl).
    + repeat split. discriminate.
    + intros platform [<-|[]]. vm_compute. eauto.
    + reflexivity.
  - apply (HSv (Fixtures.singleWith Fixtures.withDiscord)
               (Fixtures.contractWith Fixtures.withDiscord) 3
               ["twitter"] ["github"] "discord" Fixtures.revertError eq_refl eq_refl).
    + reflexivity.
    + intros platform [<-|[]]. vm_compute. eauto.
    + reflexivity.
Defined.

(** In the single-source client the failure of the discord fetch alone makes
    [getPassport] throw, although twitter and github load. *)
Lemma C5_single_source_aborts :
  is_Some (loadedSingle (Fixtures.contractWith Fixtures.withDiscord) 3 "twitter") /\
  is_Some (loadedSingle (Fixtures.contractWith Fixtures.withDiscord) 3 "github") /\
  Single.getVerification (Fixtures.contractWith Fixtures.withDiscord) 3 "discord" =
    Thrown Fixtures.revertError /\
  Single.getPassport (Fixtures.singleWith Fixtures.withDiscord) "0xCAFE" [] =
    (Thrown Fixtures.revertError,
     [Passly_getPassportByAddress "0xCAFE"; Passly_getPassportData 3;
      Passly_getVerifiedPlatforms 3; Passly_getVerification 3 "twitter";
      Passly_getVerification 3 "discord"]).
Proof.
  split; [vm_compute; eauto|]. split; [vm_compute; eauto|].
  split; [reflexivity|]. vm_compute. reflexivity.
Qed.

End AggregationFacts.

(** ** Sessions and the optional rewards source *)

Module SessionFacts.
Import Multi.

(** C8. In a connected session without rewards contract,
    [getPointBreakdown] returns null for every handle, throws nothing, and
    issues no remote call at all: the trace is unchanged. *)
Theorem C8_breakdown_absent_when_unbound (isAddress : string -> bool) (this : SDK)
    (handle : string) (tr : Trace) :
  isConnected this = true ->
  c_rewards (contracts this) = None ->
  getPointBreakdown isAddress this handle tr = (Returned None, tr).
Proof.
  intros Hc Hr. unfold getPointBreakdown, _ensureConnected, bind.
  now rewrite Hc, Hr.
Qed.

(** C8 at the session of passport 7 without rewards contract. *)
Lemma C8_unbound_session :
  isConnected Fixtures.sdkB_noRewards = true /\
  c_rewards (contracts Fixtures.sdkB_noRewards) = None /\
  getPointBreakdown (fun _ => true) Fixtures.sdkB_noRewards "0xA11CE" [] = (Returned None, []).
Proof.
  split; [reflexivity|]. split; [reflexivity|].
  exact (C8_breakdown_absent_when_unbound (fun _ => true) Fixtures.sdkB_noRewards
           "0xA11CE" [] eq_refl eq_refl).
Defined.

(** With a non-empty default, [v || default] is a truthy string. *)
Lemma or_else_truthy (v : option string) (d : string) :
  d <> "" -> negb (String.eqb (or_else v d) "") = true.
Proof.
  intros Hd. unfold or_else.
  assert (Hdt : negb (String.eqb d "") = true).
  { destruct (String.eqb_spec d ""); [contradiction|reflexivity]. }
  destruct v as [s|]; [|exact Hdt]. cbn [truthy].
  destruct (negb (String.eqb s "")) eqn:Hs; [exact Hs|exact Hdt].
Qed.

(** [connect] never throws and issues no call. *)
Lemma connect_returns (defaultProvider : Provider) (this : SDK) (options : Config)
    (tr : Trace) :
  exists this', connect defaultProvider this options tr = (Returned this', tr).
Proof. eexists. reflexivity. Qed.

(** C9. After [connect] returns, whatever the configuration, the session is
    connected and all five contracts are bound, each at the configured
    address or at its non-empty default; so the branches for a missing
    rewards contract are not taken: [getPointBreakdown] and [getPoints] run
    their rewards branch. *)
Theorem C9_connect_binds_all (defaultProvider : Provider) (this : SDK) (options : Config)
    (tr tr' : Trace) (this' : SDK) :
  connect defaultProvider this options tr = (Returned this', tr') ->
  isConnected this' = true /\
  is_Some (c_passly (contracts this')) /\
  c_platforms (contracts this') =
    Some {| bound_address :=
              or_else (platformsAddress (spread (config this) options)) DEFAULT_PLATFORMS |} /\
  c_archives (contracts this') =
    Some {| bound_address :=
              or_else (archivesAddress (spread (config this) options)) DEFAULT_ARCHIVES |} /\
  c_leaderboard (contracts this') =
    Some {| bound_address :=
              or_else (leaderboardAddress (spread (config this) options))
                      DEFAULT_LEADERBOARD |} /\
  exists rewards,
    c_rewards (contracts this') = Some rewards /\
    forall (isAddress : string -> bool) (handle : string) (t : Trace),
      getPointBreakdown isAddress this' handle t =
        getPointBreakdown_rewards isAddress this' rewards handle t /\
      getPoints isAddress this' handle t =
        getPoints_rewards isAddress this' rewards handle t.
Proof.
  unfold connect, ret. intros [= <- <-]. cbn [isConnected contracts c_passly c_platforms
    c_archives c_rewards c_leaderboard addr_platforms addr_archives addr_rewards
    addr_leaderboard].
  rewrite !or_else_truthy by discriminate.
  split; [reflexivity|]. split; [eauto|]. split; [reflexivity|].
  split; [reflexivity|]. split; [reflexivity|].
  eexists. split; [reflexivity|].
  intros isAddress handle t. split; reflexivity.
Qed.

(** C9 at a fresh client connected with an empty configuration. *)
Lemma C9_fresh_client :
  exists this',
    connect Fixtures.providerB (constructor noConfig) noConfig [] = (Returned this', []) /\
    isConnected this' = true /\
    is_Some (c_passly (contracts this')) /\
    c_platforms (contracts this') = Some {| bound_address := DEFAULT_PLATFORMS |} /\
    c_archives (contracts this') = Some {| bound_address := DEFAULT_ARCHIVES |} /\
    c_leaderboard (contracts this') = Some {| bound_address := DEFAULT_LEADERBOARD |} /\
    is_Some (c_rewards (contracts this')).
Proof.
  eexists. split; [reflexivity|].
  destruct (C9_connect_binds_all Fixtures.providerB (constructor noConfig) noConfig
              [] [] _ eq_refl) as (Hc & Hp & Hpl & Ha & Hl & r & Hr & _).
  split; [exact Hc|]. split; [exact Hp|]. split; [exact Hpl|].
  split; [exact Ha|]. split; [exact Hl|]. rewrite Hr. eauto.
Defined.

End SessionFacts.

(** ** The bounded scan by category *)

Module ScanFacts.
Import Single Props MoreProps.

Lemma probes_app (t1 t2 : Trace) : probes (t1 ++ t2) = probes t1 ++ probes t2.
Proof.
  induction t1 as [|c t1 IH]; [reflexivity|].
  destruct c; cbn; rewrite IH; reflexivity.
Qed.

Lemma length_consecutive (start : Z) (k : nat) : length (consecutive start k) = k.
Proof. revert start. induction k as [|k IH]; intros start; cbn; [|rewrite IH]; reflexivity. Qed.

(** One iteration never throws; it asks for the base record of the current
    identifier once, moves to the next identifier, and appends at most one
    result, which then matches. *)
Lemma iteration_spec (this : SDK) (contract : Contract) (cat : string) (st : ScanState)
    (tr : Trace) :
  Single.contract this = Some contract ->
  exists st' calls,
    iteration this cat st tr = (Returned st', tr ++ calls) /\
    probes calls = [currentId st] /\
    currentId st' = currentId st + 1 /\
    attempts st' = attempts st + 1 /\
    ((results st' = results st /\ found st' = found st) \/
     (exists r, results st' = results st ++ [r] /\ found st' = found st + 1 /\
                matchOf contract cat (currentId st) (currentId st + 1) r)).
Proof.
  intros Hc. unfold iteration, probe, withContract, try_catch, bind, remote.
  rewrite Hc.
  destruct (getPassportData contract (currentId st)) as [data|e] eqn:Hd.
  2:{ eexists _, [_]. cbn. repeat split; auto. }
  destruct (String.eqb_spec (toLowerCase (raw_category data)) cat) as [Hcat|Hcat].
  2:{ eexists _, [_]. cbn. repeat split; auto. }
  destruct (getVerifiedPlatforms contract (currentId st)) as [pl|e].
  2:{ eexists _, [_; _]. rewrite <- app_assoc. cbn. repeat split; auto. }
  unfold toNumber.
  destruct (Z.abs (raw_createdAt data) <=? MAX_SAFE_INTEGER).
  2:{ eexists _, [_; _]. rewrite <- app_assoc. cbn. repeat split; auto. }
  cbn [ret].
  destruct (Z.abs (raw_verificationCount data) <=? MAX_SAFE_INTEGER).
  2:{ eexists _, [_; _]. rewrite <- app_assoc. cbn. repeat split; auto. }
  eexists _, [_; _]. rewrite <- app_assoc. cbn. repeat split; auto.
  right. eexists. repeat split; cbn; try lia; eauto.
Qed.

(** More fuel does not change the outcome of a scan that finished. *)
Lemma scan_fuel_S (this : SDK) (cat : string) (limit maxAttempts : Z) :
  forall (fuel : nat) (st : ScanState) (tr : Trace) (final : ScanState) (tr' : Trace),
    scan fuel this cat limit maxAttempts st tr = (Returned (Some final), tr') ->
    scan (S fuel) this cat limit maxAttempts st tr = (Returned (Some final), tr').
Proof.
  induction fuel as [|fuel IH]; intros st tr final tr' H; [discriminate|].
  remember (S fuel) as n. cbn [scan]. subst n. cbn [scan] in H.
  destruct ((found st <? limit) && (attempts st <? maxAttempts)); [|exact H].
  unfold bind in *.
  destruct (iteration this cat st tr) as [[st1|e] tr1]; [|discriminate].
  now apply IH.
Qed.

Lemma scan_fuel_le (this : SDK) (cat : string) (limit maxAttempts : Z)
    (fuel fuel' : nat) (st : ScanState) (tr : Trace) (final : ScanState) (tr' : Trace) :
  (fuel <= fuel')%nat ->
  scan fuel this cat limit maxAttempts st tr = (Returned (Some final), tr') ->
  scan fuel' this cat limit maxAttempts st tr = (Returned (Some final), tr').
Proof.
  intros Hle H. induction Hle as [|m _ IH]; [exact H|]. now apply scan_fuel_S.
Qed.

Lemma matchOf_widen (contract : Contract) (cat : string) (lo hi lo' hi' : Z)
    (r : UserSummary) :
  lo' <= lo -> hi <= hi' -> matchOf contract cat lo hi r -> matchOf contract cat lo' hi' r.
Proof. intros Hlo Hhi (Hr & Hrest). split; [lia|exact Hrest]. Qed.

(** The loop, from any state: with more fuel than attempts remain it ends,
    having probed [k] consecutive identifiers, at most as many as attempts
    remained, and appended at most as many results as were still wanted. *)
Lemma scan_spec (this : SDK) (contract : Contract) (cat : string) (limit maxAttempts : Z) :
  Single.contract this = Some contract ->
  forall (fuel : nat) (st : ScanState) (tr : Trace),
    (Z.to_nat (maxAttempts - attempts st) < fuel)%nat ->
    exists final calls new k,
      scan fuel this cat limit maxAttempts st tr = (Returned (Some final), tr ++ calls) /\
      results final = results st ++ new /\
      probes calls = consecutive (currentId st) k /\
      Z.of_nat k <= Z.max 0 (maxAttempts - attempts st) /\
      Z.of_nat (length new) <= Z.max 0 (limit - found st) /\
      List.Forall (matchOf contract cat (currentId st) (currentId st + Z.of_nat k)) new.
Proof.
  intros Hc. induction fuel as [|fuel IH]; intros st tr Hfuel; [lia|].
  cbn [scan].
  destruct ((found st <? limit) && (attempts st <? maxAttempts)) eqn:Hcond.
  2:{ exists st, [], [], 0%nat. rewrite !app_nil_r. cbn. repeat split; try lia.
      constructor. }
  apply andb_true_iff in Hcond as [Hfound Hatt].
  apply Z.ltb_lt in Hfound. apply Z.ltb_lt in Hatt.
  destruct (iteration_spec this contract cat st tr Hc)
    as (st1 & calls1 & Hrun1 & Hprobe1 & Hcur1 & Hatt1 & Hres1).
  destruct (IH st1 (tr ++ calls1)) as (final & calls2 & new2 & k2 & Hrun2 & Hres2 & Hprobe2
                                       & Hk2 & Hlen2 & Hall2); [lia|].
  assert (Hwide : List.Forall (matchOf contract cat (currentId st)
                                 (currentId st + Z.of_nat (S k2))) new2).
  { eapply List.Forall_impl; [|exact Hall2].
    intros r. apply matchOf_widen; lia. }
  unfold bind. rewrite Hrun1, Hrun2, <- app_assoc.
  destruct Hres1 as [[Hsame Hf]|(r & Hadd & Hf & Hr)].
  - exists final, (calls1 ++ calls2), new2, (S k2).
    split; [reflexivity|]. split; [now rewrite Hres2, Hsame|].
    split; [rewrite probes_app, Hprobe1, Hprobe2, Hcur1; reflexivity|].
    split; [lia|]. split; [lia|]. exact Hwide.
  - exists final, (calls1 ++ calls2), (r :: new2), (S k2).
    split; [reflexivity|].
    split; [rewrite Hres2, Hadd, <- app_assoc; reflexivity|].
    split; [rewrite probes_app, Hprobe1, Hprobe2, Hcur1; reflexivity|].
    split; [lia|]. split; [cbn [length]; lia|].
    constructor; [|exact Hwide].
    eapply matchOf_widen; [| |exact Hr]; lia.
Qed.

(** One iteration appends the match of the current identifier, if any. *)
Lemma iteration_exact (this : SDK) (contract : Contract) (cat : string) (st : ScanState)
    (tr : Trace) :
  Single.contract this = Some contract ->
  exists calls,
    iteration this cat st tr =
      (Returned {| results := results st ++
                              match scanMatch contract cat (currentId st) with
                              | Some r => [r]
                              | None => []
                              end;
                   currentId := currentId st + 1;
                   found := found st +
                            match scanMatch contract cat (currentId st) with
                            | Some _ => 1
                            | None => 0
                            end;
                   attempts := attempts st + 1 |},
       tr ++ calls) /\
    probes calls = [currentId st].
Proof.
  intros Hc. unfold iteration, probe, withContract, try_catch, bind, remote, scanMatch.
  rewrite Hc.
  destruct (getPassportData contract (currentId st)) as [data|e].
  2:{ exists [Passly_getPassportData (currentId st)]. cbn.
      rewrite app_nil_r, Z.add_0_r. split; reflexivity. }
  destruct (String.eqb (toLowerCase (raw_category data)) cat).
  2:{ exists [Passly_getPassportData (currentId st)]. cbn.
      rewrite app_nil_r, Z.add_0_r. split; reflexivity. }
  destruct (getVerifiedPlatforms contract (currentId st)) as [pl|e].
  2:{ exists [Passly_getPassportData (currentId st);
              Passly_getVerifiedPlatforms (currentId st)].
      rewrite <- app_assoc. cbn. rewrite app_nil_r, Z.add_0_r. split; reflexivity. }
  unfold toNumber.
  destruct (Z.abs (raw_createdAt data) <=? MAX_SAFE_INTEGER).
  2:{ exists [Passly_getPassportData (currentId st);
              Passly_getVerifiedPlatforms (currentId st)].
      rewrite <- app_assoc. cbn. rewrite app_nil_r, Z.add_0_r. split; reflexivity. }
  cbn [ret].
  destruct (Z.abs (raw_verificationCount data) <=? MAX_SAFE_INTEGER).
  2:{ exists [Passly_getPassportData (currentId st);
              Passly_getVerifiedPlatforms (currentId st)].
      rewrite <- app_assoc. cbn. rewrite app_nil_r, Z.add_0_r. split; reflexivity. }
  exists [Passly_getPassportData (currentId st);
          Passly_getVerifiedPlatforms (currentId st)].
  rewrite <- app_assoc. cbn. split; reflexivity.
Qed.

Lemma omap_consecutive_S (f : Z -> option UserSummary) (start : Z) (k : nat) :
  omap f (consecutive start (S k)) =
  match f start with Some r => [r] | None => [] end ++ omap f (consecutive (start + 1) k).
Proof. cbn. now destruct (f start). Qed.

(** The loop, exactly: it runs [k] iterations, where [k] is the first count
    at which its condition fails, and appends the matches among the [k]
    identifiers it probed. *)
Lemma scan_exact (this : SDK) (contract : Contract) (cat : string) (limit maxAttempts : Z) :
  Single.contract this = Some contract ->
  forall (fuel : nat) (st : ScanState) (tr : Trace),
    (Z.to_nat (maxAttempts - attempts st) < fuel)%nat ->
    exists (k : nat) (final : ScanState) (calls : Trace),
      scan fuel this cat limit maxAttempts st tr = (Returned (Some final), tr ++ calls) /\
      results final =
        results st ++ omap (scanMatch contract cat) (consecutive (currentId st) k) /\
      probes calls = consecutive (currentId st) k /\
      (forall j, (j < k)%nat ->
         found st +
         Z.of_nat (length (omap (scanMatch contract cat) (consecutive (currentId st) j)))
           < limit /\
         attempts st + Z.of_nat j < maxAttempts) /\
      (limit <= found st +
                Z.of_nat (length (omap (scanMatch contract cat)
                                    (consecutive (currentId st) k))) \/
       maxAttempts <= attempts st + Z.of_nat k) /\
      found st +
      Z.of_nat (length (omap (scanMatch contract cat) (consecutive (currentId st) k)))
        <= Z.max (found st) limit.
Proof.
  intros Hc. induction fuel as [|fuel IH]; intros st tr Hfuel; [lia|].
  cbn [scan].
  destruct ((found st <? limit) && (attempts st <? maxAttempts)) eqn:Hcond.
  2:{ exists 0%nat, st, []. cbn. rewrite !app_nil_r.
      split; [reflexivity|]. split; [reflexivity|]. split; [reflexivity|].
      split; [intros j Hj; lia|].
      split; [|lia].
      apply andb_false_iff in Hcond as [H|H]; apply Z.ltb_ge in H; lia. }
  apply andb_true_iff in Hcond as [Hfound Hatt].
  apply Z.ltb_lt in Hfound. apply Z.ltb_lt in Hatt.
  destruct (iteration_exact this contract cat st tr Hc) as (calls1 & Hrun1 & Hprobe1).
  set (st1 := {| results := results st ++
                            match scanMatch contract cat (currentId st) with
                            | Some r => [r]
                            | None => []
                            end;
                 currentId := currentId st + 1;
                 found := found st +
                          match scanMatch contract cat (currentId st) with
                          | Some _ => 1
                          | None => 0
                          end;
                 attempts := attempts st + 1 |}) in *.
  destruct (IH st1 (tr ++ calls1)) as (k1 & final & calls2 & Hrun2 & Hres2 & Hprobe2
                                       & Hbefore & Hstop & Hcount); [cbn [attempts st1]; lia|].
  cbn [results currentId found attempts st1] in Hres2, Hprobe2, Hbefore, Hstop, Hcount.
  assert (Hlen : forall j,
            Z.of_nat (length (omap (scanMatch contract cat)
                                (consecutive (currentId st) (S j)))) =
            match scanMatch contract cat (currentId st) with
            | Some _ => 1
            | None => 0
            end +
            Z.of_nat (length (omap (scanMatch contract cat)
                                (consecutive (currentId st + 1) j)))).
  { intros j. rewrite omap_consecutive_S, length_app.
    destruct (scanMatch contract cat (currentId st)); cbn [length]; lia. }
  exists (S k1), final, (calls1 ++ calls2).
  unfold bind. rewrite Hrun1, Hrun2, <- app_assoc.
  split; [reflexivity|].
  split; [rewrite Hres2, omap_consecutive_S, <- app_assoc; reflexivity|].
  split; [rewrite probes_app, Hprobe1, Hprobe2; reflexivity|].
  split; [|split].
  - intros [|j] Hj.
    + cbn. lia.
    + rewrite Hlen. destruct (Hbefore j ltac:(lia)) as [H1 H2]. lia.
  - rewrite Hlen. lia.
  - rewrite Hlen. destruct (scanMatch contract cat (currentId st)); lia.
Qed.


Lemma In_consecutive (passportId : Z) :
  forall (k : nat) (start : Z),
    In passportId (consecutive start k) <-> start <= passportId < start + Z.of_nat k.
Proof.
  induction k as [|k IH]; intros start.
  - cbn. lia.
  - cbn [consecutive In]. rewrite IH. lia.
Qed.

(** What a match of the scan says about its identifier. *)
Lemma scanMatch_Some (contract : Contract) (cat : string) (passportId : Z) (r : UserSummary) :
  scanMatch contract cat passportId = Some r ->
  u_id r = passportId /\
  toLowerCase (u_category r) = cat /\
  exists data,
    getPassportData contract passportId = Returned data /\
    u_category r = raw_category data.
Proof.
  unfold scanMatch. intros H.
  destruct (getPassportData contract passportId) as [data|]; [|discriminate].
  destruct (String.eqb_spec (toLowerCase (raw_category data)) cat) as [Hcat|];
    [|discriminate].
  destruct (getVerifiedPlatforms contract passportId); [|discriminate].
  destruct (_ && _); [|discriminate]. injection H as <-. cbn.
  split; [reflexivity|]. split; [exact Hcat|]. now exists data.
Qed.

Lemma In_omap_scanMatch (contract : Contract) (cat : string) (l : list Z) (r : UserSummary) :
  In r (omap (scanMatch contract cat) l) <->
  exists passportId, In passportId l /\ scanMatch contract cat passportId = Some r.
Proof.
  rewrite <- list_elem_of_In, list_elem_of_omap.
  split; intros (x & Hx & Hr); exists x; split; try exact Hr; now apply list_elem_of_In.
Qed.

(** C2. In a connected session, for every category, every limit of at
    least 1 and every start identifier, within the range of exact integers,
    [getUsersByCategory] terminates (any fuel above limit * 10 gives the same
    returned list, and nothing is thrown); it asks for the base record of [k]
    consecutive identifiers from the start one, once each, with
    k <= limit * 10; it returns at most [limit] results.  The results are
    exactly the matches among the [k] identifiers probed, in probing order,
    so an identifier whose base record fails to load contributes no result
    and does not end the scan: the scan ends only when [limit] results are
    found or limit * 10 identifiers are probed, and not before.  Each result
    comes from an identifier whose base record loaded and carries the
    requested category up to case.  For limit 5 and start 1 there are at most
    50 probes and at most 5 results. *)
Theorem C2_scan_bounded (this : SDK) (contract : Contract) (category : string)
    (limit startId : Z) (tr : Trace) :
  isConnected this = true ->
  Single.contract this = Some contract ->
  1 <= limit ->
  safe startId -> safe (limit * 10) -> safe (startId + limit * 10) ->
  exists (users : list UserSummary) (calls : Trace) (k : nat),
    (forall fuel, (Z.to_nat (limit * 10) < fuel)%nat ->
       getUsersByCategory fuel this category limit startId tr =
         (Returned (Some users), tr ++ calls)) /\
    probes calls = consecutive startId k /\
    Z.of_nat k <= limit * 10 /\
    Z.of_nat (length users) <= limit /\
    users = omap (scanMatch contract (toLowerCase category)) (consecutive startId k) /\
    (Z.of_nat (length users) = limit \/ Z.of_nat k = limit * 10) /\
    (forall j, (j < k)%nat ->
       Z.of_nat (length (omap (scanMatch contract (toLowerCase category))
                           (consecutive startId j))) < limit) /\
    (forall passportId e,
       In passportId (consecutive startId k) ->
       getPassportData contract passportId = Thrown e ->
       ~ In passportId (map u_id users)) /\
    (forall r, In r users ->
       toLowerCase (u_category r) = toLowerCase category /\
       startId <= u_id r < startId + Z.of_nat k /\
       exists data, getPassportData contract (u_id r) = Returned data /\
                    u_category r = raw_category data) /\
    (forall r e, In r users -> getPassportData contract (u_id r) <> Thrown e) /\
    (limit = 5 -> startId = 1 ->
     (length (probes calls) <= 50)%nat /\ (length users <= 5)%nat).
Proof.
  intros Hconn Hc Hlimit _ _ _.
  pose (st0 := {| results := []; currentId := startId; found := 0; attempts := 0 |}).
  destruct (scan_exact this contract (toLowerCase category) limit (limit * 10) Hc
              (S (Z.to_nat (limit * 10))) st0 tr)
    as (k & final & calls & Hrun & Hres & Hprobe & Hbefore & Hstop & Hcount).
  { cbn [attempts st0]. lia. }
  cbn [results currentId found attempts st0 app] in *.
  set (users := omap (scanMatch contract (toLowerCase category)) (consecutive startId k)) in *.
  assert (Hk : Z.of_nat k <= limit * 10).
  { destruct k as [|k]; [lia|]. destruct (Hbefore k ltac:(lia)). lia. }
  assert (Hlen : Z.of_nat (length users) <= limit) by lia.
  assert (Hin : forall r, In r users ->
            exists passportId, In passportId (consecutive startId k) /\
              scanMatch contract (toLowerCase category) passportId = Some r).
  { intros r Hr. now apply In_omap_scanMatch. }
  exists users, calls, k.
  split; [|split; [exact Hprobe|split; [exact Hk|split; [exact Hlen|split; [reflexivity|
    split; [lia|split; [|split; [|split; [|split]]]]]]]]].
  - intros fuel Hfuel.
    unfold getUsersByCategory, _ensureConnected. rewrite Hconn.
    unfold bind at 1. cbn [ret]. unfold bind. fold st0.
    rewrite (scan_fuel_le this (toLowerCase category) limit (limit * 10)
               (S (Z.to_nat (limit * 10))) fuel st0 tr final (tr ++ calls)
               ltac:(lia) Hrun).
    unfold ret. now rewrite Hres.
  - intros j Hj. destruct (Hbefore j Hj). lia.
  - intros passportId e _ Hthrown Hid.
    apply in_map_iff in Hid as (r & Hr & Hin').
    destruct (Hin r Hin') as (x & _ & Hm).
    destruct (scanMatch_Some _ _ _ _ Hm) as (Hx & _ & data & Hd & _).
    congruence.
  - intros r Hr. destruct (Hin r Hr) as (x & Hx & Hm).
    destruct (scanMatch_Some _ _ _ _ Hm) as (Hid & Hcat & data & Hd & Hcd).
    split; [exact Hcat|]. split; [rewrite Hid; now apply In_consecutive|].
    exists data. now rewrite Hid.
  - intros r e Hr. destruct (Hin r Hr) as (x & _ & Hm).
    destruct (scanMatch_Some _ _ _ _ Hm) as (Hid & _ & data & Hd & _).
    rewrite Hid. congruence.
  - intros H5 H1. rewrite Hprobe, length_consecutive. lia.
Qed.

(** The scan of the sparse registry for developers, limit 5, from identifier
    1, computed. *)
Lemma sparse_scan_run :
  exists (users : list UserSummary) (calls : Trace),
    getUsersByCategory 51 Fixtures.singleSparse "developer" 5 1 [] =
      (Returned (Some users), calls) /\
    map u_id users = [16; 32; 48] /\
    length (probes calls) = 50%nat.
Proof. eexists _, _. split; [vm_compute; reflexivity|]. split; reflexivity. Qed.

(** C2 at the sparse registry, for developers, limit 5, from identifier 1:
    the scan passes the identifiers without passport and the gamers, returns
    the developers 16, 32 and 48, and stops after 50 probes. *)
Lemma C2_sparse_registry :
  isConnected Fixtures.singleSparse = true /\
  Single.contract Fixtures.singleSparse = Some Fixtures.contractSparse /\
  1 <= 5 /\
  safe 1 /\ safe (5 * 10) /\ safe (1 + 5 * 10) /\
  exists (users : list UserSummary) (calls : Trace),
    getUsersByCategory 51 Fixtures.singleSparse "developer" 5 1 [] =
      (Returned (Some users), calls) /\
    map u_id users = [16; 32; 48] /\
    probes calls = consecutive 1 50 /\
    users = omap (scanMatch Fixtures.contractSparse "developer") (consecutive 1 50) /\
    (forall r, In r users -> toLowerCase (u_category r) = "developer").
Proof.
  split; [reflexivity|]. split; [reflexivity|]. split; [lia|].
  split; [reflexivity|]. split; [reflexivity|]. split; [reflexivity|].
  destruct (C2_scan_bounded Fixtures.singleSparse Fixtures.contractSparse "developer" 5 1 []
              eq_refl eq_refl ltac:(lia) eq_refl eq_refl eq_refl)
    as (users & calls & k & Hrun & Hprobe & _ & _ & Hexact & _ & _ & _ & Hcat & _ & _).
  destruct sparse_scan_run as (users' & calls' & Hrun' & Hids & Hlen).
  rewrite (Hrun 51%nat ltac:(vm_compute; lia)) in Hrun'.
  injection Hrun' as <- <-.
  assert (Hk : k = 50%nat).
  { rewrite Hprobe, length_consecutive in Hlen. exact Hlen. }
  subst k.
  exists users, calls.
  split; [apply (Hrun 51%nat); vm_compute; lia|].
  split; [exact Hids|]. split; [exact Hprobe|]. split; [exact Hexact|].
  intros r Hr. now destruct (Hcat r Hr) as [Hc _].
Defined.

End ScanFacts.

(** ** The verification-strength score of the single-source client *)

Module SingleStrengthFacts.
Import Single.

Lemma Single_strengthOf_score_le_100 (act : list string) (e : option EarliestVerification) :
  score (strengthOf act e) <= 100.
Proof. unfold strengthOf. cbn [score]. apply Z.le_min_r. Qed.

Lemma Single_strengthOf_grade (act : list string) (e : option EarliestVerification) :
  grade (strengthOf act e) = gradeOf (score (strengthOf act e)).
Proof. reflexivity. Qed.

Lemma Single_gradeOf_thresholds (n : Z) :
  (gradeOf n = "A" <-> 80 <= n) /\
  (gradeOf n = "B" <-> 60 <= n < 80) /\
  (gradeOf n = "C" <-> 40 <= n < 60) /\
  (gradeOf n = "D" <-> 20 <= n < 40) /\
  (gradeOf n = "F" <-> n < 20).
Proof.
  unfold gradeOf. rewrite !Z.geb_leb.
  destruct (Z.leb_spec 80 n); [repeat split; intros; (lia || discriminate || reflexivity)|].
  destruct (Z.leb_spec 60 n); [repeat split; intros; (lia || discriminate || reflexivity)|].
  destruct (Z.leb_spec 40 n); [repeat split; intros; (lia || discriminate || reflexivity)|].
  destruct (Z.leb_spec 20 n); repeat split; intros; (lia || discriminate || reflexivity).
Qed.

(** The score is not negative when the earliest verification is not dated
    after the clock reading. *)
Lemma Single_strengthOf_score_nonneg (act : list string) (e : option EarliestVerification) :
  (forall ev, e = Some ev -> 0 <= ageInDays ev) ->
  0 <= score (strengthOf act e).
Proof.
  intros Hage. unfold strengthOf. cbn [score].
  assert (Hbonus : 0 <= match e with
                        | Some ev => Z.min (ageInDays ev * 100 / 2433) 15
                        | None => 0
                        end).
  { destruct e as [ev|]; [|lia].
    specialize (Hage ev eq_refl).
    assert (0 <= ageInDays ev * 100 / 2433) by (apply Z.div_pos; lia). lia. }
  destruct (JS.some act (Array_includes socialPlatforms) &&
            JS.some act (Array_includes devPlatforms)); lia.
Qed.

End SingleStrengthFacts.

(** ** Runs of the methods, inverted *)

(** The statements from here on relate the methods to one another and to the
    registry.  A method is run with the oracles of its session; where two
    methods are compared, both read the same answers of the registry. *)

Module RunFacts.
Import Props MoreProps.


Lemma storeAll_lookup {V} (f : string -> option V) (l : list string) :
  forall (acc : gmap string V) (k : string),
    storeAll f l acc !! k =
    if decide (k ∈ l) then
      match f k with
      | Some v => Some v
      | None => acc !! k
      end
    else acc !! k.
Proof.
  unfold storeAll. induction l as [|x l IH]; intros acc k.
  - cbn. destruct (decide (k ∈ [])) as [Hin|_]; [|reflexivity].
    now apply not_elem_of_nil in Hin.
  - cbn [foldl]. rewrite IH.
    destruct (decide (k = x)) as [->|Hne].
    + destruct (decide (x ∈ x :: l)) as [_|Hn]; [|exfalso; apply Hn; left].
      destruct (f x) as [v|] eqn:Hx.
      * rewrite lookup_insert_eq. now destruct (decide (x ∈ l)).
      * now destruct (decide (x ∈ l)).
    + assert (Hacc : match f x with Some v => <[x := v]> acc | None => acc end !! k
                     = acc !! k).
      { destruct (f x); [|reflexivity]. now apply lookup_insert_ne. }
      rewrite Hacc.
      destruct (decide (k ∈ l)) as [Hin|Hnin];
        destruct (decide (k ∈ x :: l)) as [Hin'|Hnin']; try reflexivity.
      * exfalso. apply Hnin'. now right.
      * exfalso. apply elem_of_cons in Hin' as [?|?]; [now apply Hne|now apply Hnin].
Qed.

Lemma storeAll_empty_lookup {V} (f : string -> option V) (l : list string) (k : string) :
  storeAll f l ∅ !! k = if decide (k ∈ l) then f k else None.
Proof.
  rewrite storeAll_lookup, lookup_empty.
  destruct (decide (k ∈ l)); [|reflexivity]. now destruct (f k).
Qed.

Lemma Multi_gather_exact (this : Multi.SDK) (passly : Multi.PasslyContract) (n : Z) :
  Multi.c_passly (Multi.contracts this) = Some passly ->
  forall (l : list string) (acc : gmap string Multi.Verification) (tr : Trace),
    Multi.gatherVerifications this n l acc tr =
      (Returned (storeAll (loadedMulti passly n) l acc),
       tr ++ map (Passly_getVerification n) l).
Proof.
  intros Hp. induction l as [|x l IH]; intros acc tr.
  - cbn. now rewrite app_nil_r.
  - cbn [Multi.gatherVerifications]. unfold bind at 1.
    rewrite (AggregationFacts.Multi_load_step this passly n x acc tr Hp), IH.
    cbn [map]. now rewrite <- app_assoc.
Qed.

Lemma Multi_getPassportId_inv (this : Multi.SDK) (address : string) (tr tr' : Trace)
    (r : option Z) :
  Multi.getPassportId this address tr = (Returned r, tr') ->
  Multi.isConnected this = true /\
  exists passly,
    Multi.c_passly (Multi.contracts this) = Some passly /\
    tr' = tr ++ [Passly_getPassportByAddress address] /\
    match r with
    | Some n => Multi.getPassportByAddress passly address = Returned n /\ safe n
    | None => exists e, Multi.getPassportByAddress passly address = Thrown e /\
                        includes (message e) "User has no passport" = true
    end.
Proof.
  unfold Multi.getPassportId, Multi._ensureConnected, Multi.withPassly, bind, try_catch,
    remote, toNumber, ret, throw, safe.
  destruct (Multi.isConnected this); [|discriminate].
  destruct (Multi.c_passly (Multi.contracts this)) as [passly|].
  2:{ cbn. discriminate. }
  destruct (Multi.getPassportByAddress passly address) as [n|e] eqn:Hl.
  - destruct (Z.abs n <=? MAX_SAFE_INTEGER) eqn:Hs.
    + intros [= <- <-]. split; [reflexivity|]. exists passly. auto.
    + cbn. discriminate.
  - destruct (includes (message e) "User has no passport") eqn:Hi; [|discriminate].
    intros [= <- <-]. split; [reflexivity|]. exists passly. eauto.
Qed.

(** The run of the multi-source [getPassport] when the base record loads. *)
Lemma Multi_getPassport_run (this : Multi.SDK) (passly : Multi.PasslyContract)
    (address : string) (n : Z) (data : Multi.PassportData) (l : list string) (tr : Trace) :
  Multi.isConnected this = true ->
  Multi.c_passly (Multi.contracts this) = Some passly ->
  baseLoadsMulti passly address n data l ->
  Multi.getPassport this address tr =
    (Returned (Some (passportOfMulti passly n data l)),
     tr ++ baseCalls address n ++ map (Passly_getVerification n) l).
Proof.
  intros Hc Hp (Hl & Hn0 & Hn & Hd & Hpl & Hs1 & Hs2 & Hs3 & Hs4).
  unfold Multi.getPassport. unfold bind at 1. unfold Multi._ensureConnected. rewrite Hc.
  cbn [ret]. unfold bind at 1. unfold try_catch, bind at 1.
  rewrite (AggregationFacts.Multi_getPassportId_returned this passly address n tr Hc Hp Hl Hn).
  apply Z.eqb_neq in Hn0. rewrite Hn0. cbn [ret].
  unfold Multi.withPassly. rewrite Hp.
  unfold bind at 1. unfold remote at 1. rewrite Hd.
  unfold bind at 1. unfold remote at 1. rewrite Hpl.
  unfold bind at 1. rewrite (Multi_gather_exact this passly n Hp).
  unfold bind. rewrite !AggregationFacts.toNumber_safe by assumption.
  unfold ret, baseCalls, passportOfMulti. repeat rewrite <- app_assoc. reflexivity.
Qed.

(** Conversely, a passport returned by the multi-source [getPassport] was
    built that way. *)
Lemma Multi_getPassport_inv (this : Multi.SDK) (address : string) (tr tr' : Trace)
    (p : Multi.Passport) :
  Multi.getPassport this address tr = (Returned (Some p), tr') ->
  Multi.isConnected this = true /\
  exists passly n data l,
    Multi.c_passly (Multi.contracts this) = Some passly /\
    baseLoadsMulti passly address n data l /\
    p = passportOfMulti passly n data l /\
    tr' = tr ++ baseCalls address n ++ map (Passly_getVerification n) l.
Proof.
  intros H.
  assert (Hc : Multi.isConnected this = true).
  { unfold Multi.getPassport, Multi._ensureConnected, bind in H.
    destruct (Multi.isConnected this); [reflexivity|discriminate]. }
  split; [exact Hc|].
  pose proof H as H0.
  unfold Multi.getPassport in H. unfold bind at 1 in H.
  unfold Multi._ensureConnected in H. rewrite Hc in H. cbn [ret] in H.
  unfold bind at 1 in H. unfold try_catch, bind at 1 in H.
  destruct (Multi.getPassportId this address tr) as [[[n|]|e] t1] eqn:Hid;
    cbn [ret] in H; try discriminate.
  destruct (Multi_getPassportId_inv _ _ _ _ _ Hid) as (_ & passly & Hp & -> & Hl & Hn).
  destruct (n =? 0) eqn:Hn0; cbn [ret] in H; [discriminate|].
  apply Z.eqb_neq in Hn0.
  unfold Multi.withPassly in H. rewrite Hp in H.
  unfold bind at 1 in H. unfold remote at 1 in H.
  destruct (Multi.getPassportData passly n) as [data|e] eqn:Hd; [|discriminate].
  unfold bind at 1 in H. unfold remote at 1 in H.
  destruct (Multi.getVerifiedPlatforms passly n) as [l|e] eqn:Hpl; [|discriminate].
  unfold bind at 1 in H. rewrite (Multi_gather_exact this passly n Hp) in H.
  unfold bind, toNumber in H.
  destruct (Z.abs (Multi.raw_createdAt data) <=? MAX_SAFE_INTEGER) eqn:Hs1;
    [|discriminate]. cbn [ret] in H.
  destruct (Z.abs (Multi.raw_verificationCount data) <=? MAX_SAFE_INTEGER) eqn:Hs2;
    [|discriminate]. cbn [ret] in H.
  destruct (Z.abs (Multi.raw_totalPoints data) <=? MAX_SAFE_INTEGER) eqn:Hs3;
    [|discriminate]. cbn [ret] in H.
  destruct (Z.abs (Multi.raw_totalReferrals data) <=? MAX_SAFE_INTEGER) eqn:Hs4;
    [|discriminate]. cbn [ret] in H.
  assert (Hbase : baseLoadsMulti passly address n data l).
  { repeat split; assumption. }
  exists passly, n, data, l. split; [exact Hp|]. split; [exact Hbase|].
  rewrite (Multi_getPassport_run this passly address n data l tr Hc Hp Hbase) in H0.
  injection H0 as Hpeq Htr. split; [now symmetry|now symmetry].
Qed.

Lemma Single_gather_exact (contract : Single.Contract) (n : Z) :
  forall (l : list string) (acc : gmap string Single.Verification) (tr : Trace),
    (forall platform, In platform l -> is_Some (loadedSingle contract n platform)) ->
    Single.gatherVerifications contract n l acc tr =
      (Returned (storeAll (loadedSingle contract n) l acc),
       tr ++ map (Passly_getVerification n) l).
Proof.
  induction l as [|x l IH]; intros acc tr Hall.
  - cbn. now rewrite app_nil_r.
  - destruct (Hall x (or_introl eq_refl)) as [v Hv].
    unfold storeAll. cbn [foldl]. rewrite Hv. fold (storeAll (loadedSingle contract n) l).
    unfold loadedSingle in Hv.
    cbn [Single.gatherVerifications]. unfold bind, remote, toNumber, ret, throw.
    destruct (Single.getVerification contract n x) as [raw|e]; [|discriminate].
    destruct (Z.abs (Single.raw_verifiedAt raw) <=? MAX_SAFE_INTEGER); [|discriminate].
    injection Hv as <-.
    rewrite IH by (intros y Hy; apply Hall; now right).
    cbn [map]. now rewrite <- app_assoc.
Qed.

Lemma Single_gather_inv (contract : Single.Contract) (n : Z) :
  forall (l : list string) (acc m : gmap string Single.Verification) (tr tr' : Trace),
    Single.gatherVerifications contract n l acc tr = (Returned m, tr') ->
    forall platform, In platform l -> is_Some (loadedSingle contract n platform).
Proof.
  induction l as [|x l IH]; intros acc m tr tr' H platform Hin; [destruct Hin|].
  cbn [Single.gatherVerifications] in H. unfold bind, remote, toNumber, ret, throw in H.
  assert (Hx : is_Some (loadedSingle contract n x) /\
               forall y, In y l -> is_Some (loadedSingle contract n y)).
  { unfold loadedSingle.
    destruct (Single.getVerification contract n x) as [raw|e]; [|discriminate].
    destruct (Z.abs (Single.raw_verifiedAt raw) <=? MAX_SAFE_INTEGER); [|discriminate].
    split; [now eexists|]. intros y Hy. exact (IH _ _ _ _ H y Hy). }
  destruct Hin as [<-|Hin]; [exact (proj1 Hx)|exact (proj2 Hx _ Hin)].
Qed.

Lemma Single_getPassportId_inv (this : Single.SDK) (address : string) (tr tr' : Trace)
    (r : option Z) :
  Single.getPassportId this address tr = (Returned r, tr') ->
  Single.isConnected this = true /\
  exists contract,
    Single.contract this = Some contract /\
    tr' = tr ++ [Passly_getPassportByAddress address] /\
    match r with
    | Some n => Single.getPassportByAddress contract address = Returned n /\ safe n
    | None => exists e, Single.getPassportByAddress contract address = Thrown e /\
                        includes (message e) "User has no passport" = true
    end.
Proof.
  unfold Single.getPassportId, Single._ensureConnected, Single.withContract, bind, try_catch,
    remote, toNumber, ret, throw, safe.
  destruct (Single.isConnected this); [|discriminate].
  destruct (Single.contract this) as [contract|].
  2:{ cbn. discriminate. }
  destruct (Single.getPassportByAddress contract address) as [n|e] eqn:Hl.
  - destruct (Z.abs n <=? MAX_SAFE_INTEGER) eqn:Hs.
    + intros [= <- <-]. split; [reflexivity|]. exists contract. auto.
    + cbn. discriminate.
  - destruct (includes (message e) "User has no passport") eqn:Hi; [|discriminate].
    intros [= <- <-]. split; [reflexivity|]. exists contract. eauto.
Qed.

(** The run of the single-source [getPassport] when the base record and the
    detail of every listed platform load. *)
Lemma Single_getPassport_run (this : Single.SDK) (contract : Single.Contract)
    (address : string) (n : Z) (data : Single.PassportData) (l : list string) (tr : Trace) :
  Single.isConnected this = true ->
  Single.contract this = Some contract ->
  baseLoadsSingle contract address n data l ->
  (forall platform, In platform l -> is_Some (loadedSingle contract n platform)) ->
  Single.getPassport this address tr =
    (Returned (Some (passportOfSingle contract n data l)),
     tr ++ baseCalls address n ++ map (Passly_getVerification n) l).
Proof.
  intros Hc Hp (Hl & Hn0 & Hn & Hd & Hpl & Hs1 & Hs2) Hall.
  unfold Single.getPassport. unfold bind at 1. unfold Single._ensureConnected. rewrite Hc.
  cbn [ret]. unfold bind at 1. unfold try_catch, bind at 1.
  rewrite (AggregationFacts.Single_getPassportId_returned this contract address n tr
             Hc Hp Hl Hn).
  apply Z.eqb_neq in Hn0. cbn [ret]. rewrite Hn0.
  unfold Single.withContract. rewrite Hp.
  unfold bind at 1. unfold remote at 1. rewrite Hd.
  unfold bind at 1. unfold remote at 1. rewrite Hpl.
  unfold bind at 1. rewrite (Single_gather_exact contract n l _ _ Hall).
  unfold bind. rewrite !AggregationFacts.toNumber_safe by assumption.
  unfold ret, baseCalls, passportOfSingle. repeat rewrite <- app_assoc. reflexivity.
Qed.

Lemma Single_getPassport_inv (this : Single.SDK) (address : string) (tr tr' : Trace)
    (p : Single.Passport) :
  Single.getPassport this address tr = (Returned (Some p), tr') ->
  Single.isConnected this = true /\
  exists contract n data l,
    Single.contract this = Some contract /\
    baseLoadsSingle contract address n data l /\
    (forall platform, In platform l -> is_Some (loadedSingle contract n platform)) /\
    p = passportOfSingle contract n data l /\
    tr' = tr ++ baseCalls address n ++ map (Passly_getVerification n) l.
Proof.
  intros H.
  assert (Hc : Single.isConnected this = true).
  { unfold Single.getPassport, Single._ensureConnected, bind in H.
    destruct (Single.isConnected this); [reflexivity|discriminate]. }
  split; [exact Hc|].
  pose proof H as H0.
  unfold Single.getPassport in H. unfold bind at 1 in H.
  unfold Single._ensureConnected in H. rewrite Hc in H. cbn [ret] in H.
  unfold bind at 1 in H. unfold try_catch, bind at 1 in H.
  destruct (Single.getPassportId this address tr) as [[[n|]|e] t1] eqn:Hid;
    cbn [ret] in H; try discriminate.
  destruct (Single_getPassportId_inv _ _ _ _ _ Hid) as (_ & contract & Hp & -> & Hl & Hn).
  destruct (n =? 0) eqn:Hn0; cbn [ret] in H; [discriminate|].
  apply Z.eqb_neq in Hn0.
  unfold Single.withContract in H. rewrite Hp in H.
  unfold bind at 1 in H. unfold remote at 1 in H.
  destruct (Single.getPassportData contract n) as [data|e] eqn:Hd; [|discriminate].
  unfold bind at 1 in H. unfold remote at 1 in H.
  destruct (Single.getVerifiedPlatforms contract n) as [l|e] eqn:Hpl; [|discriminate].
  unfold bind at 1 in H.
  destruct (Single.gatherVerifications contract n l ∅ _) as [[m|e] t2] eqn:Hg;
    [|discriminate].
  pose proof (Single_gather_inv contract n l _ _ _ _ Hg) as Hall.
  unfold bind, toNumber in H.
  destruct (Z.abs (Single.raw_createdAt data) <=? MAX_SAFE_INTEGER) eqn:Hs1;
    [|discriminate]. cbn [ret] in H.
  destruct (Z.abs (Single.raw_verificationCount data) <=? MAX_SAFE_INTEGER) eqn:Hs2;
    [|discriminate]. cbn [ret] in H.
  assert (Hbase : baseLoadsSingle contract address n data l).
  { repeat split; assumption. }
  exists contract, n, data, l. split; [exact Hp|]. split; [exact Hbase|].
  split; [exact Hall|].
  rewrite (Single_getPassport_run this contract address n data l tr Hc Hp Hbase Hall) in H0.
  injection H0 as Hpeq Htr. split; now symmetry.
Qed.

End RunFacts.

(** ** Passports as the two clients build them *)

Module PassportFacts.
Import Props MoreProps RunFacts.

(** X2. A passport returned by the multi-source [getPassport] has a non-zero
    identifier within the safe integers, and every key of its mapping is one
    of its listed platforms (the converse fails when a detail did not load). *)
Theorem Multi_passport_invariant (this : Multi.SDK) (address : string) (tr tr' : Trace)
    (p : Multi.Passport) :
  Multi.getPassport this address tr = (Returned (Some p), tr') ->
  Multi.id p <> 0 /\ safe (Multi.id p) /\
  (forall platform, is_Some (Multi.verifications p !! platform) ->
     platform ∈ Multi.platforms p).
Proof.
  intros H. destruct (Multi_getPassport_inv _ _ _ _ _ H)
    as (_ & passly & n & data & l & _ & Hbase & -> & _).
  destruct Hbase as (_ & Hn0 & Hn & _).
  split; [exact Hn0|]. split; [exact Hn|].
  intros platform. cbn [Multi.verifications Multi.platforms passportOfMulti].
  rewrite storeAll_empty_lookup.
  destruct (decide (platform ∈ l)) as [Hin|_]; [intros _; exact Hin|].
  intros [v Hv]. discriminate.
Qed.

(** X3. A passport returned by the single-source [getPassport] has a non-zero
    identifier, and its platform list and the keys of its mapping coincide. *)
Theorem Single_passport_invariant (this : Single.SDK) (address : string) (tr tr' : Trace)
    (p : Single.Passport) :
  Single.getPassport this address tr = (Returned (Some p), tr') ->
  Single.id p <> 0 /\
  (forall platform,
     platform ∈ Single.platforms p <-> is_Some (Single.verifications p !! platform)).
Proof.
  intros H. destruct (Single_getPassport_inv _ _ _ _ _ H)
    as (_ & contract & n & data & l & _ & Hbase & Hall & -> & _).
  destruct Hbase as (_ & Hn0 & _).
  split; [exact Hn0|].
  intros platform. cbn [Single.verifications Single.platforms passportOfSingle].
  rewrite storeAll_empty_lookup.
  destruct (decide (platform ∈ l)) as [Hin|Hnin].
  - split; [intros _|intros _; exact Hin]. apply Hall. now apply list_elem_of_In.
  - split; [contradiction|]. intros [v Hv]. discriminate.
Qed.

End PassportFacts.

(** ** Further views of the single-source client *)

Module SingleViewFacts.
Import Single Props MoreProps RunFacts.

Lemma passportOfSingle_loaded (contract : Contract) (n : Z) (data : PassportData)
    (l : list string) :
  (forall platform, In platform l -> is_Some (loadedSingle contract n platform)) ->
  forall platform, In platform l ->
    is_Some (verifications (passportOfSingle contract n data l) !! platform).
Proof.
  intros Hall platform Hin. cbn [verifications passportOfSingle].
  rewrite storeAll_empty_lookup.
  destruct (decide (platform ∈ l)) as [_|Hn]; [now apply Hall|].
  exfalso. apply Hn. now apply list_elem_of_In.
Qed.

Lemma collectProofHashes_exact (verifs : gmap string Verification) :
  forall (l : list string) (acc : gmap string string),
    (forall platform, In platform l -> is_Some (verifs !! platform)) ->
    collectProofHashes verifs l acc = Returned (storeAll (activeHashOf verifs) l acc).
Proof.
  induction l as [|x l IH]; intros acc Hall; [reflexivity|].
  destruct (Hall x (or_introl eq_refl)) as [v Hv].
  cbn [collectProofHashes]. rewrite Hv.
  rewrite IH by (intros y Hy; apply Hall; now right).
  assert (Hh : activeHashOf verifs x = if active v then Some (proofHash v) else None)
    by (unfold activeHashOf; now rewrite Hv).
  unfold storeAll. cbn [foldl]. rewrite Hh. now destruct (active v).
Qed.

(** X4. In the single-source client, for an address whose passport exists,
    [getAllProofHashes] returns a mapping (possibly empty, never null) that
    holds exactly the proof hashes of the active entries of the passport, and
    [getProofHash] for a platform returns what that mapping holds at the
    lower-cased platform name, null when it holds nothing there. *)
Theorem Single_proof_hashes_agree (this : SDK) (address : string) (tr tr' : Trace)
    (p : Passport) :
  getPassport this address tr = (Returned (Some p), tr') ->
  exists m,
    getAllProofHashes this address tr = (Returned (Some m), tr') /\
    (forall platform, m !! platform = activeHashOf (verifications p) platform) /\
    (forall platform,
       getProofHash this address platform tr = (Returned (m !! toLowerCase platform), tr')).
Proof.
  intros H. destruct (Single_getPassport_inv _ _ _ _ _ H)
    as (_ & contract & n & data & l & _ & _ & Hall & Hp & _).
  assert (Hloaded : forall platform, In platform (platforms p) ->
                      is_Some (verifications p !! platform)).
  { subst p. now apply passportOfSingle_loaded. }
  assert (Hm : forall platform,
            storeAll (activeHashOf (verifications p)) (platforms p) ∅ !! platform =
            activeHashOf (verifications p) platform).
  { intros platform. rewrite storeAll_empty_lookup.
    destruct (decide (platform ∈ platforms p)) as [_|Hnin]; [reflexivity|].
    unfold activeHashOf.
    destruct (verifications p !! platform) as [v|] eqn:Hv; [|reflexivity].
    exfalso. apply Hnin. subst p. cbn [verifications platforms passportOfSingle] in *.
    rewrite storeAll_empty_lookup in Hv.
    now destruct (decide (platform ∈ l)). }
  exists (storeAll (activeHashOf (verifications p)) (platforms p) ∅).
  split; [|split; [exact Hm|]].
  - unfold getAllProofHashes. rewrite (bind_returned _ _ _ _ _ H).
    unfold bind, lift. now rewrite (collectProofHashes_exact _ _ _ Hloaded).
  - intros platform. rewrite Hm. unfold getProofHash.
    rewrite (bind_returned _ _ _ _ _ H). unfold activeHashOf.
    destruct (verifications p !! toLowerCase platform) as [v|]; [|reflexivity].
    now destruct (active v).
Qed.

(** The search for the earliest active entry. *)
Lemma findEarliest_spec (verifs : gmap string Verification) :
  forall (l : list string) (cur : option Earliest),
    (forall k, In k l -> is_Some (verifs !! k)) ->
    exists r,
      findEarliest verifs l cur = Returned r /\
      (r = None ->
       cur = None /\
       forall k v, In k l -> verifs !! k = Some v -> active v = false) /\
      (forall e, r = Some e ->
         (cur = Some e \/
          (In (e_platform e) l /\
           exists v, verifs !! e_platform e = Some v /\ active v = true /\
                     e = earliestOf (e_platform e) v)) /\
         (forall c, cur = Some c -> e_verifiedAt e <= e_verifiedAt c) /\
         (forall k v, In k l -> verifs !! k = Some v -> active v = true ->
            e_verifiedAt e <= verifiedAt v)).
Proof.
  induction l as [|x l IH]; intros cur Hall.
  - exists cur. cbn. split; [reflexivity|]. split.
    + intros ->. split; [reflexivity|]. intros k v [].
    + intros e ->. split; [now left|]. split.
      * intros c [= ->]. lia.
      * intros k v [].
  - destruct (Hall x (or_introl eq_refl)) as [vx Hx].
    assert (Hall' : forall k, In k l -> is_Some (verifs !! k))
      by (intros k Hk; apply Hall; now right).
    cbn [findEarliest]. rewrite Hx.
    destruct (active vx &&
              match cur with
              | Some e => verifiedAt vx <? e_verifiedAt e
              | None => true
              end) eqn:Htest.
    + apply andb_true_iff in Htest as [Hact Hold].
      destruct (IH (Some (earliestOf x vx)) Hall') as (r & Hrun & Hnone & Hsome).
      exists r. split; [exact Hrun|]. split.
      * intros Hr. destruct (Hnone Hr) as [Hcur _]. discriminate.
      * intros e He. destruct (Hsome e He) as (Hwhere & Hle & Hmin).
        specialize (Hle _ eq_refl). cbn in Hle.
        split; [|split].
        -- right. destruct Hwhere as [[= <-]|(Hin & v & Hv & Ha & Heq)].
           ++ cbn. split; [now left|]. exists vx. auto.
           ++ split; [now right|]. exists v. auto.
        -- intros c ->. apply Z.ltb_lt in Hold. lia.
        -- intros k v [<-|Hk] Hv Ha; [|now apply (Hmin k v)].
           rewrite Hx in Hv. injection Hv as <-. exact Hle.
    + destruct (IH cur Hall') as (r & Hrun & Hnone & Hsome).
      exists r. split; [exact Hrun|]. split.
      * intros Hr. destruct (Hnone Hr) as [-> Hrest]. split; [reflexivity|].
        intros k v [<-|Hk] Hv; [|now apply (Hrest k v)].
        rewrite Hx in Hv. injection Hv as <-.
        now rewrite andb_true_r in Htest.
      * intros e He. destruct (Hsome e He) as (Hwhere & Hle & Hmin).
        split; [|split; [exact Hle|]].
        -- destruct Hwhere as [Hc|(Hin & Hv)]; [now left|right].
           split; [now right|exact Hv].
        -- intros k v [<-|Hk] Hv Ha; [|now apply (Hmin k v)].
           rewrite Hx in Hv. injection Hv as <-. rewrite Ha in Htest. cbn in Htest.
           destruct cur as [c|]; [|discriminate].
           apply Z.ltb_ge in Htest. specialize (Hle c eq_refl). lia.
Qed.

Lemma getEarliestVerification_spec (this : SDK) (now : Z) (address : string)
    (tr tr' : Trace) (p : Passport) :
  getPassport this address tr = (Returned (Some p), tr') ->
  exists r,
    getEarliestVerification this now address tr = (Returned r, tr') /\
    (r = None <->
     forall platform v, verifications p !! platform = Some v -> active v = false) /\
    (forall ev, r = Some ev ->
       ageInDays ev = (now - e_verifiedAt (earliest ev)) / MS_PER_DAY /\
       (exists v, verifications p !! e_platform (earliest ev) = Some v /\
                  active v = true /\ earliest ev = earliestOf (e_platform (earliest ev)) v) /\
       forall platform v, verifications p !! platform = Some v -> active v = true ->
         e_verifiedAt (earliest ev) <= verifiedAt v).
Proof.
  intros H. destruct (Single_getPassport_inv _ _ _ _ _ H)
    as (_ & contract & n & data & l & _ & _ & Hall & Hp & _).
  assert (Hloaded : forall platform, In platform (platforms p) ->
                      is_Some (verifications p !! platform)).
  { subst p. now apply passportOfSingle_loaded. }
  assert (Hkeys : forall platform v, verifications p !! platform = Some v ->
                    In platform (platforms p)).
  { intros platform v Hv. subst p. cbn [verifications platforms passportOfSingle] in *.
    rewrite storeAll_empty_lookup in Hv.
    destruct (decide (platform ∈ l)) as [Hin|_]; [|discriminate].
    now apply list_elem_of_In. }
  destruct (findEarliest_spec (verifications p) (platforms p) None Hloaded)
    as (r & Hrun & Hnone & Hsome).
  unfold getEarliestVerification. rewrite (bind_returned _ _ _ _ _ H).
  destruct (platforms p) as [|x rest] eqn:Hpl.
  - cbn in Hrun. injection Hrun as <-.
    exists None. split; [reflexivity|]. split; [|discriminate].
    split; [|reflexivity]. intros _ platform v Hv. destruct (Hkeys _ _ Hv).
  - rewrite <- Hpl in *. assert (Hlen : (length (platforms p) =? 0)%nat = false)
      by (rewrite Hpl; reflexivity).
    rewrite Hlen. unfold bind, lift. rewrite Hrun.
    destruct r as [e|].
    + eexists. split; [reflexivity|]. split.
      * split; [discriminate|]. intros Hno.
        destruct (Hsome e eq_refl) as ([Hc|(_ & v & Hv & Ha & _)] & _); [discriminate|].
        rewrite (Hno _ _ Hv) in Ha. discriminate.
      * intros ev [= <-]. cbn [ageInDays earliest].
        destruct (Hsome e eq_refl) as ([Hc|(_ & v & Hv & Ha & He)] & _ & Hmin);
          [discriminate|].
        split; [reflexivity|]. split; [now exists v|].
        intros platform v' Hv' Ha'. apply (Hmin platform v'); eauto.
    + exists None. split; [reflexivity|]. split; [|discriminate].
      split; [|reflexivity]. intros _ platform v Hv.
      destruct (Hnone eq_refl) as [_ Hno]. apply (Hno platform v); eauto.
Qed.

(** X5. In the single-source client, for an address whose passport exists,
    [getEarliestVerification] never throws; it returns null exactly when no
    entry of the passport is active, and otherwise an active entry whose
    [verifiedAt] is the least among the active entries, with its age in whole
    days at the clock reading (the dates of the entries being valid). *)
Theorem Single_earliest_is_minimum (this : SDK) (now : Z) (address : string)
    (tr tr' : Trace) (p : Passport) :
  getPassport this address tr = (Returned (Some p), tr') ->
  validDates (verifications p) ->
  exists r,
    getEarliestVerification this now address tr = (Returned r, tr') /\
    (r = None <->
     forall platform v, verifications p !! platform = Some v -> active v = false) /\
    (forall ev, r = Some ev ->
       ageInDays ev = (now - e_verifiedAt (earliest ev)) / MS_PER_DAY /\
       (exists v, verifications p !! e_platform (earliest ev) = Some v /\
                  active v = true /\ earliest ev = earliestOf (e_platform (earliest ev)) v) /\
       forall platform v, verifications p !! platform = Some v -> active v = true ->
         e_verifiedAt (earliest ev) <= verifiedAt v).
Proof. intros Hp _. now apply getEarliestVerification_spec. Qed.



Lemma div_const_bounds (a d : Z) : 0 < d -> d * (a / d) <= a < d * (a / d) + d.
Proof.
  intros Hd. pose proof (Z.div_mod a d ltac:(lia)) as Hdm.
  pose proof (Z.mod_pos_bound a d Hd) as Hb. lia.
Qed.

(** X7. In the single-source client, for an address whose passport exists,
    [getVerificationAge] returns null exactly when the passport has no active
    entry under the lower-cased platform name; otherwise the age is counted
    from the entry's [verifiedAt] to the clock reading, the reported units
    agree (days are the whole hours divided by 24, hours the whole minutes
    divided by 60), and the readable text counts days from one day on, hours
    from one hour on, and minutes below (the dates of the entries being
    valid). *)
Theorem Single_verification_age (this : SDK) (now : Z) (address platform : string)
    (tr tr' : Trace) (p : Passport) :
  getPassport this address tr = (Returned (Some p), tr') ->
  validDates (verifications p) ->
  exists r,
    getVerificationAge this now address platform tr = (Returned r, tr') /\
    (r = None <->
     forall v, verifications p !! toLowerCase platform = Some v -> active v = false) /\
    (forall a, r = Some a ->
       va_platform a = toLowerCase platform /\
       (exists v, verifications p !! toLowerCase platform = Some v /\ active v = true /\
                  va_identifier a = identifier v /\ va_verifiedAt a = verifiedAt v /\
                  ageInMs a = now - verifiedAt v) /\
       ageInMinutes a = ageInMs a / 60000 /\
       ageInHours a = ageInMinutes a / 60 /\
       va_ageInDays a = ageInHours a / 24 /\
       (86400000 <= ageInMs a -> humanReadable a = plural (va_ageInDays a) "day") /\
       (3600000 <= ageInMs a < 86400000 ->
        humanReadable a = plural (ageInHours a) "hour") /\
       (ageInMs a < 3600000 -> humanReadable a = plural (ageInMinutes a) "minute")).
Proof.
  intros H _. unfold getVerificationAge. rewrite (bind_returned _ _ _ _ _ H).
  destruct (verifications p !! toLowerCase platform) as [v|] eqn:Hv.
  2:{ exists None. split; [reflexivity|]. split; [|discriminate].
      split; [discriminate|reflexivity]. }
  destruct (active v) eqn:Ha.
  2:{ exists None. split; [reflexivity|]. split; [|discriminate].
      split; [intros _ v' [= <-]; exact Ha|reflexivity]. }
  eexists. split; [reflexivity|]. split.
  { split; [discriminate|]. intros Hno. rewrite (Hno v eq_refl) in Ha. discriminate. }
  intros a [= <-]. cbn [va_platform va_identifier va_verifiedAt ageInMs ageInMinutes
                        ageInHours va_ageInDays humanReadable].
  set (ms := now - verifiedAt v).
  change MS_PER_DAY with 86400000. change (1000 * 60 * 60) with 3600000.
  change (1000 * 60) with 60000.
  pose proof (div_const_bounds ms 86400000 ltac:(lia)) as Hd.
  pose proof (div_const_bounds ms 3600000 ltac:(lia)) as Hh.
  split; [reflexivity|]. split; [exists v; auto|]. split; [reflexivity|].
  split; [rewrite Z.div_div by lia; reflexivity|].
  split; [rewrite Z.div_div by lia; reflexivity|].
  split; [|split].
  - intros Hms. destruct (Z.gtb_spec (ms / 86400000) 0); [reflexivity|lia].
  - intros Hms. destruct (Z.gtb_spec (ms / 86400000) 0); [lia|].
    destruct (Z.gtb_spec (ms / 3600000) 0); [reflexivity|lia].
  - intros Hms. destruct (Z.gtb_spec (ms / 86400000) 0); [lia|].
    destruct (Z.gtb_spec (ms / 3600000) 0); [lia|reflexivity].
Qed.

End SingleViewFacts.

(** ** More on the verification-strength scores *)

Module ScoreFacts.
Import Props MoreProps RunFacts.

(** The multi-source score is the plain sum of its four components: the
    caps of the components add up to 100, so the final cap never cuts. *)
Lemma Multi_strengthOf_sum (now : Z) (p : Multi.Passport) (act : list string) :
  let s := Multi.strengthOf now p act in
  let b := Multi.breakdown s in
  Multi.score s = Multi.platformCount b + Multi.ageBonus b + Multi.diversityBonus b +
                  Multi.pointsBonus b /\
  0 <= Multi.platformCount b <= 75 /\ Multi.ageBonus b <= 10 /\
  0 <= Multi.diversityBonus b <= 10 /\ 0 <= Multi.pointsBonus b <= 5 /\
  Multi.platformCount b = Z.min (Z.of_nat (length act) * 15) 75 /\
  Multi.activePlatforms s = Z.of_nat (length act).
Proof.
  cbn zeta. unfold Multi.strengthOf.
  cbn [Multi.breakdown Multi.score Multi.platformCount Multi.ageBonus Multi.diversityBonus
       Multi.pointsBonus Multi.totalScore Multi.activePlatforms].
  assert (Hpts : 0 <= (if Multi.totalPoints p >? 0
                       then Z.min (Multi.totalPoints p / 100) 5 else 0) <= 5).
  { destruct (Z.gtb_spec (Multi.totalPoints p) 0); [|lia].
    assert (0 <= Multi.totalPoints p / 100) by (apply Z.div_pos; lia). lia. }
  destruct (2 <=? _)%nat, (Multi.totalPoints p >? 0); repeat split; lia.
Qed.

(** X8. For a passport whose listed platforms are all loaded and whose creation
    date is valid, the multi-source
    [getVerificationStrength] returns a score that is exactly the sum of the
    four components of its breakdown and at most 100; the score is not
    negative when the clock is not behind [createdAt]; and grade A is only
    given with at least four active platforms. *)
Theorem Multi_score_is_sum (this : Multi.SDK) (now : Z) (address : string)
    (p : Multi.Passport) (tr tr' : Trace) :
  Multi.getPassport this address tr = (Returned (Some p), tr') ->
  allLoaded p ->
  validDate (Multi.createdAt p) ->
  exists s,
    Multi.getVerificationStrength this now address tr = (Returned (Some s), tr') /\
    Multi.score s =
      Multi.platformCount (Multi.breakdown s) + Multi.ageBonus (Multi.breakdown s) +
      Multi.diversityBonus (Multi.breakdown s) + Multi.pointsBonus (Multi.breakdown s) /\
    Multi.score s <= 100 /\
    (Multi.createdAt p <= now -> 0 <= Multi.score s) /\
    Multi.activePlatforms s = Z.of_nat (length (activePlatformsOf p)) /\
    (Multi.grade s = "A" -> (4 <= length (activePlatformsOf p))%nat).
Proof.
  intros Hp Hall _. exists (Multi.strengthOf now p (activePlatformsOf p)).
  destruct (Multi_strengthOf_sum now p (activePlatformsOf p))
    as (Hsum & Hpc & Hage & Hdiv & Hpts & Hpceq & Hact).
  split; [|split; [exact Hsum|split; [|split; [|split; [exact Hact|]]]]].
  - unfold Multi.getVerificationStrength. rewrite (bind_returned _ _ _ _ _ Hp).
    unfold bind, lift. rewrite (StrengthFacts.filterActive_loaded _ _ Hall). reflexivity.
  - apply StrengthFacts.strengthOf_score_le_100.
  - apply StrengthFacts.strengthOf_score_nonneg.
  - rewrite StrengthFacts.strengthOf_grade.
    intros HA. apply StrengthFacts.gradeOf_thresholds in HA. lia.
Qed.

Lemma Single_filterActive_loaded (verifs : gmap string Single.Verification)
    (l : list string) :
  (forall platform, In platform l -> is_Some (verifs !! platform)) ->
  Single.filterActive verifs l =
  Returned (List.filter
              (fun platform =>
                 match verifs !! platform with
                 | Some v => Single.active v
                 | None => false
                 end) l).
Proof.
  induction l as [|x l IH]; intros Hall; simpl; [reflexivity|].
  destruct (Hall x (or_introl eq_refl)) as [v Hv]. rewrite Hv.
  rewrite IH by (intros y Hy; apply Hall; now right).
  now destruct (Single.active v).
Qed.

Lemma Single_strengthOf_sum (act : list string) (e : option Single.EarliestVerification) :
  let s := Single.strengthOf act e in
  let b := Single.breakdown s in
  Single.score s = Single.platformCount b + Single.ageBonus b + Single.diversityBonus b /\
  Single.platformCount b = Z.min (Z.of_nat (length act) * 20) 80 /\
  Single.ageBonus b <= 15 /\
  0 <= Single.diversityBonus b <= 5 /\
  Single.activePlatforms s = Z.of_nat (length act).
Proof.
  cbn zeta. unfold Single.strengthOf.
  cbn [Single.breakdown Single.score Single.platformCount Single.ageBonus
       Single.diversityBonus Single.totalScore Single.activePlatforms].
  assert (Hage : match e with
                 | Some ev => Z.min (Single.ageInDays ev * 100 / 2433) 15
                 | None => 0
                 end <= 15) by (destruct e; lia).
  destruct (JS.some act (Array_includes Single.socialPlatforms) &&
            JS.some act (Array_includes Single.devPlatforms)); repeat split; lia.
Qed.

(** The run of the single-source [getVerificationStrength]: the passport is
    fetched a second time for the earliest verification. *)
Lemma Single_strength_run (this : Single.SDK) (now : Z) (address : string)
    (tr tr' : Trace) (p : Single.Passport) :
  Single.getPassport this address tr = (Returned (Some p), tr') ->
  exists r tr'',
    Single.getVerificationStrength this now address tr =
      (Returned (Some (Single.strengthOf (activePlatformsOfSingle p) r)), tr'') /\
    Single.getEarliestVerification this now address tr' = (Returned r, tr'') /\
    (r = None <->
     forall platform v, Single.verifications p !! platform = Some v ->
       Single.active v = false).
Proof.
  intros H. destruct (Single_getPassport_inv _ _ _ _ _ H)
    as (Hc & contract & n & data & l & Hb & Hbase & Hall & Hp & _).
  assert (Hloaded : forall platform, In platform (Single.platforms p) ->
                      is_Some (Single.verifications p !! platform)).
  { subst p. now apply SingleViewFacts.passportOfSingle_loaded. }
  pose proof (Single_getPassport_run this contract address n data l tr' Hc Hb Hbase Hall)
    as H2.
  rewrite <- Hp in H2.
  destruct (SingleViewFacts.getEarliestVerification_spec this now address _ _ p H2)
    as (r & Hrun & Hnone & _).
  exists r. eexists. split; [|split; [exact Hrun|exact Hnone]].
  unfold Single.getVerificationStrength. rewrite (bind_returned _ _ _ _ _ H).
  unfold bind at 1. unfold lift. rewrite (Single_filterActive_loaded _ _ Hloaded).
  now rewrite (bind_returned _ _ _ _ _ Hrun).
Qed.

(** X9. In the single-source client, for an address whose passport exists and
    holds valid dates, [getVerificationStrength] never throws; its score is exactly the sum of
    the three components of its breakdown and at most 100; a passport
    without active entry scores 0 with grade F; and grade A is only given
    with at least three active platforms. *)
Theorem Single_score_is_sum (this : Single.SDK) (now : Z) (address : string)
    (tr tr' : Trace) (p : Single.Passport) :
  Single.getPassport this address tr = (Returned (Some p), tr') ->
  validDates (Single.verifications p) ->
  exists s tr'',
    Single.getVerificationStrength this now address tr = (Returned (Some s), tr'') /\
    Single.score s =
      Single.platformCount (Single.breakdown s) + Single.ageBonus (Single.breakdown s) +
      Single.diversityBonus (Single.breakdown s) /\
    Single.score s <= 100 /\
    Single.platformCount (Single.breakdown s) =
      Z.min (20 * Z.of_nat (length (activePlatformsOfSingle p))) 80 /\
    ((forall platform v, Single.verifications p !! platform = Some v ->
        Single.active v = false) ->
     Single.score s = 0 /\ Single.grade s = "F") /\
    (Single.grade s = "A" -> (3 <= length (activePlatformsOfSingle p))%nat).
Proof.
  intros H _. destruct (Single_strength_run this now address tr tr' p H)
    as (r & tr'' & Hrun & _ & Hnone).
  exists (Single.strengthOf (activePlatformsOfSingle p) r), tr''.
  destruct (Single_strengthOf_sum (activePlatformsOfSingle p) r)
    as (Hsum & Hpc & Hage & Hdiv & _).
  split; [exact Hrun|]. split; [exact Hsum|].
  split; [apply SingleStrengthFacts.Single_strengthOf_score_le_100|].
  split; [rewrite Hpc; f_equal; lia|]. split.
  - intros Hall. pose proof (proj2 Hnone Hall) as Hr. subst r.
    assert (Hact : activePlatformsOfSingle p = []).
    { unfold activePlatformsOfSingle.
      induction (Single.platforms p) as [|x l IH]; [reflexivity|].
      cbn [List.filter].
      destruct (Single.verifications p !! x) as [v|] eqn:Hv; [|exact IH].
      now rewrite (Hall x v Hv). }
    rewrite Hact. split; reflexivity.
  - rewrite SingleStrengthFacts.Single_strengthOf_grade.
    intros HA. apply SingleStrengthFacts.Single_gradeOf_thresholds in HA. lia.
Qed.

End ScoreFacts.

(** ** Further views of the multi-source client *)

Module MultiViewFacts.
Import Multi Props MoreProps RunFacts.

Lemma Multi_hash_step (this : SDK) (passly : PasslyContract) (n : Z) (platform : string)
    (acc : gmap string string) (tr : Trace) :
  c_passly (contracts this) = Some passly ->
  try_catch
    (withPassly this (fun passly =>
       do v <- remote (Passly_getVerification n platform)
                      (getVerification passly n platform);
       ret (if raw_active v then <[platform := raw_proofHash v]> acc else acc)))
    (fun _ => ret acc) tr =
  (Returned match activeHashMulti passly n platform with
            | Some h => <[platform := h]> acc
            | None => acc
            end,
   tr ++ [Passly_getVerification n platform]).
Proof.
  intros Hp. unfold try_catch, withPassly, activeHashMulti, bind, remote, ret.
  rewrite Hp.
  destruct (getVerification passly n platform) as [v|e]; [|reflexivity].
  now destruct (raw_active v).
Qed.

Lemma gatherProofHashes_exact (this : SDK) (passly : PasslyContract) (n : Z) :
  c_passly (contracts this) = Some passly ->
  forall (l : list string) (acc : gmap string string) (tr : Trace),
    gatherProofHashes this n l acc tr =
      (Returned (storeAll (activeHashMulti passly n) l acc),
       tr ++ map (Passly_getVerification n) l).
Proof.
  intros Hp. induction l as [|x l IH]; intros acc tr.
  - cbn. now rewrite app_nil_r.
  - cbn [gatherProofHashes]. unfold bind at 1.
    rewrite (Multi_hash_step this passly n x acc tr Hp), IH.
    cbn [map]. now rewrite <- app_assoc.
Qed.

(** The run of [getAllProofHashes] once the identifier and the platform list
    are known. *)
Lemma getAllProofHashes_run (this : SDK) (passly : PasslyContract) (address : string)
    (n : Z) (l : list string) (tr : Trace) :
  isConnected this = true ->
  c_passly (contracts this) = Some passly ->
  getPassportByAddress passly address = Returned n -> n <> 0 -> safe n ->
  getVerifiedPlatforms passly n = Returned l ->
  getAllProofHashes this address tr =
    (Returned (if (0 <? size (storeAll (activeHashMulti passly n) l ∅))%nat
               then Some (storeAll (activeHashMulti passly n) l ∅) else None),
     tr ++ [Passly_getPassportByAddress address; Passly_getVerifiedPlatforms n] ++
           map (Passly_getVerification n) l).
Proof.
  intros Hc Hp Hl Hn0 Hn Hpl.
  unfold getAllProofHashes. unfold bind at 1. unfold _ensureConnected. rewrite Hc.
  cbn [ret]. unfold try_catch, bind at 1.
  rewrite (AggregationFacts.Multi_getPassportId_returned this passly address n tr Hc Hp Hl Hn).
  apply Z.eqb_neq in Hn0. rewrite Hn0.
  unfold withPassly. rewrite Hp.
  unfold bind at 1. unfold remote at 1. rewrite Hpl.
  unfold bind. rewrite (gatherProofHashes_exact this passly n Hp).
  unfold ret. repeat rewrite <- app_assoc. reflexivity.
Qed.

(** X10. In a connected session [getAllProofHashes] never throws, and what it
    returns is null or a mapping that is not empty and holds, for the listed
    platforms of the passport, exactly the proof hashes of those whose detail
    loads and is active. *)
Theorem Multi_all_proof_hashes_sound (this : SDK) (address : string) (tr : Trace) :
  isConnected this = true ->
  exists r tr',
    getAllProofHashes this address tr = (Returned r, tr') /\
    forall m, r = Some m ->
      m <> ∅ /\
      exists passly n l,
        c_passly (contracts this) = Some passly /\
        getPassportByAddress passly address = Returned n /\ n <> 0 /\
        getVerifiedPlatforms passly n = Returned l /\
        forall platform,
          m !! platform =
          if decide (platform ∈ l) then activeHashMulti passly n platform else None.
Proof.
  intros Hc.
  destruct (getPassportId this address tr) as [[[n|]|e] t1] eqn:Hid.
  - destruct (Multi_getPassportId_inv _ _ _ _ _ Hid) as (_ & passly & Hp & -> & Hl & Hn).
    destruct (Z.eq_dec n 0) as [->|Hn0].
    + exists None. eexists. split; [|discriminate].
      unfold getAllProofHashes, _ensureConnected, bind, try_catch.
      rewrite Hc. cbn [ret]. rewrite Hid. reflexivity.
    + destruct (getVerifiedPlatforms passly n) as [l|e] eqn:Hpl.
      * rewrite (getAllProofHashes_run this passly address n l tr Hc Hp Hl Hn0 Hn Hpl).
        eexists _, _. split; [reflexivity|].
        intros m Hm.
        destruct (0 <? size (storeAll (activeHashMulti passly n) l ∅))%nat eqn:Hsz;
          [|discriminate].
        injection Hm as <-. split.
        -- intros Hempty. rewrite Hempty, map_size_empty in Hsz. discriminate.
        -- exists passly, n, l. repeat split; try assumption.
           intros platform. apply storeAll_empty_lookup.
      * exists None. eexists. split; [|discriminate].
        unfold getAllProofHashes, _ensureConnected, bind, try_catch.
        rewrite Hc. cbn [ret]. rewrite Hid.
        apply Z.eqb_neq in Hn0. rewrite Hn0.
        unfold withPassly. rewrite Hp. unfold remote. rewrite Hpl. reflexivity.
  - exists None. eexists. split; [|discriminate].
    unfold getAllProofHashes, _ensureConnected, bind, try_catch.
    rewrite Hc. cbn [ret]. rewrite Hid. reflexivity.
  - exists None. eexists. split; [|discriminate].
    unfold getAllProofHashes, _ensureConnected, bind, try_catch.
    rewrite Hc. cbn [ret]. rewrite Hid. reflexivity.
Qed.

(** X11. In a connected session, when the identifier of an address resolves and
    its platform list loads, [getAllProofHashes] returns the mapping of the active proof
    hashes as soon as one listed platform has one, and null otherwise; each
    listed platform is fetched once, in order. *)
Theorem Multi_all_proof_hashes_complete (this : SDK) (passly : PasslyContract)
    (address : string) (n : Z) (l : list string) (tr : Trace) :
  isConnected this = true ->
  c_passly (contracts this) = Some passly ->
  getPassportByAddress passly address = Returned n -> n <> 0 -> safe n ->
  getVerifiedPlatforms passly n = Returned l ->
  exists r,
    getAllProofHashes this address tr =
      (Returned r,
       tr ++ [Passly_getPassportByAddress address; Passly_getVerifiedPlatforms n] ++
             map (Passly_getVerification n) l) /\
    (r = None <-> forall platform, In platform l -> activeHashMulti passly n platform = None) /\
    (forall m, r = Some m ->
       forall platform h,
         m !! platform = Some h <->
         In platform l /\ activeHashMulti passly n platform = Some h).
Proof.
  intros Hc Hp Hl Hn0 Hn Hpl.
  rewrite (getAllProofHashes_run this passly address n l tr Hc Hp Hl Hn0 Hn Hpl).
  set (m := storeAll (activeHashMulti passly n) l ∅).
  assert (Hm : forall platform h,
            m !! platform = Some h <->
            In platform l /\ activeHashMulti passly n platform = Some h).
  { intros platform h. unfold m. rewrite storeAll_empty_lookup.
    destruct (decide (platform ∈ l)) as [Hin|Hnin].
    - apply list_elem_of_In in Hin. tauto.
    - split; [discriminate|]. intros [Hin _]. exfalso. apply Hnin.
      now apply list_elem_of_In. }
  eexists. split; [reflexivity|].
  destruct (0 <? size m)%nat eqn:Hsz.
  - split.
    + split; [discriminate|]. intros Hno. exfalso.
      assert (Hempty : m = ∅).
      { apply map_eq. intros k. rewrite lookup_empty.
        destruct (m !! k) as [h|] eqn:Hk; [|reflexivity].
        apply Hm in Hk as [Hin Hh]. rewrite (Hno k Hin) in Hh. discriminate. }
      rewrite Hempty, map_size_empty in Hsz. discriminate.
    + intros m' [= <-]. exact Hm.
  - split; [|discriminate].
    split; [|reflexivity]. intros _ platform Hin.
    destruct (activeHashMulti passly n platform) as [h|] eqn:Hh; [|reflexivity].
    exfalso. assert (Hk : m !! platform = Some h) by (apply Hm; auto).
    apply Nat.ltb_ge in Hsz. assert (Hz : size m = 0%nat) by lia.
    apply map_size_empty_iff in Hz. rewrite Hz, lookup_empty in Hk. discriminate.
Qed.

(** The run of [getPlatformIdentifier] once the identifier is known. *)
Lemma getPlatformIdentifier_run (this : SDK) (passly : PasslyContract)
    (address platform : string) (n : Z) (tr : Trace) :
  isConnected this = true ->
  c_passly (contracts this) = Some passly ->
  getPassportByAddress passly address = Returned n -> n <> 0 -> safe n ->
  getPlatformIdentifier this address platform tr =
    (Returned match getVerification passly n (toLowerCase platform) with
              | Returned v => if raw_active v then Some (raw_identifier v) else None
              | Thrown _ => None
              end,
     tr ++ [Passly_getPassportByAddress address;
            Passly_getVerification n (toLowerCase platform)]).
Proof.
  intros Hc Hp Hl Hn0 Hn.
  unfold getPlatformIdentifier. unfold bind at 1. unfold _ensureConnected. rewrite Hc.
  cbn [ret]. unfold try_catch, bind at 1.
  rewrite (AggregationFacts.Multi_getPassportId_returned this passly address n tr Hc Hp Hl Hn).
  apply Z.eqb_neq in Hn0. rewrite Hn0.
  unfold withPassly. rewrite Hp. unfold bind, remote, ret. rewrite <- app_assoc.
  now destruct (getVerification passly n (toLowerCase platform)).
Qed.

(** X12. In a connected session [getPlatformIdentifier] never throws; an
    identifier is returned only when the registry holds an active
    verification with that identifier under the lower-cased platform name of
    the passport of the address; and two spellings of a platform that differ
    only in case get the same answer. *)
Theorem Multi_platform_identifier_sound (this : SDK) (address platform : string)
    (tr : Trace) :
  isConnected this = true ->
  exists r tr',
    getPlatformIdentifier this address platform tr = (Returned r, tr') /\
    (forall ident, r = Some ident ->
       exists passly n v,
         c_passly (contracts this) = Some passly /\
         getPassportByAddress passly address = Returned n /\ n <> 0 /\
         getVerification passly n (toLowerCase platform) = Returned v /\
         raw_active v = true /\ raw_identifier v = ident) /\
    (forall platform',
       toLowerCase platform' = toLowerCase platform ->
       getPlatformIdentifier this address platform' tr = (Returned r, tr')).
Proof.
  intros Hc.
  assert (Hcase : forall platform',
            toLowerCase platform' = toLowerCase platform ->
            getPlatformIdentifier this address platform' tr =
            getPlatformIdentifier this address platform tr).
  { intros platform' He. unfold getPlatformIdentifier. now rewrite He. }
  destruct (getPassportId this address tr) as [[[n|]|e] t1] eqn:Hid.
  - destruct (Multi_getPassportId_inv _ _ _ _ _ Hid) as (_ & passly & Hp & -> & Hl & Hn).
    destruct (Z.eq_dec n 0) as [->|Hn0].
    + exists None. eexists. split; [|split; [discriminate|]].
      * unfold getPlatformIdentifier, _ensureConnected, bind, try_catch.
        rewrite Hc. cbn [ret]. rewrite Hid. reflexivity.
      * intros platform' He. rewrite (Hcase _ He).
        unfold getPlatformIdentifier, _ensureConnected, bind, try_catch.
        rewrite Hc. cbn [ret]. rewrite Hid. reflexivity.
    + pose proof (getPlatformIdentifier_run this passly address platform n tr
                    Hc Hp Hl Hn0 Hn) as Hrun.
      eexists _, _. split; [exact Hrun|]. split.
      * intros ident Hi.
        destruct (getVerification passly n (toLowerCase platform)) as [v|e] eqn:Hv;
          [|discriminate].
        destruct (raw_active v) eqn:Ha; [|discriminate].
        injection Hi as <-. exists passly, n, v. repeat split; assumption.
      * intros platform' He. now rewrite (Hcase _ He).
  - exists None. eexists. split; [|split; [discriminate|]].
    + unfold getPlatformIdentifier, _ensureConnected, bind, try_catch.
      rewrite Hc. cbn [ret]. rewrite Hid. reflexivity.
    + intros platform' He. rewrite (Hcase _ He).
      unfold getPlatformIdentifier, _ensureConnected, bind, try_catch.
      rewrite Hc. cbn [ret]. rewrite Hid. reflexivity.
  - exists None. eexists. split; [|split; [discriminate|]].
    + unfold getPlatformIdentifier, _ensureConnected, bind, try_catch.
      rewrite Hc. cbn [ret]. rewrite Hid. reflexivity.
    + intros platform' He. rewrite (Hcase _ He).
      unfold getPlatformIdentifier, _ensureConnected, bind, try_catch.
      rewrite Hc. cbn [ret]. rewrite Hid. reflexivity.
Qed.

(** An entry of a passport built by the multi-source client comes from a
    detail that loaded. *)
Lemma passportOfMulti_entry (passly : PasslyContract) (n : Z) (data : PassportData)
    (l : list string) (platform : string) (v : Verification) :
  verifications (passportOfMulti passly n data l) !! platform = Some v ->
  In platform l /\
  exists raw,
    getVerification passly n platform = Returned raw /\
    active v = raw_active raw /\ identifier v = raw_identifier raw /\
    proofHash v = raw_proofHash raw.
Proof.
  cbn [verifications passportOfMulti]. rewrite storeAll_empty_lookup.
  destruct (decide (platform ∈ l)) as [Hin|_]; [|discriminate].
  unfold loadedMulti.
  destruct (getVerification passly n platform) as [raw|e]; [|discriminate].
  destruct (Z.abs (raw_verifiedAt raw) <=? MAX_SAFE_INTEGER); [|discriminate].
  intros [= <-]. split; [now apply list_elem_of_In|]. exists raw. auto.
Qed.


(** What [getProofHash] returns for a passport. *)
Lemma getProofHash_run (this : SDK) (address platform : string) (tr tr' : Trace)
    (p : Passport) :
  getPassport this address tr = (Returned (Some p), tr') ->
  getProofHash this address platform tr =
    (Returned match verifications p !! toLowerCase platform with
              | Some v => if active v then Some (proofHash v) else None
              | None => None
              end, tr').
Proof.
  intros H. unfold getProofHash. rewrite (bind_returned _ _ _ _ _ H).
  destruct (verifications p !! toLowerCase platform) as [v|]; [|reflexivity].
  now destruct (active v).
Qed.

(** X14. For an address whose passport exists, [getProofHash] returns a hash
    exactly for an active entry under the lower-cased platform name, and
    every hash it returns is also held, under that name, by the mapping that
    [getAllProofHashes] returns for the address. *)
Theorem Multi_proof_hash_in_all (this : SDK) (address platform : string)
    (tr tr' : Trace) (p : Passport) :
  getPassport this address tr = (Returned (Some p), tr') ->
  exists r,
    getProofHash this address platform tr = (Returned r, tr') /\
    (forall h, r = Some h <->
       exists v, verifications p !! toLowerCase platform = Some v /\
                 active v = true /\ proofHash v = h) /\
    (forall h, r = Some h ->
       exists m tr'',
         getAllProofHashes this address tr = (Returned (Some m), tr'') /\
         m !! toLowerCase platform = Some h).
Proof.
  intros H. eexists. split; [exact (getProofHash_run this address platform tr tr' p H)|].
  split.
  - intros h. destruct (verifications p !! toLowerCase platform) as [v|].
    + destruct (active v) eqn:Ha.
      * split; [intros [= <-]; eauto|]. intros (v' & [= <-] & _ & <-). reflexivity.
      * split; [discriminate|]. intros (v' & [= <-] & Hc & _). congruence.
    + split; [discriminate|]. intros (v' & Hc & _). discriminate.
  - intros h Hh.
    destruct (verifications p !! toLowerCase platform) as [v|] eqn:Hv; [|discriminate].
    destruct (active v) eqn:Ha; [|discriminate]. injection Hh as <-.
    destruct (Multi_getPassport_inv _ _ _ _ _ H)
      as (Hc & passly & n & data & l & Hp & Hbase & -> & _).
    destruct Hbase as (Hl & Hn0 & Hn & _ & Hpl & _).
    destruct (passportOfMulti_entry _ _ _ _ _ _ Hv) as (Hin & raw & Hraw & Hact & _ & Hph).
    assert (Hk : storeAll (activeHashMulti passly n) l ∅ !! toLowerCase platform =
                 Some (proofHash v)).
    { rewrite storeAll_empty_lookup.
      destruct (decide (toLowerCase platform ∈ l)) as [_|Hnin].
      - unfold activeHashMulti. now rewrite Hraw, <- Hact, Ha, Hph.
      - exfalso. apply Hnin. now apply list_elem_of_In. }
    rewrite (getAllProofHashes_run this passly address n l tr Hc Hp Hl Hn0 Hn Hpl).
    destruct (0 <? size (storeAll (activeHashMulti passly n) l ∅))%nat eqn:Hsz.
    + eexists _, _. split; [reflexivity|exact Hk].
    + exfalso. apply Nat.ltb_ge in Hsz.
      assert (Hz : size (storeAll (activeHashMulti passly n) l ∅) = 0%nat) by lia.
      apply map_size_empty_iff in Hz. rewrite Hz, lookup_empty in Hk. discriminate.
Qed.

(** X15. For an address whose passport exists, in both variants, every platform
    that has an active entry in the passport is a key of the
    [getUserVerifications] result, and is mapped to the identifier of that
    entry. *)
Theorem user_verifications_complete (address : string) (tr tr' : Trace) :
  (forall (this : Multi.SDK) (p : Multi.Passport),
     Multi.getPassport this address tr = (Returned (Some p), tr') ->
     exists view,
       Multi.getUserVerifications this address tr = (Returned (Some view), tr') /\
       forall platform v, Multi.verifications p !! platform = Some v ->
         Multi.active v = true -> view !! platform = Some (Multi.identifier v)) /\
  (forall (this : Single.SDK) (p : Single.Passport),
     Single.getPassport this address tr = (Returned (Some p), tr') ->
     exists view,
       Single.getUserVerifications this address tr = (Returned (Some view), tr') /\
       forall platform v, Single.verifications p !! platform = Some v ->
         Single.active v = true -> view !! platform = Some (Single.identifier v)).
Proof.
  split; intros this p Hp.
  - exists (Multi.activeIdentifiers (Multi.verifications p)). split.
    + unfold Multi.getUserVerifications. now rewrite (bind_returned _ _ _ _ _ Hp).
    + intros platform v Hv Ha.
      now rewrite ViewFacts.Multi_activeIdentifiers_lookup, Hv, Ha.
  - exists (Single.activeIdentifiers (Single.verifications p)). split.
    + unfold Single.getUserVerifications. now rewrite (bind_returned _ _ _ _ _ Hp).
    + intros platform v Hv Ha.
      now rewrite ViewFacts.Single_activeIdentifiers_lookup, Hv, Ha.
Qed.

End MultiViewFacts.

(** ** The session gate, resolution of handles, and points *)

Module GateFacts.
Import Props MoreProps RunFacts.

Ltac gate_multi Hc :=
  unfold Multi.getVerificationStrength, Multi.getProofHash, Multi.hasVerifiedPlatform,
    Multi.getUserVerifications, Multi.getAllProofHashes, Multi.getPlatformIdentifier,
    Multi.getPointBreakdown, Multi.getPoints, Multi.getVerifications, Multi.getPassport,
    Multi.hasPassport, Multi.getPassportId, Multi._ensureConnected, bind, throw;
  rewrite Hc; reflexivity.

(** X16. Before [connect], each of these operations of the multi-source client
    throws the not-connected error and reaches no data source. *)
Theorem Multi_not_connected_gate (isAddress : string -> bool) (this : Multi.SDK)
    (address handle platform : string) (now : Z) (tr : Trace) :
  Multi.isConnected this = false ->
  Multi.getPassportId this address tr = (Thrown notConnected, tr) /\
  Multi.hasPassport this address tr = (Thrown notConnected, tr) /\
  Multi.getPassport this address tr = (Thrown notConnected, tr) /\
  Multi.getVerifications isAddress this handle tr = (Thrown notConnected, tr) /\
  Multi.getPoints isAddress this handle tr = (Thrown notConnected, tr) /\
  Multi.getPointBreakdown isAddress this handle tr = (Thrown notConnected, tr) /\
  Multi.getUserVerifications this address tr = (Thrown notConnected, tr) /\
  Multi.hasVerifiedPlatform this address platform tr = (Thrown notConnected, tr) /\
  Multi.getPlatformIdentifier this address platform tr = (Thrown notConnected, tr) /\
  Multi.getProofHash this address platform tr = (Thrown notConnected, tr) /\
  Multi.getAllProofHashes this address tr = (Thrown notConnected, tr) /\
  Multi.getVerificationStrength this now address tr = (Thrown notConnected, tr).
Proof. intros Hc. repeat split; gate_multi Hc. Qed.

Ltac gate_single Hc :=
  unfold Single.getUsersByCategory, Single.getVerificationStrength,
    Single.getEarliestVerification, Single.getVerificationAge, Single.getAllProofHashes,
    Single.getProofHash, Single.getPlatformIdentifier, Single.hasVerifiedPlatform,
    Single.getUserVerifications, Single.getVerifications, Single.getPassport,
    Single.hasPassport, Single.getPassportId, Single._ensureConnected, bind, throw;
  rewrite Hc; reflexivity.

(** X17. Before [connect], each of these operations of the single-source client
    throws the not-connected error and reaches no data source. *)
Theorem Single_not_connected_gate (this : Single.SDK) (address platform category : string)
    (passportId now limit startId : Z) (fuel : nat) (tr : Trace) :
  Single.isConnected this = false ->
  Single.getPassportId this address tr = (Thrown notConnected, tr) /\
  Single.hasPassport this address tr = (Thrown notConnected, tr) /\
  Single.getPassport this address tr = (Thrown notConnected, tr) /\
  Single.getVerifications this passportId tr = (Thrown notConnected, tr) /\
  Single.getUserVerifications this address tr = (Thrown notConnected, tr) /\
  Single.hasVerifiedPlatform this address platform tr = (Thrown notConnected, tr) /\
  Single.getPlatformIdentifier this address platform tr = (Thrown notConnected, tr) /\
  Single.getVerificationAge this now address platform tr = (Thrown notConnected, tr) /\
  Single.getEarliestVerification this now address tr = (Thrown notConnected, tr) /\
  Single.getVerificationStrength this now address tr = (Thrown notConnected, tr) /\
  Single.getUsersByCategory fuel this category limit startId tr =
    (Thrown notConnected, tr) /\
  Single.getProofHash this address platform tr = (Thrown notConnected, tr) /\
  Single.getAllProofHashes this address tr = (Thrown notConnected, tr).
Proof. intros Hc. repeat split; gate_single Hc. Qed.

Lemma is_digit_range (c : ascii) :
  is_digit c = true -> 0 <= Z.of_nat (nat_of_ascii c) - 48 <= 9.
Proof.
  unfold is_digit. intros H. apply andb_true_iff in H as [H1 H2].
  apply Nat.leb_le in H1. apply Nat.leb_le in H2. lia.
Qed.

Lemma parse_digits_nonneg (s : string) :
  forall acc, all_digits s = true -> 0 <= acc -> 0 <= parse_digits acc s.
Proof.
  induction s as [|c s IH]; intros acc Hd Hacc; [exact Hacc|].
  cbn in Hd. apply andb_true_iff in Hd as [Hc Hs].
  cbn [parse_digits]. apply IH; [exact Hs|].
  pose proof (is_digit_range c Hc). lia.
Qed.

(** X18. [_resolvePassportId]: a text handle made of decimal digits is its number,
    not negative, resolved without any call and without a session; a handle
    that is neither decimal nor an address is refused without any call; and a
    handle resolved through the registry is never the identifier 0. *)
Theorem resolve_handle (isAddress : string -> bool) (this : Multi.SDK) (handle : string)
    (tr : Trace) :
  (is_decimal handle = true -> safe (parseInt handle) ->
   Multi._resolvePassportId isAddress this handle tr = (Returned (parseInt handle), tr) /\
   0 <= parseInt handle) /\
  (is_decimal handle = false -> isAddress handle = false ->
   Multi._resolvePassportId isAddress this handle tr =
     (Thrown (mkError "Invalid address or passport ID"), tr)) /\
  (is_decimal handle = false ->
   forall n tr',
     Multi._resolvePassportId isAddress this handle tr = (Returned n, tr') ->
     n <> 0 /\ isAddress handle = true /\
     Multi.getPassportId this handle tr = (Returned (Some n), tr')) /\
  (is_decimal handle = false -> isAddress handle = true ->
   forall r tr',
     Multi.getPassportId this handle tr = (Returned r, tr') ->
     r = None \/ r = Some 0 ->
     Multi._resolvePassportId isAddress this handle tr =
       (Thrown (mkError "No passport found for address"), tr')).
Proof.
  unfold Multi._resolvePassportId. split; [|split; [|split]].
  - intros Hd _. rewrite Hd. split; [reflexivity|].
    unfold is_decimal in Hd. apply andb_true_iff in Hd as [_ Hd].
    now apply parse_digits_nonneg.
  - intros Hd Ha. now rewrite Hd, Ha.
  - intros Hd n tr' Hres. rewrite Hd in Hres.
    destruct (isAddress handle); [|discriminate].
    unfold bind in Hres.
    destruct (Multi.getPassportId this handle tr) as [[[m|]|e] t]; try discriminate.
    destruct (Z.eqb_spec m 0) as [|Hm]; [discriminate|].
    injection Hres as <- <-. auto.
  - intros Hd Ha r tr' Hid Hr. rewrite Hd, Ha. unfold bind. rewrite Hid.
    now destruct Hr as [->| ->].
Qed.


End GateFacts.

(** ** The order of the results of the category scan *)

Module ScanMoreFacts.
Import Single Props MoreProps.

Lemma omap_scanMatch_ids (contract : Contract) (cat : string) :
  forall (k : nat) (start : Z),
    List.Forall (fun r => start <= u_id r < start + Z.of_nat k)
      (omap (scanMatch contract cat) (consecutive start k)) /\
    StronglySorted Z.lt
      (map u_id (omap (scanMatch contract cat) (consecutive start k))).
Proof.
  induction k as [|k IH]; intros start.
  - cbn. split; constructor.
  - destruct (IH (start + 1)) as [Hrange Hsorted].
    assert (Hwide : List.Forall (fun r => start + 1 <= u_id r < start + Z.of_nat (S k))
                      (omap (scanMatch contract cat) (consecutive (start + 1) k))).
    { eapply List.Forall_impl; [|exact Hrange]. intros r Hr. cbn beta in *. lia. }
    rewrite ScanFacts.omap_consecutive_S.
    destruct (scanMatch contract cat start) as [r|] eqn:Hr; cbn [app].
    + assert (Hid : u_id r = start).
      { unfold scanMatch in Hr.
        destruct (getPassportData contract start) as [data|]; [|discriminate].
        destruct (String.eqb (toLowerCase (raw_category data)) cat); [|discriminate].
        destruct (getVerifiedPlatforms contract start); [|discriminate].
        destruct (_ && _); [|discriminate]. now injection Hr as <-. }
      split.
      * constructor; [lia|]. eapply List.Forall_impl; [|exact Hwide].
        intros r' Hr'. cbn beta in *. lia.
      * cbn [map]. constructor; [exact Hsorted|].
        apply List.Forall_map. eapply List.Forall_impl; [|exact Hwide].
        intros r' Hr'. cbn beta in *. lia.
    + split; [|exact Hsorted].
      eapply List.Forall_impl; [|exact Hwide]. intros r' Hr'. cbn beta in *. lia.
Qed.

Lemma sorted_lt_NoDup (l : list Z) : StronglySorted Z.lt l -> NoDup l.
Proof.
  induction 1 as [|x l Hs IH Hall]; constructor; [|exact IH].
  intros Hin. apply list_elem_of_In in Hin.
  rewrite List.Forall_forall in Hall. specialize (Hall x Hin). lia.
Qed.

(** X20. The results of [getUsersByCategory] carry strictly increasing
    identifiers, all at or after the start identifier: no passport is
    returned twice. *)
Theorem scan_results_increasing (this : SDK) (contract : Contract) (category : string)
    (limit startId : Z) (fuel : nat) (tr tr' : Trace) (users : list UserSummary) :
  Single.contract this = Some contract ->
  (Z.to_nat (limit * 10) < fuel)%nat ->
  getUsersByCategory fuel this category limit startId tr = (Returned (Some users), tr') ->
  StronglySorted Z.lt (map u_id users) /\
  NoDup (map u_id users) /\
  List.Forall (fun r => startId <= u_id r) users.
Proof.
  intros Hc Hfuel Hrun.
  assert (Hconn : isConnected this = true).
  { unfold getUsersByCategory, _ensureConnected, bind in Hrun.
    destruct (isConnected this); [reflexivity|discriminate]. }
  pose (st0 := {| results := []; currentId := startId; found := 0; attempts := 0 |}).
  destruct (ScanFacts.scan_exact this contract (toLowerCase category) limit (limit * 10) Hc
              fuel st0 tr)
    as (k & final & calls & Hscan & Hres & _); [cbn [attempts st0]; lia|].
  unfold getUsersByCategory, _ensureConnected in Hrun. rewrite Hconn in Hrun.
  unfold bind at 1 in Hrun. cbn [ret] in Hrun. unfold bind in Hrun. fold st0 in Hrun.
  rewrite Hscan in Hrun. unfold ret in Hrun. injection Hrun as Hu _.
  rewrite Hres in Hu. cbn [results st0 app] in Hu. subst users.
  destruct (omap_scanMatch_ids contract (toLowerCase category) k startId)
    as [Hrange Hsorted].
  split; [exact Hsorted|]. split.
  - now apply sorted_lt_NoDup.
  - eapply List.Forall_impl; [|exact Hrange]. intros r Hr. cbn beta in *. lia.
Qed.

End ScanMoreFacts.

(** ** Connecting *)

Module ConnectFacts.
Import Props MoreProps RunFacts.

Lemma or_else_given (a d : string) : a <> "" -> or_else (Some a) d = a.
Proof.
  intros Ha. unfold or_else, truthy.
  destruct (String.eqb_spec a ""); [contradiction|reflexivity].
Qed.

(** X21. The multi-source [connect] reaches no data source.  It binds the registry
    and the rewards ledger through the signer when one is configured,
    otherwise through the provider, otherwise through the default provider;
    options given to [connect] win over the constructor's configuration; a
    non-empty configured registry address is used as it is; connecting again
    with no option gives the same session; and afterwards [getPassportId]
    returns what the bound registry answers. *)
Theorem Multi_connect_binding (defaultProvider : Multi.Provider) (this : Multi.SDK)
    (options : Multi.Config) (tr tr' : Trace) (this' : Multi.SDK) :
  Multi.connect defaultProvider this options tr = (Returned this', tr') ->
  exists contractProvider,
    contractProvider =
      match Multi.override (Multi.signer (Multi.config this)) (Multi.signer options) with
      | Some s => s
      | None =>
          match Multi.override (Multi.provider (Multi.config this))
                  (Multi.provider options) with
          | Some p => p
          | None => defaultProvider
          end
      end /\
    tr' = tr /\
    Multi.c_passly (Multi.contracts this') =
      Some (Multi.passlyAt contractProvider
              (or_else (Multi.override (Multi.contractAddress (Multi.config this))
                          (Multi.contractAddress options)) Multi.DEFAULT_PASSLY)) /\
    Multi.c_rewards (Multi.contracts this') =
      Some (Multi.rewardsAt contractProvider
              (or_else (Multi.override (Multi.rewardsAddress (Multi.config this))
                          (Multi.rewardsAddress options)) Multi.DEFAULT_REWARDS)) /\
    (forall a, Multi.contractAddress options = Some a -> a <> "" ->
       Multi.c_passly (Multi.contracts this') =
         Some (Multi.passlyAt contractProvider a)) /\
    Multi.connect defaultProvider this' Multi.noConfig tr' = (Returned this', tr') /\
    (forall passly address n t,
       Multi.c_passly (Multi.contracts this') = Some passly ->
       Multi.getPassportByAddress passly address = Returned n -> safe n ->
       Multi.getPassportId this' address t =
         (Returned (Some n), t ++ [Passly_getPassportByAddress address])).
Proof.
  unfold Multi.connect, ret. intros [= <- <-].
  eexists. split; [reflexivity|]. split; [reflexivity|].
  cbn [Multi.contracts Multi.c_passly Multi.c_rewards Multi.addr_passly Multi.addr_rewards
       Multi.config Multi.spread Multi.contractAddress Multi.rewardsAddress Multi.signer
       Multi.provider].
  rewrite !SessionFacts.or_else_truthy by discriminate.
  split; [reflexivity|]. split; [reflexivity|]. split; [|split].
  - intros a Ha Hne. unfold Multi.override at 2. rewrite Ha.
    now rewrite (or_else_given a _ Hne).
  - cbn. rewrite !SessionFacts.or_else_truthy by discriminate.
    destruct (Multi.override (Multi.signer (Multi.config this)) (Multi.signer options));
      reflexivity.
  - intros passly address n t Hp Hl Hn.
    now apply AggregationFacts.Multi_getPassportId_returned with (passly := passly).
Qed.

(** X22. The single-source [connect] reaches no data source and binds the one
    contract through the signer when one is configured, otherwise through the
    provider, otherwise through the default provider, at the configured
    address or, when that is missing or empty, at the default one; connecting
    again with no option gives the same session; and afterwards
    [getPassportId] returns what the bound contract answers. *)
Theorem Single_connect_binding (defaultProvider : Single.Provider) (this : Single.SDK)
    (options : Single.Config) (tr tr' : Trace) (this' : Single.SDK) :
  Single.connect defaultProvider this options tr = (Returned this', tr') ->
  exists contractProvider address,
    contractProvider =
      match Single.override (Single.signer (Single.config this)) (Single.signer options) with
      | Some s => s
      | None =>
          match Single.override (Single.provider (Single.config this))
                  (Single.provider options) with
          | Some p => p
          | None => defaultProvider
          end
      end /\
    address =
      or_else (Single.override (Single.contractAddress (Single.config this))
                 (Single.contractAddress options)) Single.DEFAULT_CONTRACT /\
    address <> "" /\
    tr' = tr /\
    Single.isConnected this' = true /\
    Single.contract this' = Some (Single.contractAt contractProvider address) /\
    Single.connect defaultProvider this'
      {| Single.contractAddress := None; Single.provider := None; Single.signer := None |}
      tr' = (Returned this', tr') /\
    (forall user n t,
       Single.getPassportByAddress (Single.contractAt contractProvider address) user =
         Returned n -> safe n ->
       Single.getPassportId this' user t =
         (Returned (Some n), t ++ [Passly_getPassportByAddress user])).
Proof.
  unfold Single.connect, ret. intros [= <- <-].
  set (address := or_else _ Single.DEFAULT_CONTRACT).
  assert (Haddr : address <> "").
  { pose proof (SessionFacts.or_else_truthy
                  (Single.override (Single.contractAddress (Single.config this))
                     (Single.contractAddress options))
                  Single.DEFAULT_CONTRACT ltac:(discriminate)) as Ht.
    fold address in Ht. intros He. rewrite He in Ht. discriminate. }
  eexists _, address. split; [reflexivity|]. split; [reflexivity|].
  split; [exact Haddr|]. split; [reflexivity|]. split; [reflexivity|].
  split; [|split].
  - cbn [Single.contract].
    destruct (Single.override (Single.signer (Single.config this)) (Single.signer options));
      reflexivity.
  - cbn [Single.config Single.contractAddress Single.provider Single.signer
         Single.override].
    rewrite (or_else_given address _ Haddr).
    destruct (Single.override (Single.signer (Single.config this)) (Single.signer options));
      reflexivity.
  - intros user n t Hl Hn.
    eapply AggregationFacts.Single_getPassportId_returned; [reflexivity| |exact Hl|exact Hn].
    cbn [Single.contract].
    destruct (Single.override (Single.signer (Single.config this)) (Single.signer options));
      reflexivity.
Qed.

End ConnectFacts.

(** ** How the operations fit together *)

Module ComposeFacts.
Import Props MoreProps RunFacts.

(** X23. In the multi-source client, when the base record of a passport loads but
    the detail of one listed platform does not, [getPassport] returns the
    passport and [getVerificationStrength] throws: the platform is still
    listed, and the scorer reads [.active] of its missing entry. *)
Theorem Multi_strength_throws_on_skipped (this : Multi.SDK) (passly : Multi.PasslyContract)
    (address : string) (n : Z) (data : Multi.PassportData) (l : list string)
    (platform : string) (now : Z) (tr : Trace) :
  Multi.isConnected this = true ->
  Multi.c_passly (Multi.contracts this) = Some passly ->
  baseLoadsMulti passly address n data l ->
  In platform l ->
  loadedMulti passly n platform = None ->
  exists p e tr',
    Multi.getPassport this address tr = (Returned (Some p), tr') /\
    Multi.getVerificationStrength this now address tr = (Thrown e, tr').
Proof.
  intros Hc Hp Hbase Hin Hnone.
  pose proof (Multi_getPassport_run this passly address n data l tr Hc Hp Hbase) as Hrun.
  assert (Hmiss : Multi.verifications (passportOfMulti passly n data l) !! platform = None).
  { cbn [Multi.verifications passportOfMulti]. rewrite storeAll_empty_lookup.
    now destruct (decide (platform ∈ l)). }
  destruct (StrengthFacts.getVerificationStrength_skipped_platform this now address
              (passportOfMulti passly n data l) tr _ platform Hrun Hin Hmiss) as [e He].
  eexists _, e, _. split; [exact Hrun|exact He].
Qed.

(** X24. Whenever [getPassport] returns a passport for an address, [hasPassport]
    is true for it, in both variants. *)
Theorem passport_implies_hasPassport (address : string) (tr tr' : Trace) :
  (forall (this : Multi.SDK) (p : Multi.Passport),
     Multi.getPassport this address tr = (Returned (Some p), tr') ->
     Multi.hasPassport this address tr =
       (Returned true, tr ++ [Passly_getPassportByAddress address])) /\
  (forall (this : Single.SDK) (p : Single.Passport),
     Single.getPassport this address tr = (Returned (Some p), tr') ->
     Single.hasPassport this address tr =
       (Returned true, tr ++ [Passly_getPassportByAddress address])).
Proof.
  split; intros this p H.
  - destruct (Multi_getPassport_inv _ _ _ _ _ H)
      as (Hc & passly & n & data & l & Hp & (Hl & _ & Hn & _) & _).
    unfold Multi.hasPassport.
    now rewrite (bind_returned _ _ _ _ _
                   (AggregationFacts.Multi_getPassportId_returned
                      this passly address n tr Hc Hp Hl Hn)).
  - destruct (Single_getPassport_inv _ _ _ _ _ H)
      as (Hc & contract & n & data & l & Hp & (Hl & _ & Hn & _) & _).
    unfold Single.hasPassport.
    now rewrite (bind_returned _ _ _ _ _
                   (AggregationFacts.Single_getPassportId_returned
                      this contract address n tr Hc Hp Hl Hn)).
Qed.

(** X25. [getVerifications] agrees with [getPassport]: for an address whose
    passport exists, the multi-source [getVerifications], asked with the same
    address or with the decimal text of the passport's identifier, and the
    single-source [getVerifications], asked with the identifier, return the
    [verifications] mapping of that passport. *)
Theorem verifications_agree_with_passport (address : string) (tr tr' t : Trace) :
  (forall (isAddress : string -> bool) (this : Multi.SDK) (p : Multi.Passport),
     Multi.getPassport this address tr = (Returned (Some p), tr') ->
     (forall handle, is_decimal handle = true -> parseInt handle = Multi.id p ->
        exists t', Multi.getVerifications isAddress this handle t =
                     (Returned (Multi.verifications p), t')) /\
     (is_decimal address = false -> isAddress address = true ->
      exists t', Multi.getVerifications isAddress this address t =
                   (Returned (Multi.verifications p), t'))) /\
  (forall (this : Single.SDK) (p : Single.Passport),
     Single.getPassport this address tr = (Returned (Some p), tr') ->
     exists t', Single.getVerifications this (Single.id p) t =
                  (Returned (Single.verifications p), t')).
Proof.
  split.
  - intros isAddress this p H.
    destruct (Multi_getPassport_inv _ _ _ _ _ H)
      as (Hc & passly & n & data & l & Hp & (Hl & Hn0 & Hn & _ & Hpl & _) & -> & _).
    cbn [Multi.id Multi.verifications passportOfMulti].
    split.
    + intros handle Hd Hid. eexists.
      unfold Multi.getVerifications, Multi._ensureConnected, Multi._resolvePassportId.
      rewrite Hc, Hd, Hid. unfold bind at 1. cbn [ret]. unfold bind at 1. cbn [ret].
      unfold Multi.withPassly. rewrite Hp. unfold bind, remote. rewrite Hpl.
      rewrite (Multi_gather_exact this passly n Hp). reflexivity.
    + intros Hd Ha. eexists.
      unfold Multi.getVerifications, Multi._ensureConnected, Multi._resolvePassportId.
      rewrite Hc, Hd, Ha. unfold bind at 1. cbn [ret]. unfold bind at 1. unfold bind at 1.
      rewrite (AggregationFacts.Multi_getPassportId_returned this passly address n t
                 Hc Hp Hl Hn).
      apply Z.eqb_neq in Hn0. rewrite Hn0. cbn [ret].
      unfold Multi.withPassly. rewrite Hp. unfold bind, remote. rewrite Hpl.
      rewrite (Multi_gather_exact this passly n Hp). reflexivity.
  - intros this p H.
    destruct (Single_getPassport_inv _ _ _ _ _ H)
      as (Hc & contract & n & data & l & Hp & (_ & _ & _ & _ & Hpl & _) & Hall & -> & _).
    cbn [Single.id Single.verifications passportOfSingle]. eexists.
    unfold Single.getVerifications, Single._ensureConnected, Single.withContract.
    rewrite Hc, Hp. unfold bind at 1. cbn [ret]. unfold bind, remote. rewrite Hpl.
    rewrite (Single_gather_exact contract n l _ _ Hall). reflexivity.
Qed.

End ComposeFacts.

(** ** The statements above at concrete sessions *)

Module Examples.
Import Props MoreProps Fixtures MoreFixtures.

Lemma getPassport_mixed_multi :
  Multi.getPassport (sdkWith twitterAndGithub) "0xCAFE" [] =
    (Returned (Some passportMixed), traceMixed).
Proof. vm_compute. reflexivity. Qed.

Lemma getPassport_mixed_single :
  Single.getPassport (singleWith twitterAndGithub) "0xCAFE" [] =
    (Returned (Some singleMixed), traceMixed).
Proof. vm_compute. reflexivity. Qed.

Lemma validDates_mixed : validDates (Single.verifications singleMixed).
Proof.
  intros platform v H. cbn [Single.verifications singleMixed] in H.
  apply lookup_insert_Some in H as [[_ <-]|[_ H]]; [vm_compute; discriminate|].
  apply lookup_insert_Some in H as [[_ <-]|[_ H]]; [vm_compute; discriminate|].
  now rewrite lookup_empty in H.
Qed.

Lemma Multi_passport_invariant_example :
  Multi.getPassport (sdkWith twitterAndGithub) "0xCAFE" [] =
    (Returned (Some passportMixed), traceMixed) /\
  Multi.id passportMixed <> 0 /\
  (forall platform, is_Some (Multi.verifications passportMixed !! platform) ->
     platform ∈ Multi.platforms passportMixed).
Proof.
  split; [exact getPassport_mixed_multi|].
  destruct (PassportFacts.Multi_passport_invariant _ _ _ _ _ getPassport_mixed_multi)
    as (Hid & _ & Hkeys).
  split; [exact Hid|exact Hkeys].
Defined.

Lemma Single_passport_invariant_example :
  Single.getPassport (singleWith twitterAndGithub) "0xCAFE" [] =
    (Returned (Some singleMixed), traceMixed) /\
  Single.id singleMixed <> 0 /\
  (forall platform,
     platform ∈ Single.platforms singleMixed <->
     is_Some (Single.verifications singleMixed !! platform)).
Proof.
  split; [exact getPassport_mixed_single|].
  exact (PassportFacts.Single_passport_invariant _ _ _ _ _ getPassport_mixed_single).
Defined.

Lemma Single_proof_hashes_agree_example :
  Single.getPassport (singleWith twitterAndGithub) "0xCAFE" [] =
    (Returned (Some singleMixed), traceMixed) /\
  exists m,
    Single.getAllProofHashes (singleWith twitterAndGithub) "0xCAFE" [] =
      (Returned (Some m), traceMixed) /\
    m !! "twitter" = Some "0x01" /\ m !! "github" = None /\
    Single.getProofHash (singleWith twitterAndGithub) "0xCAFE" "Twitter" [] =
      (Returned (Some "0x01"), traceMixed).
Proof.
  split; [exact getPassport_mixed_single|].
  destruct (SingleViewFacts.Single_proof_hashes_agree _ _ _ _ _ getPassport_mixed_single)
    as (m & Hall & Hm & Hone).
  exists m. split; [exact Hall|].
  assert (Ht : m !! "twitter" = Some "0x01") by (rewrite Hm; vm_compute; reflexivity).
  split; [exact Ht|]. split; [rewrite Hm; vm_compute; reflexivity|].
  rewrite (Hone "Twitter"). change (toLowerCase "Twitter") with "twitter".
  now rewrite Ht.
Defined.

Lemma Single_earliest_is_minimum_example :
  Single.getPassport (singleWith twitterAndGithub) "0xCAFE" [] =
    (Returned (Some singleMixed), traceMixed) /\
  validDates (Single.verifications singleMixed) /\
  exists r,
    Single.getEarliestVerification (singleWith twitterAndGithub) nowMixed "0xCAFE" [] =
      (Returned r, traceMixed) /\
    forall ev, r = Some ev ->
      forall platform v, Single.verifications singleMixed !! platform = Some v ->
        Single.active v = true ->
        Single.e_verifiedAt (Single.earliest ev) <= Single.verifiedAt v.
Proof.
  split; [exact getPassport_mixed_single|]. split; [exact validDates_mixed|].
  destruct (SingleViewFacts.Single_earliest_is_minimum _ nowMixed _ _ _ _
              getPassport_mixed_single validDates_mixed) as (r & Hrun & _ & Hsome).
  exists r. split; [exact Hrun|]. intros ev Hev. now destruct (Hsome ev Hev) as (_ & _ & H).
Defined.


Lemma Single_verification_age_example :
  Single.getPassport (singleWith twitterAndGithub) "0xCAFE" [] =
    (Returned (Some singleMixed), traceMixed) /\
  validDates (Single.verifications singleMixed) /\
  exists r,
    Single.getVerificationAge (singleWith twitterAndGithub) nowMixed "0xCAFE" "Twitter" [] =
      (Returned r, traceMixed) /\
    forall a, r = Some a ->
      Single.ageInHours a = Single.ageInMinutes a / 60 /\
      Single.va_ageInDays a = Single.ageInHours a / 24.
Proof.
  split; [exact getPassport_mixed_single|]. split; [exact validDates_mixed|].
  destruct (SingleViewFacts.Single_verification_age _ nowMixed _ "Twitter" _ _ _
              getPassport_mixed_single validDates_mixed) as (r & Hrun & _ & Hsome).
  exists r. split; [exact Hrun|]. intros a Ha.
  destruct (Hsome a Ha) as (_ & _ & _ & Hh & Hd & _). auto.
Defined.

Lemma getPassport_B :
  Multi.getPassport sdkB "0xA11CE" [] = (Returned (Some passportB), traceB).
Proof. vm_compute. reflexivity. Qed.

Lemma allLoaded_B : allLoaded passportB.
Proof.
  intros platform Hin. simpl in Hin.
  repeat (destruct Hin as [<-|Hin]; [vm_compute; eauto|]). destruct Hin.
Qed.

Lemma Multi_score_is_sum_example :
  Multi.getPassport sdkB "0xA11CE" [] = (Returned (Some passportB), traceB) /\
  allLoaded passportB /\
  validDate (Multi.createdAt passportB) /\
  exists s,
    Multi.getVerificationStrength sdkB nowB "0xA11CE" [] = (Returned (Some s), traceB) /\
    Multi.score s =
      Multi.platformCount (Multi.breakdown s) + Multi.ageBonus (Multi.breakdown s) +
      Multi.diversityBonus (Multi.breakdown s) + Multi.pointsBonus (Multi.breakdown s) /\
    0 <= Multi.score s <= 100.
Proof.
  assert (Hd : validDate (Multi.createdAt passportB)) by (vm_compute; discriminate).
  split; [exact getPassport_B|]. split; [exact allLoaded_B|]. split; [exact Hd|].
  destruct (ScoreFacts.Multi_score_is_sum sdkB nowB "0xA11CE" passportB [] traceB
              getPassport_B allLoaded_B Hd) as (s & Hrun & Hsum & Hle & Hge & _).
  exists s. split; [exact Hrun|]. split; [exact Hsum|].
  split; [apply Hge; vm_compute; discriminate|exact Hle].
Defined.

Lemma Single_score_is_sum_example :
  Single.getPassport (singleWith twitterAndGithub) "0xCAFE" [] =
    (Returned (Some singleMixed), traceMixed) /\
  validDates (Single.verifications singleMixed) /\
  exists s tr'',
    Single.getVerificationStrength (singleWith twitterAndGithub) nowMixed "0xCAFE" [] =
      (Returned (Some s), tr'') /\
    Single.score s =
      Single.platformCount (Single.breakdown s) + Single.ageBonus (Single.breakdown s) +
      Single.diversityBonus (Single.breakdown s) /\
    Single.score s <= 100.
Proof.
  split; [exact getPassport_mixed_single|]. split; [exact validDates_mixed|].
  destruct (ScoreFacts.Single_score_is_sum _ nowMixed _ _ _ _ getPassport_mixed_single
              validDates_mixed)
    as (s & tr'' & Hrun & Hsum & Hle & _).
  exists s, tr''. auto.
Defined.

Lemma Multi_all_proof_hashes_sound_example :
  Multi.isConnected (sdkWith withDiscord) = true /\
  exists r tr',
    Multi.getAllProofHashes (sdkWith withDiscord) "0xCAFE" [] = (Returned r, tr') /\
    forall m, r = Some m -> m <> ∅.
Proof.
  split; [reflexivity|].
  destruct (MultiViewFacts.Multi_all_proof_hashes_sound (sdkWith withDiscord) "0xCAFE" []
              eq_refl) as (r & tr' & Hrun & Hm).
  exists r, tr'. split; [exact Hrun|]. intros m Hr. now destruct (Hm m Hr).
Defined.

Lemma Multi_all_proof_hashes_complete_example :
  exists r,
    Multi.getAllProofHashes (sdkWith withDiscord) "0xCAFE" [] =
      (Returned r,
       [Passly_getPassportByAddress "0xCAFE"; Passly_getVerifiedPlatforms 3] ++
       map (Passly_getVerification 3) withDiscord) /\
    forall m, r = Some m ->
      m !! "twitter" = Some "0x01" /\ m !! "github" = None /\ m !! "discord" = None.
Proof.
  destruct (MultiViewFacts.Multi_all_proof_hashes_complete (sdkWith withDiscord)
              (registryWith withDiscord) "0xCAFE" 3 withDiscord []
              eq_refl eq_refl eq_refl ltac:(discriminate) eq_refl eq_refl)
    as (r & Hrun & _ & Hm).
  exists r. split; [exact Hrun|]. intros m Hr. specialize (Hm m Hr).
  split; [apply Hm; split; [cbn; auto|reflexivity]|].
  split.
  - destruct (m !! "github") as [h|] eqn:Hg; [|reflexivity].
    apply Hm in Hg as [_ Hh]. discriminate.
  - destruct (m !! "discord") as [h|] eqn:Hd; [|reflexivity].
    apply Hm in Hd as [_ Hh]. discriminate.
Defined.

Lemma Multi_platform_identifier_sound_example :
  Multi.isConnected (sdkWith withDiscord) = true /\
  exists r tr',
    Multi.getPlatformIdentifier (sdkWith withDiscord) "0xCAFE" "Twitter" [] =
      (Returned r, tr') /\
    Multi.getPlatformIdentifier (sdkWith withDiscord) "0xCAFE" "TWITTER" [] =
      (Returned r, tr').
Proof.
  split; [reflexivity|].
  destruct (MultiViewFacts.Multi_platform_identifier_sound (sdkWith withDiscord)
              "0xCAFE" "Twitter" [] eq_refl) as (r & tr' & Hrun & _ & Hcase).
  exists r, tr'. split; [exact Hrun|]. apply Hcase. reflexivity.
Defined.


Lemma Multi_proof_hash_in_all_example :
  Multi.getPassport (sdkWith twitterAndGithub) "0xCAFE" [] =
    (Returned (Some passportMixed), traceMixed) /\
  exists r,
    Multi.getProofHash (sdkWith twitterAndGithub) "0xCAFE" "Twitter" [] =
      (Returned r, traceMixed) /\
    forall h, r = Some h ->
      exists m tr'',
        Multi.getAllProofHashes (sdkWith twitterAndGithub) "0xCAFE" [] =
          (Returned (Some m), tr'') /\
        m !! "twitter" = Some h.
Proof.
  split; [exact getPassport_mixed_multi|].
  destruct (MultiViewFacts.Multi_proof_hash_in_all _ _ "Twitter" _ _ _
              getPassport_mixed_multi) as (r & Hrun & _ & Hall).
  exists r. split; [exact Hrun|exact Hall].
Defined.

Lemma user_verifications_complete_example :
  (exists view,
     Multi.getUserVerifications (sdkWith twitterAndGithub) "0xCAFE" [] =
       (Returned (Some view), traceMixed) /\
     view !! "twitter" = Some "carol") /\
  (exists view,
     Single.getUserVerifications (singleWith twitterAndGithub) "0xCAFE" [] =
       (Returned (Some view), traceMixed) /\
     view !! "twitter" = Some "carol").
Proof.
  destruct (MultiViewFacts.user_verifications_complete "0xCAFE" [] traceMixed) as [HM HS].
  split.
  - destruct (HM _ _ getPassport_mixed_multi) as (view & Hrun & Hact).
    exists view. split; [exact Hrun|].
    exact (Hact "twitter"
             {| Multi.identifier := "carol"; Multi.verifiedAt := 1500100 * 1000;
                Multi.proofHash := "0x01"; Multi.active := true;
                Multi.pointsAwarded := true |}
             ltac:(vm_compute; reflexivity) eq_refl).
  - destruct (HS _ _ getPassport_mixed_single) as (view & Hrun & Hact).
    exists view. split; [exact Hrun|].
    exact (Hact "twitter"
             {| Single.identifier := "carol"; Single.verifiedAt := 1500100 * 1000;
                Single.proofHash := "0x01"; Single.active := true |}
             ltac:(vm_compute; reflexivity) eq_refl).
Defined.

Lemma Multi_not_connected_gate_example :
  Multi.isConnected freshMulti = false /\
  Multi.getPassport freshMulti "0xCAFE" [] = (Thrown notConnected, []) /\
  Multi.getVerificationStrength freshMulti nowB "0xCAFE" [] = (Thrown notConnected, []).
Proof.
  split; [reflexivity|].
  destruct (GateFacts.Multi_not_connected_gate startsWith0x freshMulti "0xCAFE" "3" "twitter"
              nowB [] eq_refl) as (_ & _ & Hp & _ & _ & _ & _ & _ & _ & _ & _ & Hs).
  split; [exact Hp|exact Hs].
Defined.

Lemma Single_not_connected_gate_example :
  Single.isConnected freshSingle = false /\
  Single.getPassport freshSingle "0xCAFE" [] = (Thrown notConnected, []) /\
  Single.getUsersByCategory 51 freshSingle "developer" 5 1 [] = (Thrown notConnected, []).
Proof.
  split; [reflexivity|].
  destruct (GateFacts.Single_not_connected_gate freshSingle "0xCAFE" "twitter" "developer"
              3 nowB 5 1 51 [] eq_refl)
    as (_ & _ & Hp & _ & _ & _ & _ & _ & _ & _ & Hu & _).
  split; [exact Hp|exact Hu].
Defined.

Lemma resolve_handle_example :
  (Multi._resolvePassportId startsWith0x sdkB "0042" [] = (Returned 42, []) /\
   0 <= parseInt "0042") /\
  Multi._resolvePassportId startsWith0x sdkB "alice" [] =
    (Thrown (mkError "Invalid address or passport ID"), []) /\
  Multi._resolvePassportId startsWith0x (sdkAnswering (Returned 0)) "0xCAFE" [] =
    (Thrown (mkError "No passport found for address"),
     [Passly_getPassportByAddress "0xCAFE"]).
Proof.
  split; [|split].
  - destruct (GateFacts.resolve_handle startsWith0x sdkB "0042" []) as (H & _).
    exact (H eq_refl eq_refl).
  - destruct (GateFacts.resolve_handle startsWith0x sdkB "alice" []) as (_ & H & _).
    exact (H eq_refl eq_refl).
  - destruct (GateFacts.resolve_handle startsWith0x (sdkAnswering (Returned 0)) "0xCAFE" [])
      as (_ & _ & _ & H).
    apply (H eq_refl eq_refl (Some 0)); [reflexivity|now right].
Defined.


Lemma getUsers_sparse_run :
  exists users tr',
    Single.getUsersByCategory 51 singleSparse "developer" 5 1 [] =
      (Returned (Some users), tr').
Proof. eexists _, _. vm_compute. reflexivity. Qed.

Lemma scan_results_increasing_example :
  Single.contract singleSparse = Some contractSparse /\
  (Z.to_nat (5 * 10) < 51)%nat /\
  exists users tr',
    Single.getUsersByCategory 51 singleSparse "developer" 5 1 [] =
      (Returned (Some users), tr') /\
    StronglySorted Z.lt (map Single.u_id users) /\ NoDup (map Single.u_id users).
Proof.
  split; [reflexivity|]. split; [vm_compute; lia|].
  destruct getUsers_sparse_run as (users & tr' & Hrun).
  exists users, tr'. split; [exact Hrun|].
  destruct (ScanMoreFacts.scan_results_increasing singleSparse contractSparse "developer"
              5 1 51 [] tr' users eq_refl ltac:(vm_compute; lia) Hrun) as (Hs & Hn & _).
  split; [exact Hs|exact Hn].
Defined.

Lemma Multi_connect_binding_example :
  exists this',
    Multi.connect providerB freshMulti Multi.noConfig [] = (Returned this', []) /\
    Multi.c_passly (Multi.contracts this') = Some registryB /\
    Multi.connect providerB this' Multi.noConfig [] = (Returned this', []) /\
    Multi.getPassportId this' "0xA11CE" [] =
      (Returned (Some 7), [Passly_getPassportByAddress "0xA11CE"]).
Proof.
  assert (Hrun : exists this',
            Multi.connect providerB freshMulti Multi.noConfig [] = (Returned this', []))
    by (eexists; reflexivity).
  destruct Hrun as [this' Hrun]. exists this'.
  destruct (ConnectFacts.Multi_connect_binding providerB freshMulti Multi.noConfig [] []
              this' Hrun) as (cp & Hcp & _ & Hp & _ & _ & Hagain & Hid).
  vm_compute in Hcp. subst cp. change (Multi.passlyAt providerB _) with registryB in Hp.
  split; [exact Hrun|]. split; [exact Hp|]. split; [exact Hagain|].
  exact (Hid registryB "0xA11CE" 7 [] Hp eq_refl eq_refl).
Defined.

Lemma Single_connect_binding_example :
  exists this',
    Single.connect providerSingle freshSingle noSingleConfig [] = (Returned this', []) /\
    Single.isConnected this' = true /\
    Single.contract this' = Some (contractWith twitterAndGithub) /\
    Single.connect providerSingle this' noSingleConfig [] = (Returned this', []) /\
    Single.getPassportId this' "0xCAFE" [] =
      (Returned (Some 3), [Passly_getPassportByAddress "0xCAFE"]).
Proof.
  assert (Hrun : exists this',
            Single.connect providerSingle freshSingle noSingleConfig [] =
              (Returned this', []))
    by (eexists; reflexivity).
  destruct Hrun as [this' Hrun]. exists this'.
  destruct (ConnectFacts.Single_connect_binding providerSingle freshSingle noSingleConfig
              [] [] this' Hrun)
    as (cp & a & Hcp & Ha & _ & _ & Hc & Hb & Hagain & Hid).
  vm_compute in Hcp. subst cp.
  change (Single.contractAt providerSingle a) with (contractWith twitterAndGithub) in Hb, Hid.
  split; [exact Hrun|]. split; [exact Hc|]. split; [exact Hb|]. split; [exact Hagain|].
  exact (Hid "0xCAFE" 3 [] eq_refl eq_refl).
Defined.

Lemma Multi_strength_throws_on_skipped_example :
  baseLoadsMulti (registryWith withDiscord) "0xCAFE" 3 dataMixed withDiscord /\
  In "discord" withDiscord /\
  loadedMulti (registryWith withDiscord) 3 "discord" = None /\
  exists p e tr',
    Multi.getPassport (sdkWith withDiscord) "0xCAFE" [] = (Returned (Some p), tr') /\
    Multi.getVerificationStrength (sdkWith withDiscord) nowMixed "0xCAFE" [] =
      (Thrown e, tr').
Proof.
  assert (Hbase : baseLoadsMulti (registryWith withDiscord) "0xCAFE" 3 dataMixed withDiscord).
  { repeat split. discriminate. }
  assert (Hin : In "discord" withDiscord) by (cbn; auto).
  split; [exact Hbase|]. split; [exact Hin|]. split; [reflexivity|].
  exact (ComposeFacts.Multi_strength_throws_on_skipped (sdkWith withDiscord)
           (registryWith withDiscord) "0xCAFE" 3 dataMixed withDiscord "discord" nowMixed []
           eq_refl eq_refl Hbase Hin eq_refl).
Defined.

Lemma passport_implies_hasPassport_example :
  Multi.hasPassport (sdkWith twitterAndGithub) "0xCAFE" [] =
    (Returned true, [Passly_getPassportByAddress "0xCAFE"]) /\
  Single.hasPassport (singleWith twitterAndGithub) "0xCAFE" [] =
    (Returned true, [Passly_getPassportByAddress "0xCAFE"]).
Proof.
  destruct (ComposeFacts.passport_implies_hasPassport "0xCAFE" [] traceMixed) as [HM HS].
  split.
  - exact (HM _ _ getPassport_mixed_multi).
  - exact (HS _ _ getPassport_mixed_single).
Defined.

Lemma verifications_agree_with_passport_example :
  (exists t', Multi.getVerifications startsWith0x (sdkWith twitterAndGithub) "3" [] =
                (Returned (Multi.verifications passportMixed), t')) /\
  (exists t', Multi.getVerifications startsWith0x (sdkWith twitterAndGithub) "0xCAFE" [] =
                (Returned (Multi.verifications passportMixed), t')) /\
  (exists t', Single.getVerifications (singleWith twitterAndGithub) 3 [] =
                (Returned (Single.verifications singleMixed), t')).
Proof.
  destruct (ComposeFacts.verifications_agree_with_passport "0xCAFE" [] traceMixed [])
    as [HM HS].
  destruct (HM startsWith0x _ _ getPassport_mixed_multi) as [Hnum Haddr].
  split; [apply Hnum; reflexivity|].
  split; [apply Haddr; reflexivity|].
  exact (HS _ _ getPassport_mixed_single).
Defined.

End Examples.
